(** * Bristol Gate: aggregation and feature-synthesis engine

  A shallow embedding of the pipeline's core functions:
  - [feature_utils.apply_savgol_filter]              (Signal Smoother),
  - [AggregateSeriesCreator.create_aggregate_series] (Derived Series Evaluator),
  - [UnifiedDataPipeline._calculate_*_features_series] (Per-Symbol Features),
  - [DuckDBInterpolator.interpolate_and_process]     (Grid Normalizer),
  - [recession.add_recession_features]               (Recession Window Labeler).

  Numeric cells are float64 in the program.  They are modelled by the type
  [num]: a rational for every finite value (rounding is abstracted away) and
  the three special values +inf, -inf and NaN, with the arithmetic of the
  platform on them (signed zeros are not distinguished). *)

From Stdlib Require Import ZArith QArith Qround List String Bool Lia DecimalString.
From Stdlib Require Import Lqa Sorted.
Import ListNotations.
Open Scope Z_scope.

(* ================================================================== *)
(** * Numeric values *)
(* ================================================================== *)

Module Num.

Inductive num : Type :=
| Fin (q : Q)
| PInf
| NInf
| NaN.

Definition of_Z (z : Z) : num := Fin (inject_Z z).

Definition is_nan (x : num) : bool :=
  match x with NaN => true | _ => false end.

Definition Qsgn (q : Q) : Z := Z.sgn (Qnum q).

Definition neg (x : num) : num :=
  match x with
  | Fin q => Fin (Qred (Qopp q))
  | PInf => NInf
  | NInf => PInf
  | NaN => NaN
  end.

Definition add (x y : num) : num :=
  match x, y with
  | NaN, _ | _, NaN => NaN
  | Fin a, Fin b => Fin (Qred (Qplus a b))
  | PInf, NInf | NInf, PInf => NaN
  | PInf, _ | _, PInf => PInf
  | NInf, _ | _, NInf => NInf
  end.

Definition sub (x y : num) : num := add x (neg y).

(** The infinity whose sign is the sign of [s]; NaN when [s] is zero. *)
Definition inf_of_sign (s : Z) : num :=
  match s with
  | Z0 => NaN
  | Zpos _ => PInf
  | Zneg _ => NInf
  end.

Definition sign (x : num) : Z :=
  match x with
  | Fin q => Qsgn q
  | PInf => 1
  | NInf => -1
  | NaN => 0
  end.

Definition mul (x y : num) : num :=
  match x, y with
  | NaN, _ | _, NaN => NaN
  | Fin a, Fin b => Fin (Qred (Qmult a b))
  | _, _ => inf_of_sign (sign x * sign y)
  end.

(** Float division: a finite non-zero value over zero is an infinity,
    zero over zero is NaN; nothing raises. *)
Definition div (x y : num) : num :=
  match x, y with
  | NaN, _ | _, NaN => NaN
  | Fin a, Fin b =>
      if Z.eqb (Qnum b) 0 then inf_of_sign (Qsgn a)
      else Fin (Qred (Qdiv a b))
  | Fin _, _ => Fin 0
  | _, Fin b => if Z.eqb (Qnum b) 0 then x else inf_of_sign (sign x * Qsgn b)
  | _, _ => NaN
  end.

Definition is_zero (x : num) : bool :=
  match x with
  | Fin q => Z.eqb (Qnum q) 0
  | _ => false
  end.

(** Truncation toward zero of a finite value. *)
Definition trunc (q : Q) : Z := Z.quot (Qnum q) (Zpos (Qden q)).

End Num.
Export Num.

Declare Scope num_scope.
Delimit Scope num_scope with num.
Infix "+" := Num.add : num_scope.
Infix "-" := Num.sub : num_scope.
Infix "*" := Num.mul : num_scope.
Infix "/" := Num.div : num_scope.

(* ================================================================== *)
(** * Python results *)
(* ================================================================== *)

(** Exception classes that matter to the code: [LinAlgError] is numpy's
  subclass of [ValueError]; [OtherError] stands for every class that is
  not a [ValueError]. *)
Inductive exn : Type :=
| ValueError
| LinAlgError
| OtherError.

Definition isinstance_ValueError (e : exn) : bool :=
match e with
| ValueError | LinAlgError => true
| OtherError => false
end.

Inductive result (A : Type) : Type :=
| Return (a : A)
| Raise (e : exn).
Arguments Return {A} a.
Arguments Raise {A} e.

(* ================================================================== *)
(** * Polars series *)
(* ================================================================== *)

Module Polars.

Inductive DType : Type :=
| Int8 | Int16 | Int32 | Int64
| Float64.

Definition is_float (d : DType) : bool :=
  match d with Float64 => true | _ => false end.

Definition int_bits (d : DType) : Z :=
  match d with
  | Int8 => 8 | Int16 => 16 | Int32 => 32 | Int64 => 64
  | Float64 => 0
  end.

(** A cell is null ([None]) or a value; NaN is a value, not a null. *)
Definition cell : Type := option num.

Record Series : Type := mkSeries {
  name : string;
  dtype : DType;
  values : list cell
}.

Definition len (s : Series) : nat := List.length (values s).

Definition is_empty (s : Series) : bool :=
  match values s with [] => true | _ => false end.

Definition cell_is_null (c : cell) : bool :=
  match c with None => true | Some _ => false end.

(** [s.is_null().all()] *)
Definition all_null (l : list cell) : bool := forallb cell_is_null l.

(** [pl.Series(name, [None] * n, dtype=dt)] *)
Definition null_series (nm : string) (n : nat) (dt : DType) : Series :=
  mkSeries nm dt (repeat None n).

Definition alias (s : Series) (nm : string) : Series :=
  mkSeries nm (dtype s) (values s).

(** [drop_nulls().len()] *)
Definition count_non_null (l : list cell) : nat :=
  List.length (filter (fun c => negb (cell_is_null c)) l).

(** ** Casting with [strict=False]: a value that does not fit becomes null. *)
Definition cast_cell (dt : DType) (c : cell) : cell :=
  match c with
  | None => None
  | Some x =>
      if is_float dt then Some x
      else match x with
           | Fin q =>
               let z := Num.trunc q in
               let b := 2 ^ (int_bits dt - 1) in
               if (Z.leb (- b) z && Z.ltb z b)%bool then Some (Num.of_Z z)
               else None
           | _ => None
           end
  end.

Definition cast (s : Series) (dt : DType) : Series :=
  mkSeries (name s) dt (map (cast_cell dt) (values s)).

(** ** Element-wise arithmetic: a null operand gives a null. *)
Definition lift2 (f : num -> num -> num) (a b : cell) : cell :=
  match a, b with
  | Some x, Some y => Some (f x y)
  | _, _ => None
  end.

Fixpoint zip_with {A B C} (f : A -> B -> C) (l : list A) (m : list B) : list C :=
  match l, m with
  | a :: l', b :: m' => f a b :: zip_with f l' m'
  | _, _ => []
  end.

(** ** [shift(n)]: rows move down by [n] (up when [n] is negative),
    the vacated rows are null, the length is kept. *)
Definition shift (n : Z) (l : list cell) : list cell :=
  let k := List.length l in
  if Z.leb 0 n then
    let m := Nat.min (Z.to_nat n) k in
    repeat None m ++ firstn (k - m) l
  else
    let m := Nat.min (Z.to_nat (- n)) k in
    skipn m l ++ repeat None m.

(** ** [interpolate()]: linear interpolation of interior nulls; leading
    and trailing nulls stay. *)
Fixpoint next_valid (l : list cell) : option (nat * num) :=
  match l with
  | [] => None
  | Some v :: _ => Some (O, v)
  | None :: tl =>
      match next_valid tl with
      | Some (d, v) => Some (S d, v)
      | None => None
      end
  end.

(** [low + step * slope] with [slope = (high - low) / steps]. *)
Definition linear_itp (low high : num) (step steps : nat) : num :=
  (low + Num.of_Z (Z.of_nat step)
         * ((high - low) / Num.of_Z (Z.of_nat steps)))%num.

Fixpoint interpolate_from (prev : option num) (k : nat) (l : list cell)
  : list cell :=
  match l with
  | [] => []
  | Some v :: tl => Some v :: interpolate_from (Some v) O tl
  | None :: tl =>
      match prev, next_valid tl with
      | Some low, Some (d, high) =>
          Some (linear_itp low high (S k) (S k + S d))
      | _, _ => None
      end :: interpolate_from prev (S k) tl
  end.

Definition interpolate_values (l : list cell) : list cell :=
  interpolate_from None O l.

(** The result of [interpolate] is Float64 whatever the input type.  The
    values are kept as exact numbers: the rounding of an integer beyond
    2^53 to the nearest Float64 is not represented. *)
Definition interpolate (s : Series) : Series :=
  mkSeries (name s) Float64 (interpolate_values (values s)).

(** ** [fill_null(strategy=...)] *)
Fixpoint fill_forward_from (prev : cell) (l : list cell) : list cell :=
  match l with
  | [] => []
  | Some v :: tl => Some v :: fill_forward_from (Some v) tl
  | None :: tl => prev :: fill_forward_from prev tl
  end.

Definition fill_null_forward (s : Series) : Series :=
  mkSeries (name s) (dtype s) (fill_forward_from None (values s)).

Fixpoint fill_backward_values (l : list cell) : list cell :=
  match l with
  | [] => []
  | Some v :: tl => Some v :: fill_backward_values tl
  | None :: tl =>
      match next_valid tl with
      | Some (_, v) => Some v
      | None => None
      end :: fill_backward_values tl
  end.

Definition fill_null_backward (s : Series) : Series :=
  mkSeries (name s) (dtype s) (fill_backward_values (values s)).

(** ** [to_numpy()]: a null becomes NaN. *)
Definition to_numpy (s : Series) : list num :=
  map (fun c => match c with Some x => x | None => NaN end) (values s).

(** [pl.Series(name, array)]: a Float64 series without nulls. *)
Definition of_numpy (nm : string) (a : list num) : Series :=
  mkSeries nm Float64 (map Some a).

End Polars.

(* ================================================================== *)
(** * Signal Smoother: [feature_utils.apply_savgol_filter] *)
(* ================================================================== *)

Module Smoother.
Import Polars.

(** The type of [scipy.signal.savgol_filter(x, window_length, polyorder,
    deriv, mode='interp')]: an array, or an exception. *)
Definition filter_t : Type := list num -> Z -> Z -> Z -> result (list num).

(** [s.interpolate().fill_null(strategy="backward").fill_null(strategy="forward")] *)
Definition s_processed (s : Series) : Series :=
  fill_null_forward (fill_null_backward (interpolate s)).

(** Lines 41-48: the window made odd and larger than the order. *)
Definition window_odd_above (window_length polyorder : Z) : Z :=
  let w :=
    if Z.leb window_length polyorder
    then polyorder + 1 + (if Z.eqb (polyorder mod 2) 0 then 1 else 0)
    else window_length in
  if Z.eqb (w mod 2) 0 then w + 1 else w.

(** [np.count_nonzero(~np.isnan(s_np))] *)
Definition num_valid_points (a : list num) : Z :=
  Z.of_nat (List.length (filter (fun x => negb (is_nan x)) a)).

(** Lines 55-57: the window shrunk to the number of usable samples. *)
Definition window_shrunk (w v : Z) : Z :=
  if Z.ltb v w
  then (if negb (Z.eqb (v mod 2) 0) then v else Z.max 1 (v - 1))
  else w.

Definition effective_window_length (s : Series) (window_length polyorder : Z) : Z :=
  window_shrunk (window_odd_above window_length polyorder)
                (num_valid_points (to_numpy (s_processed s))).

Definition apply_savgol_filter (savgol_filter : filter_t)
    (s : Series) (window_length polyorder deriv : Z) : result Series :=
  let series_name := name s in
  let original_dtype := dtype s in
  if is_empty s then Return (cast s original_dtype)
  else if all_null (values s)
  then Return (null_series series_name (len s) original_dtype)
  else
    let sp := s_processed s in
    if all_null (values sp)
    then Return (null_series series_name (len s) original_dtype)
    else
      let s_np := to_numpy (if is_float (dtype sp) then sp else cast sp Float64) in
      let w := window_odd_above window_length polyorder in
      let v := num_valid_points s_np in
      if Z.eqb v 0
      then Return (null_series series_name (len s) original_dtype)
      else
        let w := window_shrunk w v in
        if Z.leb w polyorder
        then Return (cast sp original_dtype)
        else
          match savgol_filter s_np w polyorder deriv with
          | Return filtered_array =>
              Return (cast (of_numpy series_name filtered_array) original_dtype)
          | Raise e =>
              if isinstance_ValueError e
              then Return (cast sp original_dtype)
              else Raise e
          end.

(** Two stand-ins for the filter, to run the code on examples: one hands
    its input back, one fails with a given exception. *)
Definition filter_echo : filter_t := fun a _ _ _ => Return a.
Definition filter_raising (e : exn) : filter_t := fun _ _ _ _ => Raise e.

End Smoother.

(* ================================================================== *)
(** * Derived Series Evaluator:
    [AggregateSeriesCreator.create_aggregate_series] *)
(* ================================================================== *)

Module Evaluator.
Import Polars.
Local Open Scope string_scope.
Local Open Scope list_scope.

(** The wide grid once converted to Polars: the date column (days since
    the epoch) and the numeric columns in their order. *)
Record DataFrame : Type := mkFrame {
  date : list Z;
  data : list (string * list cell)
}.

Definition height (df : DataFrame) : nat := List.length (date df).

(** [df.columns] *)
Definition columns (df : DataFrame) : list string :=
  "date" :: map fst (data df).

Definition in_columns (c : string) (df : DataFrame) : bool :=
  existsb (String.eqb c) (columns df).

Fixpoint get_column (c : string) (cols : list (string * list cell))
  : option (list cell) :=
  match cols with
  | [] => None
  | (n, v) :: tl => if String.eqb c n then Some v else get_column c tl
  end.

(** [df.with_columns(series.alias(name))]: an existing column of that
    name is replaced in place, a new one goes last. *)
Fixpoint set_column (nm : string) (v : list cell)
    (cols : list (string * list cell)) : list (string * list cell) :=
  match cols with
  | [] => [(nm, v)]
  | (n, w) :: tl =>
      if String.eqb nm n then (n, v) :: tl
      else (n, w) :: set_column nm v tl
  end.

Definition with_columns (df : DataFrame) (nm : string) (v : list cell)
  : DataFrame :=
  mkFrame (date df) (set_column nm v (data df)).

(** The expressions the catalog is written in. *)
Inductive Expr : Type :=
| Col (c : string)
| Lit (x : num)
| Add (a b : Expr)
| Sub (a b : Expr)
| Mul (a b : Expr)
| Div (a b : Expr)
| ReplaceZeroNull (a : Expr).          (* [.replace(0, None)] *)

Definition replace_zero_null (c : cell) : cell :=
  match c with
  | Some x => if Num.is_zero x then None else Some x
  | None => None
  end.

Definition bin (f : num -> num -> num) (a b : option (list cell))
  : option (list cell) :=
  match a, b with
  | Some l, Some m => Some (zip_with (lift2 f) l m)
  | _, _ => None
  end.

(** Evaluation on a frame; [None] is an exception (a column that the
    frame does not have).  A literal is broadcast to the height. *)
Fixpoint eval (df : DataFrame) (e : Expr) : option (list cell) :=
  match e with
  | Col c => get_column c (data df)
  | Lit x => Some (repeat (Some x) (height df))
  | Add a b => bin Num.add (eval df a) (eval df b)
  | Sub a b => bin Num.sub (eval df a) (eval df b)
  | Mul a b => bin Num.mul (eval df a) (eval df b)
  | Div a b => bin Num.div (eval df a) (eval df b)
  | ReplaceZeroNull a => option_map (map replace_zero_null) (eval df a)
  end.

Record AggDetails : Type := mkAgg {
  components : list string;
  expr_lambda : Expr;
  description : string;
  unit : string
}.

Record SymbolEntry : Type := mkEntry {
  symbol : string;
  source : string;
  entry_description : string;
  entry_unit : string
}.

Record LoopState : Type := mkState {
  df_data_pl : DataFrame;
  new_symbols_metadata : list SymbolEntry;
  successful_aggregates : Z;
  skipped_aggregates : Z
}.

Definition missing_components (d : AggDetails) (df : DataFrame) : list string :=
  filter (fun comp => negb (in_columns comp df)) (components d).

(** One iteration of the loop of lines 314-345. *)
Definition agg_step (st : LoopState) (item : string * AggDetails) : LoopState :=
  let (new_col_name, agg_details) := item in
  match missing_components agg_details (df_data_pl st) with
  | _ :: _ =>
      mkState (df_data_pl st) (new_symbols_metadata st)
              (successful_aggregates st) (skipped_aggregates st + 1)
  | [] =>
      match eval (df_data_pl st) (expr_lambda agg_details) with
      | Some series =>
          mkState (with_columns (df_data_pl st) new_col_name series)
                  (new_symbols_metadata st ++
                     [mkEntry new_col_name "Calc"
                              (description agg_details) (unit agg_details)])
                  (successful_aggregates st + 1) (skipped_aggregates st)
      | None =>                                 (* except Exception *)
          mkState (df_data_pl st) (new_symbols_metadata st)
                  (successful_aggregates st) (skipped_aggregates st + 1)
      end
  end.

Definition agg_loop (config : list (string * AggDetails)) (st : LoopState)
  : LoopState :=
  fold_left agg_step config st.

Definition init_state (df : DataFrame) : LoopState := mkState df [] 0 0.

(** [_insert_symbols_to_duckdb]: the entries whose symbol the table does
    not hold yet are inserted. *)
Definition insert_symbols (table new : list SymbolEntry) : list SymbolEntry :=
  table ++
  filter (fun e => negb (existsb (fun t => String.eqb (symbol e) (symbol t)) table))
         new.

(** [df.empty]: no row or no column. *)
Definition empty (df : DataFrame) : bool :=
  match date df, data df with
  | [], _ | _, [] => true
  | _, _ => false
  end.

(** The result is the enhanced frame and the symbols table; [con] tells
    whether the database connection is there. *)
Definition create_aggregate_series (config : list (string * AggDetails))
    (con : bool) (symbols : list SymbolEntry) (df_interpolated : DataFrame)
  : DataFrame * list SymbolEntry :=
  if empty df_interpolated then (df_interpolated, symbols)
  else
    let st := agg_loop config (init_state df_interpolated) in
    (df_data_pl st,
     match new_symbols_metadata st, con with
     | _ :: _, true => insert_symbols symbols (new_symbols_metadata st)
     | _, _ => symbols
     end).

Definition aggregations_config : list (string * AggDetails) :=
[
  ("RSALESAGG",
   mkAgg ["RRSFS"; "RSALES"]
     (Div (Add (Col "RRSFS") (Col "RSALES")) (Lit (Num.of_Z 2)))
     "Real Retail and Food Services Sales (Mean of RRSFS and RSALES)"
     "Millions of Dollars");
  ("BUSLOANS_minus_BUSLOANSNSA",
   mkAgg ["BUSLOANS"; "BUSLOANSNSA"]
     (Sub (Col "BUSLOANS") (Col "BUSLOANSNSA"))
     "Business Loans (Monthly) SA - NSA"
     "Billions of U.S. Dollars");
  ("BUSLOANS_minus_BUSLOANSNSA_by_GDP",
   mkAgg ["BUSLOANS_minus_BUSLOANSNSA"; "GDP"]
     (Mul (Div (Col "BUSLOANS_minus_BUSLOANSNSA") (Col "GDP")) (Lit (Num.of_Z 100)))
     "Business Loans (Monthly) SA - NSA divided by GDP"
     "Percent");
  ("BUSLOANS_by_GDP",
   mkAgg ["BUSLOANS"; "GDP"]
     (Mul (Div (Col "BUSLOANS") (Col "GDP")) (Lit (Num.of_Z 100)))
     "Business Loans (Monthly, SA) Normalized by GDP"
     "Percent");
  ("BUSLOANS_INTEREST",
   mkAgg ["BUSLOANS"; "DGS10"]
     (Div (Mul (Col "BUSLOANS") (Col "DGS10")) (Lit (Num.of_Z 100)))
     "Business Loans (Monthly, SA) Adjusted Interest Burdens (using DGS10)"
     "Calculated Billions of U.S. Dollars");
  ("BUSLOANS_INTEREST_by_GDP",
   mkAgg ["BUSLOANS_INTEREST"; "GDP"]
     (Mul (Div (Col "BUSLOANS_INTEREST") (Col "GDP")) (Lit (Num.of_Z 100)))
     "Business Loans (Monthly, SA) Adjusted Interest Burden Divided by GDP"
     "Percent");
  ("W875RX1_by_GDP",
   mkAgg ["W875RX1"; "GDP"]
     (Mul (Div (Col "W875RX1") (Col "GDP")) (Lit (Num.of_Z 100)))
     "Real Personal Income Normalized by GDP"
     "Percent");
  ("PI_by_GDP",
   mkAgg ["PI"; "GDP"]
     (Mul (Div (Col "PI") (Col "GDP")) (Lit (Num.of_Z 100)))
     "Personal Income (SA) Normalized by GDP"
     "Percent");
  ("CPROFIT_by_GDP",
   mkAgg ["CPROFIT"; "GDP"]
     (Mul (Div (Col "CPROFIT") (Col "GDP")) (Lit (Num.of_Z 100)))
     "National income: Corporate profits before tax (with IVA and CCAdj) Normalized by GDP"
     "Percent");
  ("TOTLNNSA",
   mkAgg ["BUSLOANS"; "REALLNNSA"; "CONSUMERNSA"]
     (Add (Add (Col "BUSLOANS") (Col "REALLNNSA")) (Col "CONSUMERNSA"))
     "Total Loans, Not Seasonally Adjusted (BUSLOANS + REALLNNSA + CONSUMERNSA)"
     "Billions of U.S. Dollars");
  ("TOTLNNSA_by_GDP",
   mkAgg ["TOTLNNSA"; "GDP"]
     (Mul (Div (Col "TOTLNNSA") (Col "GDP")) (Lit (Num.of_Z 100)))
     "Total Loans, Not Seasonally Adjusted, divided by GDP"
     "Percent");
  ("WRESBAL_by_GDP",
   mkAgg ["WRESBAL"; "GDP"]
     (Mul (Div (Col "WRESBAL") (Col "GDP")) (Lit (Num.of_Z 100)))
     "Reserve Balances with Federal Reserve Banks Divided by GDP"
     "Percent");
  ("DGS30_to_DGS10",
   mkAgg ["DGS30"; "DGS10"]
     (Sub (Col "DGS30") (Col "DGS10"))
     "Yield Curve: 30-Year Treasury Constant Maturity Minus 10-Year Treasury Constant Maturity"
     "Percent");
  ("DGS10_to_DGS2",
   mkAgg ["DGS10"; "DGS2"]
     (Sub (Col "DGS10") (Col "DGS2"))
     "Yield Curve: 10-Year Treasury Constant Maturity Minus 2-Year Treasury Constant Maturity"
     "Percent");
  ("DGS10_to_TB3MS",
   mkAgg ["DGS10"; "TB3MS"]
     (Sub (Col "DGS10") (Col "TB3MS"))
     "Yield Curve: 10-Year Treasury Constant Maturity Minus 3-Month Treasury Bill Secondary Market Rate"
     "Percent");
  ("AAA_div_DGS10",
   mkAgg ["AAA"; "DGS10"]
     (Div (Col "AAA") (Col "DGS10"))
     "Moody's Seasoned Aaa Corporate Bond Yield Relative to 10-Year Treasury Constant Maturity (AAA/DGS10)"
     "Ratio");
  ("UNEMPLOY_by_POPTHM",
   mkAgg ["UNEMPLOY"; "POPTHM"]
     (Mul (Div (Col "UNEMPLOY") (Col "POPTHM")) (Lit (Num.of_Z 100)))
     "Unemployment Level (SA) / Population"
     "%");
  ("U6_to_U3",
   mkAgg ["U6RATE"; "UNRATE"]
     (Sub (Col "U6RATE") (Col "UNRATE"))
     "U-6 Unemployment Rate Minus U-3 Unemployment Rate (U6RATE - UNRATE)"
     "%");
  ("DCOILWTICO_by_PPIACO",
   mkAgg ["DCOILWTICO"; "PPIACO"]
     (Div (Col "DCOILWTICO") (Col "PPIACO"))
     "Crude Oil WTI Price Normalized by Producer Price Index: All Commodities"
     "$/bbl/Index");
  ("GDP_by_POPTHM",
   mkAgg ["GDP"; "POPTHM"]
     (Div (Mul (Col "GDP") (Lit (Num.of_Z 1000000))) (Col "POPTHM"))
     "GDP per Capita"
     "$/person");
  ("GDP_by_CPIAUCSL",
   mkAgg ["GDP"; "CPIAUCSL"]
     (Div (Col "GDP") (Div (Col "CPIAUCSL") (Lit (Num.of_Z 100))))
     "GDP Deflated by CPI (CPIAUCSL)"
     "Billions of Constant Dollars");
  ("GDP_by_CPIAUCSL_by_POPTHM",
   mkAgg ["GDP_by_CPIAUCSL"; "POPTHM"]
     (Div (Mul (Col "GDP_by_CPIAUCSL") (Lit (Num.of_Z 1000000))) (Col "POPTHM"))
     "GDP Deflated by CPI, per Capita"
     "Constant $/Person");
  ("GSPC_Close_by_MDY_Close",
   mkAgg ["^GSPC_close"; "MDY_close"]
     (Div (Col "^GSPC_close") (Col "MDY_close"))
     "S&P 500 Close Normalized by S&P MidCap 400 Close"
     "Ratio");
  ("QQQ_Close_by_MDY_Close",
   mkAgg ["QQQ_close"; "MDY_close"]
     (Div (Col "QQQ_close") (Col "MDY_close"))
     "Nasdaq 100 Close (QQQ) Normalized by S&P MidCap 400 Close"
     "Ratio");
  ("GSPC_DailySwing",
   mkAgg ["^GSPC_high"; "^GSPC_low"; "^GSPC_open"]
     (Div (Sub (Col "^GSPC_high") (Col "^GSPC_low")) (ReplaceZeroNull (Col "^GSPC_open")))
     "S&P 500 (GSPC) Daily Swing: (High - Low) / Open"
     "Ratio");
  ("GSPC_Close_by_GDPDEF",
   mkAgg ["^GSPC_close"; "GDPDEF"]
     (Div (Col "^GSPC_close") (Div (Col "GDPDEF") (Lit (Num.of_Z 100))))
     "S&P 500 (GSPC) Close Deflated by GDP Deflator"
     "Constant Dollars");
  ("GSPC_open_by_GDPDEF",
   mkAgg ["^GSPC_open"; "GDPDEF"]
     (Div (Col "^GSPC_open") (Div (Col "GDPDEF") (Lit (Num.of_Z 100))))
     "S&P 500 (GSPC) Open Deflated by GDP Deflator"
     "Constant Dollars");
  ("HOUST_div_POPTHM",
   mkAgg ["HOUST"; "POPTHM"]
     (Div (Col "HOUST") (Col "POPTHM"))
     "Housing Starts per Capita (Thousands of Units SAAR / Thousands of Persons)"
     "Starts per 1000 Persons");
  ("MSPUS_times_HOUST",
   mkAgg ["MSPUS"; "HOUST"]
     (Div (Mul (Col "MSPUS") (Col "HOUST")) (Lit (Num.of_Z 1000)))
     "Median Sales Price of New Houses Sold times Housing Starts (Value of New Construction Started)"
     "Millions of Dollars");
  ("FARMINCOME_by_GDP",
   mkAgg ["USDA_NET_FARM_INCOME"; "GDP"]
     (Mul (Div (Col "USDA_NET_FARM_INCOME") (Col "GDP")) (Lit (Num.of_Z 100)))
     "Farm Income (Annual, NSA) Divided by GDP"
     "Percent");
  ("GSG_Close_by_GDPDEF",
   mkAgg ["GSG_close"; "GDPDEF"]
     (Div (Col "GSG_close") (Col "GDPDEF"))
     "GSCI Commodity-Indexed Trust (GSG Close) Normalized by GDP Deflator"
     "Ratio");
  ("GSG_Close_by_GSPC_Close",
   mkAgg ["GSG_close"; "^GSPC_close"]
     (Div (Col "GSG_close") (Col "^GSPC_close"))
     "GSCI Commodity-Indexed Trust (GSG Close) Normalized by S&P 500 Close (GSPC Close)"
     "Ratio")
].

(** The expressions a rule divides by. *)
Fixpoint denominators (e : Expr) : list Expr :=
  match e with
  | Col _ | Lit _ => []
  | Add a b | Sub a b | Mul a b => denominators a ++ denominators b
  | Div a b => b :: denominators a ++ denominators b
  | ReplaceZeroNull a => denominators a
  end.

(** A denominator that cannot be zero: a non-zero constant, or a column
    behind [replace(0, None)]. *)
Definition guarded (e : Expr) : bool :=
  match e with
  | Lit x => negb (Num.is_zero x)
  | ReplaceZeroNull _ => true
  | _ => false
  end.

(** The rules of a catalog that divide by something that can be zero. *)
Definition unguarded_division_rules (config : list (string * AggDetails))
  : list string :=
  map fst
    (filter (fun item =>
               negb (forallb guarded (denominators (expr_lambda (snd item)))))
            config).

(** The rules that divide by a column and null its zeros first. *)
Definition guarded_division_rules (config : list (string * AggDetails))
  : list string :=
  map fst
    (filter (fun item =>
               existsb (fun e => match e with ReplaceZeroNull _ => true
                                         | _ => false end)
                       (denominators (expr_lambda (snd item))))
            config).

End Evaluator.

(* ================================================================== *)
(** * Per-Symbol Feature Generator:
    [UnifiedDataPipeline._calculate_yoy_features_series] and
    [UnifiedDataPipeline._calculate_mva_features_series] *)
(* ================================================================== *)

Module Features.
Import Polars.
Local Open Scope list_scope.
Local Open Scope string_scope.

Record FeatureMeta : Type := mkMeta {
  symbol : string;
  source : string;
  description : string;
  label_y : string;
  series_start : string;
  series_end : string
}.

(** [f"{window}"] *)
Definition str_of_int (z : Z) : string :=
  DecimalString.NilZero.string_of_int (Z.to_int z).

(** Series arithmetic. *)
Definition series_div (a b : list cell) : list cell :=
  zip_with (lift2 Num.div) a b.
Definition series_sub_scalar (a : list cell) (k : Z) : list cell :=
  map (fun c => lift2 Num.sub c (Some (Num.of_Z k))) a.
Definition series_mul_scalar (a : list cell) (k : Z) : list cell :=
  map (fun c => lift2 Num.mul c (Some (Num.of_Z k))) a.

(** The value of one row: [(a / b - 1) * 100], null when [a] or [b] is. *)
Definition yoy_cell (a b : cell) : cell :=
  lift2 Num.mul (lift2 Num.sub (lift2 Num.div a b) (Some (Num.of_Z 1)))
        (Some (Num.of_Z 100)).

(** [((s / s.shift(lag)) - 1) * 100] *)
Definition yoy_values (v : list cell) (lag : Z) : list cell :=
  series_mul_scalar (series_sub_scalar (series_div v (shift lag v)) 1) 100.

Definition yoy_series (s : Series) (lag : Z) (new_name : string) : Series :=
  mkSeries new_name Float64 (yoy_values (values s) lag).

Definition _calculate_yoy_features_series
    (original_series : Series) (symbol_name_prefix description_r : string)
    (series_start_date_str series_end_date_str : string) (n_days_year : Z)
  : list Series * list FeatureMeta :=
  let new_col_yoy_name := symbol_name_prefix ++ "_YoY" in
  let new_col_yoy4_name := symbol_name_prefix ++ "_YoY4" in
  let new_col_yoy5_name := symbol_name_prefix ++ "_YoY5" in
  let nl := String (Ascii.ascii_of_nat 10) EmptyString in
  ([ yoy_series original_series n_days_year new_col_yoy_name;
     yoy_series original_series (n_days_year * 4) new_col_yoy4_name;
     yoy_series original_series (n_days_year * 5) new_col_yoy5_name ],
   [ mkMeta new_col_yoy_name "Calc" (description_r ++ nl ++ "Year over Year")
            "Percent" series_start_date_str series_end_date_str;
     mkMeta new_col_yoy4_name "Calc" (description_r ++ nl ++ "4 Year over 4 Year")
            "Percent" series_start_date_str series_end_date_str;
     mkMeta new_col_yoy5_name "Calc" (description_r ++ nl ++ "5 Year over 5 Year")
            "Percent" series_start_date_str series_end_date_str ]).

(** ** [rolling_mean(window_size=w, min_periods=1)]: the mean of the
    non-null values among the last [w] rows, null when there is none. *)
Definition sum_non_null (l : list cell) : num :=
  fold_left (fun acc c => match c with Some x => Num.add acc x | None => acc end)
            l (Num.of_Z 0).

Definition window_mean (l : list cell) : cell :=
  let n := count_non_null l in
  if Nat.leb 1 n
  then Some (Num.div (sum_non_null l) (Num.of_Z (Z.of_nat n)))
  else None.

(** The rows [i - w + 1 .. i] of [l]. *)
Definition window_at (w i : nat) (l : list cell) : list cell :=
  skipn (S i - w) (firstn (S i) l).

Definition rolling_mean_values (w : nat) (l : list cell) : list cell :=
  map (fun i => window_mean (window_at w i l)) (seq 0 (List.length l)).

(** A window below the minimum number of periods is refused. *)
Definition rolling_mean (s : Series) (window : Z) : result Series :=
  if Z.ltb window 1 then Raise OtherError
  else Return (mkSeries (name s) Float64
                        (rolling_mean_values (Z.to_nat window) (values s))).

Definition mva_configs (n_days_year : Z) : list (string * Z) :=
  [ ("_mva365", n_days_year); ("_mva200", 200); ("_mva050", 50) ].

(** One iteration of the loop of lines 1120-1136. *)
Definition mva_step (original_series : Series)
    (symbol_name_prefix description_r label_y_r : string)
    (series_start_date_str series_end_date_str : string)
    (acc : result (list Series * list FeatureMeta)) (cfg : string * Z)
  : result (list Series * list FeatureMeta) :=
  match acc with
  | Raise e => Raise e
  | Return (feature_series_list, feature_metadata) =>
      let (suffix, window) := cfg in
      let new_col_mva_name := symbol_name_prefix ++ suffix in
      if Z.leb window (Z.of_nat (count_non_null (values original_series)))
      then
        match rolling_mean original_series window with
        | Raise e => Raise e
        | Return r =>
            Return
              ((feature_series_list ++
                  [alias (interpolate r) new_col_mva_name])%list,
               (feature_metadata ++
                  [mkMeta new_col_mva_name "Calc"
                     (description_r ++ " " ++ str_of_int window ++ " Day MA")
                     (label_y_r ++ " " ++ str_of_int window ++ " Day MA")
                     series_start_date_str series_end_date_str])%list)
        end
      else
        Return
          ((feature_series_list ++
              [null_series new_col_mva_name (len original_series) Float64])%list,
           (feature_metadata ++
              [mkMeta new_col_mva_name "Calc (Skipped)"
                 (description_r ++ " " ++ str_of_int window ++ " Day MA - SKIPPED")
                 (label_y_r ++ " " ++ str_of_int window ++ " Day MA")
                 series_start_date_str series_end_date_str])%list)
  end.

Definition _calculate_mva_features_series
    (original_series : Series)
    (symbol_name_prefix description_r label_y_r : string)
    (series_start_date_str series_end_date_str : string) (n_days_year : Z)
  : result (list Series * list FeatureMeta) :=
  fold_left
    (mva_step original_series symbol_name_prefix description_r label_y_r
              series_start_date_str series_end_date_str)
    (mva_configs n_days_year) (Return ([], [])).

End Features.

(* ================================================================== *)
(** * Grid Normalizer: [DuckDBInterpolator.interpolate_and_process] *)
(* ================================================================== *)

Module Normalizer.
Local Open Scope list_scope.

(** A pandas cell: NaN is the null of pandas and is [None]; a present
    value is a finite number. *)
Definition cell : Type := option Q.

Record Column : Type := mkColumn {
  numeric : bool;               (* selected by [select_dtypes(np.number)] *)
  cells : list cell
}.

(** The wide table: the date index (days since the epoch, at midnight)
    and the named columns. *)
Record DataFrame : Type := mkFrame {
  index : list Z;
  columns : list (string * Column)
}.

(** [df.empty]: no row or no column. *)
Definition empty (df : DataFrame) : bool :=
  match index df, columns df with
  | [], _ | _, [] => true
  | _, _ => false
  end.

Definition index_min (l : list Z) : Z :=
  match l with
  | [] => 0
  | x :: tl => fold_left Z.min tl x
  end.

Definition index_max (l : list Z) : Z :=
  match l with
  | [] => 0
  | x :: tl => fold_left Z.max tl x
  end.

(** [pd.date_range(start, end, freq='D')] *)
Definition date_range (start stop : Z) : list Z :=
  map (fun i => start + Z.of_nat i) (seq 0 (Z.to_nat (stop - start + 1))).

Fixpoint is_unique (l : list Z) : bool :=
  match l with
  | [] => true
  | x :: tl => negb (existsb (Z.eqb x) tl) && is_unique tl
  end.

(** Position of a label in the index. *)
Fixpoint get_loc (d : Z) (idx : list Z) : option nat :=
  match idx with
  | [] => None
  | x :: tl =>
      if Z.eqb d x then Some O
      else option_map S (get_loc d tl)
  end.

Definition take (idx : list Z) (c : list cell) (d : Z) : cell :=
  match get_loc d idx with
  | Some i => nth i c None
  | None => None
  end.

Definition reindex_column (idx new_idx : list Z) (c : Column) : Column :=
  mkColumn (numeric c) (map (take idx (cells c)) new_idx).

(** [df.reindex(new_idx)]: refused on an index with duplicate labels. *)
Definition reindex (df : DataFrame) (new_idx : list Z) : result DataFrame :=
  if is_unique (index df)
  then Return (mkFrame new_idx
                 (map (fun nc => (fst nc, reindex_column (index df) new_idx (snd nc)))
                      (columns df)))
  else Raise ValueError.

(** ** [Series.ffill()] *)
Fixpoint ffill_from (prev : cell) (l : list cell) : list cell :=
  match l with
  | [] => []
  | Some v :: tl => Some v :: ffill_from (Some v) tl
  | None :: tl => prev :: ffill_from prev tl
  end.

Definition ffill (l : list cell) : list cell := ffill_from None l.

(** ** [interpolate(method='linear', limit_direction='both')] *)
Fixpoint next_valid (l : list cell) : option (nat * Q) :=
  match l with
  | [] => None
  | Some v :: _ => Some (O, v)
  | None :: tl =>
      match next_valid tl with
      | Some (d, v) => Some (S d, v)
      | None => None
      end
  end.

(** [slope * (x - xp[j]) + fp[j]] with
    [slope = (fp[j+1] - fp[j]) / (xp[j+1] - xp[j])]. *)
Definition interp (lo hi : Q) (dx span : nat) : Q :=
  Qred ((hi - lo) / inject_Z (Z.of_nat span) * inject_Z (Z.of_nat dx) + lo).

(** [prev] is the last value seen and [k] the number of nulls since. *)
Fixpoint interpolate_from (prev : option Q) (k : nat) (l : list cell)
  : list cell :=
  match l with
  | [] => []
  | Some v :: tl => Some v :: interpolate_from (Some v) O tl
  | None :: tl =>
      match prev, next_valid tl with
      | Some lo, Some (d, hi) => Some (interp lo hi (S k) (S k + S d))
      | Some lo, None => Some lo                  (* trailing: last value *)
      | None, Some (_, hi) => Some hi             (* leading: first value *)
      | None, None => None                        (* nothing to fill from *)
      end :: interpolate_from prev (S k) tl
  end.

Definition interpolate_both (l : list cell) : list cell :=
  interpolate_from None O l.

Definition map_cells (f : list cell -> list cell) (c : Column) : Column :=
  mkColumn (numeric c) (f (cells c)).

(** Lines 322-325: the regime column is forward-filled. *)
Definition ffill_usrec (usrec_symbol : string) (df : DataFrame) : DataFrame :=
  mkFrame (index df)
    (map (fun nc => if String.eqb (fst nc) usrec_symbol
                    then (fst nc, map_cells ffill (snd nc)) else nc)
         (columns df)).

(** Lines 328-329: the numeric columns other than the regime column. *)
Definition is_interpolation_col (usrec_symbol : string) (nc : string * Column)
  : bool :=
  numeric (snd nc) && negb (String.eqb (fst nc) usrec_symbol).

(** Lines 331-336. *)
Definition interpolate_cols (usrec_symbol : string) (df : DataFrame)
  : DataFrame :=
  mkFrame (index df)
    (map (fun nc => if is_interpolation_col usrec_symbol nc
                    then (fst nc, map_cells interpolate_both (snd nc)) else nc)
         (columns df)).

Definition fill_step (usrec_symbol : string) (df : DataFrame) : DataFrame :=
  interpolate_cols usrec_symbol (ffill_usrec usrec_symbol df).

Definition interpolate_and_process (df_wide : DataFrame) (usrec_symbol : string)
  : result DataFrame :=
  if empty df_wide then Return df_wide
  else
    let min_date := index_min (index df_wide) in
    let max_date := index_max (index df_wide) in
    match reindex df_wide (date_range min_date max_date) with
    | Raise e => Raise e
    | Return df_processed => Return (fill_step usrec_symbol df_processed)
    end.

End Normalizer.

(* ================================================================== *)
(** * Recession Window Labeler: [recession.add_recession_features],
    lines 49-118 (the binary flag [RecInit]) *)
(* ================================================================== *)

Module Recession.
Local Open Scope list_scope.

(** A date is a number of days since 1970-01-01, as in a Polars [Date]. *)
Definition Date : Type := Z.

(** ** The proleptic Gregorian calendar *)
Definition days_from_civil (y m d : Z) : Date :=
  let y := if Z.leb m 2 then y - 1 else y in
  let era := y / 400 in
  let yoe := y - era * 400 in
  let doy := (153 * (if Z.ltb 2 m then m - 3 else m + 9) + 2) / 5 + d - 1 in
  let doe := yoe * 365 + yoe / 4 - yoe / 100 + doy in
  era * 146097 + doe - 719468.

Definition civil_from_days (z : Date) : Z * Z * Z :=
  let z := z + 719468 in
  let era := z / 146097 in
  let doe := z - era * 146097 in
  let yoe := (doe - doe / 1460 + doe / 36524 - doe / 146096) / 365 in
  let y := yoe + era * 400 in
  let doy := doe - (365 * yoe + yoe / 4 - yoe / 100) in
  let mp := (5 * doy + 2) / 153 in
  let d := doy - (153 * mp + 2) / 5 + 1 in
  let m := if Z.ltb mp 10 then mp + 3 else mp - 9 in
  ((if Z.leb m 2 then y + 1 else y), m, d).

Definition is_leap (y : Z) : bool :=
  (Z.eqb (y mod 4) 0 && negb (Z.eqb (y mod 100) 0)) || Z.eqb (y mod 400) 0.

Definition days_in_month (y m : Z) : Z :=
  if Z.eqb m 2 then (if is_leap y then 29 else 28)
  else if Z.eqb m 4 || Z.eqb m 6 || Z.eqb m 9 || Z.eqb m 11 then 30
  else 31.

(** The date after a date. *)
Definition next_civil (c : Z * Z * Z) : Z * Z * Z :=
  let '(y, m, d) := c in
  if Z.ltb d (days_in_month y m) then (y, m, d + 1)
  else if Z.ltb m 12 then (y, m + 1, 1)
  else (y + 1, 1, 1).

Definition civil_eqb (a b : Z * Z * Z) : bool :=
  let '(y, m, d) := a in
  let '(y', m', d') := b in
  Z.eqb y y' && Z.eqb m m' && Z.eqb d d'.

(** [P] on the [n] integers from [z] on: the calendar facts are checked on
    one cycle of 400 years and carried to every date by periodicity. *)
Fixpoint forall_range (n : nat) (z : Z) (P : Z -> bool) : bool :=
  match n with
  | O => true
  | S n' => P z && forall_range n' (z + 1) P
  end.

(** The calendar read day by day: from day [z], whose date is to be [c],
    each of the next [n] days reads as the date after the one before, is
    the day number of its date, and has its month and day in range. *)
Fixpoint calendar_check (n : nat) (z : Z) (c : Z * Z * Z) : bool :=
  match n with
  | O => true
  | S n' =>
      civil_eqb (civil_from_days z) c
      && (let '(y, m, d) := c in
          Z.eqb (days_from_civil y m d) z
          && Z.leb 1 m && Z.leb m 12
          && Z.leb 1 d && Z.leb d (days_in_month y m))
      && calendar_check n' (z + 1) (next_civil c)
  end.

(** [dt.month_start()] *)
Definition month_start (t : Date) : Date :=
  let '(y, m, _) := civil_from_days t in
  days_from_civil y m 1.

(** [dt.offset_by("-1y")]: the same month and day one year earlier, the
    day clamped to the length of the month. *)
Definition offset_by_minus_1y (t : Date) : Date :=
  let '(y, m, d) := civil_from_days t in
  days_from_civil (y - 1) m (Z.min d (days_in_month (y - 1) m)).

(** [dt.offset_by("-1mo")] *)
Definition offset_by_minus_1mo (t : Date) : Date :=
  let '(y, m, d) := civil_from_days t in
  let y' := if Z.eqb m 1 then y - 1 else y in
  let m' := if Z.eqb m 1 then 12 else m - 1 in
  days_from_civil y' m' (Z.min d (days_in_month y' m')).

(** ** The grid: one row per day, the date and the regime indicator
    (cast to an integer, possibly null). *)
Definition Row : Type := (Date * option Z)%type.

(** [df.sort("date")]: a stable sort. *)
Fixpoint insert_row (r : Row) (l : list Row) : list Row :=
  match l with
  | [] => [r]
  | x :: tl => if Z.leb (fst r) (fst x) then r :: l else x :: insert_row r tl
  end.

Definition sort_by_date (l : list Row) : list Row :=
  fold_right (fun r acc => insert_row r acc) [] l.

(** [pl.col("USREC").diff()] *)
Fixpoint diff_from (prev : option Z) (l : list (option Z)) : list (option Z) :=
  match l with
  | [] => []
  | x :: tl =>
      match prev, x with
      | Some a, Some b => Some (b - a)
      | _, _ => None
      end :: diff_from x tl
  end.

Definition diff (l : list (option Z)) : list (option Z) := diff_from None l.

(** [df.filter(pl.col("USREC_diff") == k).select("date")] *)
Definition dates_where_diff (k : Z) (dates : list Date) (d : list (option Z))
  : list Date :=
  map fst
    (filter (fun p => match snd p with Some x => Z.eqb x k | None => false end)
            (combine dates d)).

Record RecessionRow : Type := mkRec {
  initStart : option Date;
  initEnd : option Date;
  start : Date;
  end_ : Date
}.

Definition dt_start_dates (sorted : list Row) : list Date :=
  dates_where_diff 1 (map fst sorted) (diff (map snd sorted)).

(** Lines 62 and 76-86: the end dates, a leading one dropped and the
    current date appended when an episode is still open. *)
Definition dt_end_dates (today : Date) (sorted : list Row) : list Date :=
  let starts := dt_start_dates sorted in
  let ends := dates_where_diff (-1) (map fst sorted) (diff (map snd sorted)) in
  let ends :=
    match ends, starts with
    | e :: tl, s :: _ => if Z.ltb e s then tl else ends
    | _, _ => ends
    end in
  if Nat.ltb (List.length ends) (List.length starts)
  then ends ++ [today] else ends.

Fixpoint zip4 (a b : list (option Date)) (c d : list Date) : list RecessionRow :=
  match a, b, c, d with
  | x :: a', y :: b', z :: c', w :: d' => mkRec x y z w :: zip4 a' b' c' d'
  | _, _, _, _ => []
  end.

Definition min_date (l : list Date) : option Date :=
  match l with
  | [] => None
  | x :: tl => Some (fold_left Z.min tl x)
  end.

(** Lines 72-74 and 89-105. *)
Definition df_recession (today : Date) (sorted : list Row) : list RecessionRow :=
  let starts := dt_start_dates sorted in
  let dt_init_start := map (fun s => Some (offset_by_minus_1y (month_start s))) starts in
  let dt_init_end := map (fun s => Some (offset_by_minus_1mo (month_start s))) starts in
  let ends := dt_end_dates today sorted in
  let max_len :=
    Nat.min (Nat.min (List.length dt_init_start) (List.length dt_init_end))
            (Nat.min (List.length starts) (List.length ends)) in
  if Nat.eqb max_len 0 then []
  else
    let rows := zip4 (firstn max_len dt_init_start) (firstn max_len dt_init_end)
                     (firstn max_len starts) (firstn max_len ends) in
    match min_date (map fst sorted) with
    | Some min_overall_date =>
        filter (fun r => Z.leb min_overall_date (start r)) rows
    | None => rows
    end.

(** Lines 110-118: one pass over the grid per retained episode. *)
Definition flag_window (dates : list Date) (rec_init : list Z) (row : RecessionRow)
  : list Z :=
  match initStart row, initEnd row with
  | Some init_s, Some init_e =>
      map (fun p => if Z.ltb init_s (fst p) && Z.ltb (fst p) init_e
                    then 1 else snd p)
          (combine dates rec_init)
  | _, _ => rec_init
  end.

Definition rec_init (today : Date) (sorted : list Row) : list Z :=
  fold_left (flag_window (map fst sorted)) (df_recession today sorted)
            (repeat 0 (List.length sorted)).

(** The test of line 114 for one day and one episode. *)
Definition in_window (d : Date) (row : RecessionRow) : bool :=
  match initStart row, initEnd row with
  | Some init_s, Some init_e => Z.ltb init_s d && Z.ltb d init_e
  | _, _ => false
  end.

(** The window bounds of a row are those of lines 73-74 for its start. *)
Definition init_of_start (r : RecessionRow) : Prop :=
  initStart r = Some (offset_by_minus_1y (month_start (start r))) /\
  initEnd r = Some (offset_by_minus_1mo (month_start (start r))).

Inductive Outcome : Type :=
| Unchanged (df_data : list Row)          (* no start date: grid passed through *)
| Labeled (df_data : list Row) (RecInit : list Z).

Definition add_recession_features (today : Date) (df_data : list Row) : Outcome :=
  let sorted := sort_by_date df_data in
  match dt_start_dates sorted with
  | [] => Unchanged sorted
  | _ => Labeled sorted (rec_init today sorted)
  end.

End Recession.

(* ================================================================== *)
(** * Per-Symbol Feature Generator, the rest of the battery:
      [_calculate_savgol_features_series],
      [_calculate_log_transform_series] and [_process_symbol_features] *)
(* ================================================================== *)

Module SymbolFeatures.
Import Polars Features.
Local Open Scope list_scope.
Local Open Scope string_scope.

Definition nl : string := String (Ascii.ascii_of_nat 10) EmptyString.

Record SavgolConfig : Type := mkSavgol {
  suffix : string;
  window : Z;
  poly : Z;
  deriv : Z;
  desc_prefix : string
}.

Definition savgol_configs (n_days_year : Z) : list SavgolConfig :=
  [ mkSavgol "_Smooth" n_days_year 3 0 "Savitsky-Golay Smoothed";
    mkSavgol "_Smooth_short" 15 3 0 "Savitsky-Golay Smoothed";
    mkSavgol "_SmoothDer" 501 3 1 "Derivative of Savitsky-Golay Smoothed" ].

(** The description shared by both records of lines 1165-1180. *)
Definition savgol_description (config : SavgolConfig) (description_r : string)
  : string :=
  desc_prefix config ++ " (p=" ++ str_of_int (poly config) ++ ", n="
    ++ str_of_int (window config)
    ++ (if Z.eqb (deriv config) 1 then ", m=1" else "")
    ++ ")" ++ nl ++ description_r.

Definition savgol_label (config : SavgolConfig) (label_y_r : string) : string :=
  if Z.ltb 0 (deriv config) then label_y_r ++ "/period" else label_y_r.

(** One iteration of the loop of lines 1153-1180. *)
Definition savgol_step (savgol_filter : Smoother.filter_t)
    (original_series : Series)
    (symbol_original description_r label_y_r : string)
    (series_start_date_str series_end_date_str : string)
    (acc : result (list Series * list FeatureMeta)) (config : SavgolConfig)
  : result (list Series * list FeatureMeta) :=
  match acc with
  | Raise e => Raise e
  | Return (feature_series_list, feature_metadata) =>
      let new_col_name := symbol_original ++ suffix config in
      match Smoother.apply_savgol_filter savgol_filter
              (alias original_series new_col_name)
              (window config) (poly config) (deriv config) with
      | Raise e => Raise e
      | Return filtered_series =>
          if all_null (values filtered_series)
             && negb (all_null (values original_series))
          then
            Return
              ((feature_series_list ++
                  [null_series new_col_name (len original_series) Float64])%list,
               (feature_metadata ++
                  [mkMeta new_col_name "Calc (Skipped/Failed)"
                     (savgol_description config description_r
                        ++ " - SKIPPED/FAILED")
                     (savgol_label config label_y_r)
                     series_start_date_str series_end_date_str])%list)
          else
            Return
              ((feature_series_list ++ [filtered_series])%list,
               (feature_metadata ++
                  [mkMeta new_col_name "Calc"
                     (savgol_description config description_r)
                     (savgol_label config label_y_r)
                     series_start_date_str series_end_date_str])%list)
      end
  end.

Definition _calculate_savgol_features_series (savgol_filter : Smoother.filter_t)
    (original_series : Series)
    (symbol_original description_r label_y_r : string)
    (series_start_date_str series_end_date_str : string) (n_days_year : Z)
  : result (list Series * list FeatureMeta) :=
  fold_left
    (savgol_step savgol_filter original_series symbol_original description_r
                 label_y_r series_start_date_str series_end_date_str)
    (savgol_configs n_days_year) (Return ([], [])).

(** ** The log transform *)

(** [val > 0] on a float. *)
Definition is_pos (x : num) : bool :=
  match x with
  | Fin q => Z.ltb 0 (Qnum q)
  | PInf => true
  | _ => false
  end.

(** [safe_log], with [math.log] as [ln]; nulls are skipped by
    [map_elements]. *)
Definition safe_log (ln : num -> num) (val : cell) : cell :=
  match val with
  | Some x => if is_pos x then Some (ln x) else None
  | None => None
  end.

Definition _calculate_log_transform_series (ln : num -> num)
    (original_series : Series)
    (symbol_name_prefix description_r label_y_r : string)
    (series_start_date_str series_end_date_str : string)
  : Series * FeatureMeta :=
  let new_col_log_name := symbol_name_prefix ++ "_Log" in
  let series_for_log :=
    if is_float (dtype original_series) then original_series
    else cast original_series Float64 in
  let log_transformed_values :=
    mkSeries (name series_for_log) Float64
             (map (safe_log ln) (values series_for_log)) in
  (alias (interpolate log_transformed_values) new_col_log_name,
   mkMeta new_col_log_name "Calc" ("Log of " ++ description_r)
          ("log(" ++ label_y_r ++ ")")
          series_start_date_str series_end_date_str).

(** ** The battery of one symbol.  The four strings are what
    [get_symbol_metadata_details] returned for the symbol. *)
Definition _process_symbol_features
    (savgol_filter : Smoother.filter_t) (ln : num -> num)
    (symbol_original : string) (original_series_data : Series)
    (description_r label_y_r : string)
    (series_start_date_str series_end_date_str : string) (n_days_year : Z)
  : result (string * list Series * list FeatureMeta) :=
  let (yoy_series_list, yoy_meta_list) :=
    _calculate_yoy_features_series original_series_data symbol_original
      description_r series_start_date_str series_end_date_str n_days_year in
  match _calculate_savgol_features_series savgol_filter original_series_data
          symbol_original description_r label_y_r
          series_start_date_str series_end_date_str n_days_year with
  | Raise e => Raise e
  | Return (savgol_series_list, savgol_meta_list) =>
      let (log_series, log_meta_dict) :=
        _calculate_log_transform_series ln original_series_data symbol_original
          description_r label_y_r series_start_date_str series_end_date_str in
      match _calculate_mva_features_series original_series_data symbol_original
              description_r label_y_r series_start_date_str series_end_date_str
              n_days_year with
      | Raise e => Raise e
      | Return (mva_series_list, mva_meta_list) =>
          Return
            (symbol_original,
             ((yoy_series_list ++ savgol_series_list) ++ [log_series])
               ++ mva_series_list,
             ((yoy_meta_list ++ savgol_meta_list) ++ [log_meta_dict])
               ++ mva_meta_list)%list
      end
  end.

End SymbolFeatures.

(* ================================================================== *)
(** * Recession Window Labeler, lines 120-131: the day counter
      [RecInit_Smooth] before smoothing *)
(* ================================================================== *)

Module RecessionRamp.
Local Open Scope list_scope.

(** [(RecInit == 1) & (RecInit.shift(1).fill_null(0) == 0)] *)
Fixpoint block_starts_from (prev : Z) (rec_init : list Z) : list bool :=
  match rec_init with
  | [] => []
  | x :: tl => (Z.eqb x 1 && Z.eqb prev 0) :: block_starts_from x tl
  end.

Definition block_starts (rec_init : list Z) : list bool :=
  block_starts_from 0 rec_init.

(** [cum_sum()] of a Boolean column. *)
Fixpoint cum_sum_bool_from (acc : Z) (l : list bool) : list Z :=
  match l with
  | [] => []
  | b :: tl =>
      let acc' := acc + (if b then 1 else 0) in
      acc' :: cum_sum_bool_from acc' tl
  end.

Definition window_id (rec_init : list Z) : list Z :=
  cum_sum_bool_from 0 (block_starts rec_init).

(** [col.cum_sum().over(key)]: on each row, the sum of the rows up to it
    that have its key. *)
Definition cum_sum_over (key vals : list Z) : list Z :=
  map (fun i =>
         let k := nth i key 0 in
         fold_left Z.add
           (map snd (filter (fun p => Z.eqb (fst p) k)
                            (firstn (S i) (combine key vals))))
           0)
      (seq 0 (List.length vals)).

(** Lines 125-131. *)
Definition rec_init_smooth (rec_init : list Z) : list Z :=
  map (fun p => if Z.eqb (fst p) 1 then snd p else 0)
      (combine rec_init (cum_sum_over (window_id rec_init) rec_init)).

(** Sum of the values under one key. *)
Definition sum_key (k : Z) (rows : list (Z * Z)) : Z :=
  fold_left Z.add (map snd (filter (fun p => Z.eqb (fst p) k) rows)) 0.

(** [cum_sum_over] on rows that come after the rows [seen]. *)
Definition cum_sum_over_after (seen : list (Z * Z)) (key vals : list Z)
  : list Z :=
  map (fun i => sum_key (nth i key 0)
                        (seen ++ firstn (S i) (combine key vals)))
      (seq 0 (List.length vals)).

(** The counter read as a recurrence: on a flagged day one more than the
    day before, on any other day zero. *)
Fixpoint days_in_run_from (prev : Z) (rec_init : list Z) : list Z :=
  match rec_init with
  | [] => []
  | x :: tl =>
      let c := if Z.eqb x 1 then prev + 1 else 0 in
      c :: days_in_run_from c tl
  end.

Definition days_in_run (rec_init : list Z) : list Z :=
  days_in_run_from 0 rec_init.

End RecessionRamp.

(* ================================================================== *)
(** * Domain features: [DomainFeaturesCreator.create_domain_features],
      and the symbols table update [_update_symbols_table] *)
(* ================================================================== *)

Module DomainFeatures.
Import Polars.
Local Open Scope list_scope.
Local Open Scope string_scope.

(** What evaluating a rule and putting its column in the frame gives: the
    column, a value that is neither an expression nor a series, or an
    exception. *)
Inductive RuleResult : Type :=
| Column (c : list cell)
| InvalidType
| Raised.

Record FeatureDef : Type := mkFeature {
  components : list string;
  expr_lambda : Evaluator.DataFrame -> RuleResult;
  description : string;
  label_y : string;
  source : option string
}.

Record LoopState : Type := mkState {
  processed_df : Evaluator.DataFrame;
  new_metadata : list Features.FeatureMeta;
  created_count : Z;
  skipped_count : Z
}.

Definition skip (st : LoopState) : LoopState :=
  mkState (processed_df st) (new_metadata st) (created_count st)
          (skipped_count st + 1).

(** One iteration of the loop of lines 271-314. *)
Definition feature_step (series_start_date_str series_end_date_str : string)
    (st : LoopState) (item : string * FeatureDef) : LoopState :=
  let (feature_name, feature_def) := item in
  if Evaluator.in_columns feature_name (processed_df st) then skip st
  else
    match filter (fun comp => negb (Evaluator.in_columns comp (processed_df st)))
                 (components feature_def) with
    | _ :: _ => skip st
    | [] =>
        match expr_lambda feature_def (processed_df st) with
        | Column c =>
            mkState
              (Evaluator.with_columns (processed_df st) feature_name c)
              (new_metadata st ++
                 [Features.mkMeta feature_name
                    (match source feature_def with
                     | Some src => src
                     | None => "CalcFeat"
                     end)
                    (description feature_def) (label_y feature_def)
                    series_start_date_str series_end_date_str])%list
              (created_count st + 1) (skipped_count st)
        | InvalidType => skip st
        | Raised => skip st
        end
    end.

(** The two date strings are those formatted on lines 262-263. *)
Definition create_domain_features (domain_features : list (string * FeatureDef))
    (df_data : Evaluator.DataFrame)
    (series_start_date_str series_end_date_str : string)
  : Evaluator.DataFrame * list Features.FeatureMeta :=
  let st :=
    fold_left (feature_step series_start_date_str series_end_date_str)
              domain_features (mkState df_data [] 0 0) in
  (processed_df st, new_metadata st).

(** ** [_update_symbols_table], given the rows of the symbols table *)

(** Which of the database calls go through: the connection of line 523,
    the reading of the existing symbols of line 545, the insert of lines
    560-563 and the count of line 568. *)
Record DbCalls : Type := mkDb {
  connect_ok : bool;
  select_ok : bool;
  insert_ok : bool;
  count_ok : bool
}.

(** Lines 531-540: the record of the table for a feature, its [label_y]
    as unit. *)
Definition symbols_row (m : Features.FeatureMeta) : Evaluator.SymbolEntry :=
  Evaluator.mkEntry (Features.symbol m) (Features.source m)
                    (Features.description m) (Features.label_y m).

(** The result is the symbols table afterwards and the returned flag.  A
    failed reading of the existing symbols is caught on its own (lines
    547-549) and leaves the set of existing symbols empty; any other
    failure makes the function return [False]. *)
Definition _update_symbols_table (db : DbCalls)
    (table : list Evaluator.SymbolEntry)
    (new_metadata : list Features.FeatureMeta)
  : list Evaluator.SymbolEntry * bool :=
  match new_metadata with
  | [] => (table, true)
  | _ =>
      if negb (connect_ok db) then (table, false)
      else
        let df_symbols_to_insert := map symbols_row new_metadata in
        let existing_symbols :=
          if select_ok db then map Evaluator.symbol table else [] in
        let new_symbols_df :=
          filter (fun e => negb (existsb (String.eqb (Evaluator.symbol e))
                                         existing_symbols))
                 df_symbols_to_insert in
        match new_symbols_df with
        | [] => (table, true)
        | _ =>
            if negb (insert_ok db) then (table, false)
            else ((table ++ new_symbols_df)%list, count_ok db)
        end
  end.

End DomainFeatures.

(* ================================================================== *)
(** * Shapes of frames *)
(* ================================================================== *)

Module Shapes.
Import Polars.
Local Open Scope list_scope.

(** The columns an expression reads. *)
Fixpoint expr_cols (e : Evaluator.Expr) : list string :=
  match e with
  | Evaluator.Col c => [c]
  | Evaluator.Lit _ => []
  | Evaluator.Add a b | Evaluator.Sub a b
  | Evaluator.Mul a b | Evaluator.Div a b => expr_cols a ++ expr_cols b
  | Evaluator.ReplaceZeroNull a => expr_cols a
  end.

(** Every column of the Polars frame has the height of the frame. *)
Definition rectangular (df : Evaluator.DataFrame) : Prop :=
  Forall (fun nc => List.length (snd nc) = Evaluator.height df)
         (Evaluator.data df).

(** Every column of the pandas table is as long as its index. *)
Definition pandas_rectangular (df : Normalizer.DataFrame) : Prop :=
  Forall (fun nc => List.length (Normalizer.cells (snd nc))
                    = List.length (Normalizer.index df))
         (Normalizer.columns df).

End Shapes.

(* ================================================================== *)
(** * A statement of the specification as worded, and sample data *)
(* ================================================================== *)

Module Stated.
Import Polars.

(** The smoother's degraded results, for a non-empty column that has a
    non-null value: when the shrunk window does not exceed the order, or
    the filter fails, the filled column is returned. *)
Definition smoother_degrades : Prop :=
  forall (savgol_filter : Smoother.filter_t) (s : Series) (W P D : Z),
    is_empty s = false ->
    all_null (values s) = false ->
    let sp := Smoother.s_processed s in
    let w := Smoother.effective_window_length s W P in
    (w <= P \/
     exists e, savgol_filter (to_numpy sp) w P D = Raise e /\
               isinstance_ValueError e = true) ->
    Smoother.apply_savgol_filter savgol_filter s W P D
    = Return (cast sp (dtype s)).

(** A two-day grid with a zero in [GDP] and in [^GSPC_open] on its first
    day. *)
Definition grid_with_zeros : Evaluator.DataFrame :=
  Evaluator.mkFrame [0; 1]
    [ ("BUSLOANS"%string, [Some (Num.of_Z 5); Some (Num.of_Z 5)]);
      ("GDP"%string, [Some (Num.of_Z 0); Some (Num.of_Z 2)]);
      ("^GSPC_high"%string, [Some (Num.of_Z 5); Some (Num.of_Z 5)]);
      ("^GSPC_low"%string, [Some (Num.of_Z 3); Some (Num.of_Z 5)]);
      ("^GSPC_open"%string, [Some (Num.of_Z 0); Some (Num.of_Z 2)]) ].

(** A column of 400 days holding 1, 2, 3, ... *)
Definition ramp_series : Polars.Series :=
  Polars.mkSeries "X" Polars.Float64
    (map (fun i => Some (Num.of_Z (Z.of_nat i + 1))) (seq 0 400)).

(** A column of three days with two observations. *)
Definition short_series : Polars.Series :=
  Polars.mkSeries "X" Polars.Float64
    [Some (Num.of_Z 1); None; Some (Num.of_Z 3)].

(** A wide table observed on days 10, 12 and 15: a regime column first
    observed on day 12 and a series observed once, on day 12. *)
Definition sparse_table : Normalizer.DataFrame :=
  Normalizer.mkFrame [10; 12; 15]
    [ ("USREC"%string,
       Normalizer.mkColumn true [None; Some (1 # 1)%Q; None]);
      ("GDP"%string,
       Normalizer.mkColumn true [None; Some (7 # 2)%Q; None]) ].

(** A grid of 420 days from 2022-01-08 (day 19000) whose regime indicator
    turns on on day 400 (2023-02-12) and stays on. *)
Definition regime_grid : list Recession.Row :=
  map (fun i => (19000 + Z.of_nat i,
                 Some (if Nat.leb 400 i then 1 else 0)))
      (seq 0 420).

(** The sparse table on its daily index, filled. *)
Definition sparse_table_daily : Normalizer.DataFrame :=
  Normalizer.mkFrame [10; 11; 12; 13; 14; 15]
    [ ("USREC"%string,
       Normalizer.mkColumn true
         [None; None; Some (1 # 1)%Q; Some (1 # 1)%Q; Some (1 # 1)%Q;
          Some (1 # 1)%Q]);
      ("GDP"%string, Normalizer.mkColumn true (repeat (Some (7 # 2)%Q) 6)) ].

(** A wide table with a gap of two days between observations. *)
Definition gapped_table : Normalizer.DataFrame :=
  Normalizer.mkFrame [10; 11; 12; 13; 14; 15]
    [ ("USREC"%string,
       Normalizer.mkColumn true
         [None; Some (1 # 1)%Q; None; None; Some (0 # 1)%Q; None]);
      ("GDP"%string,
       Normalizer.mkColumn true
         [None; Some (1 # 1)%Q; None; None; Some (4 # 1)%Q; None]);
      ("CPI"%string,
       Normalizer.mkColumn true
         [None; None; Some (7 # 2)%Q; None; None; None]) ].

(** An integer column whose largest value is 2^53. *)
Definition int_series : Polars.Series :=
  Polars.mkSeries "N" Polars.Int64
    [None; Some (Num.of_Z 3); None; Some (Num.of_Z (2 ^ 53)); None].

End Stated.

(* ================================================================== *)
(** * Properties of the series operations *)
(* ================================================================== *)

Module PolarsFacts.
Import Polars.

Lemma interpolate_from_length (l : list cell) :
  forall prev k, List.length (interpolate_from prev k l) = List.length l.
Proof.
  induction l as [|c tl IH]; intros prev k; simpl; [reflexivity|].
  destruct c; simpl; rewrite IH; reflexivity.
Qed.

Lemma fill_forward_from_length (l : list cell) :
  forall prev, List.length (fill_forward_from prev l) = List.length l.
Proof.
  induction l as [|c tl IH]; intros prev; simpl; [reflexivity|].
  destruct c; simpl; rewrite IH; reflexivity.
Qed.

Lemma fill_backward_values_length (l : list cell) :
  List.length (fill_backward_values l) = List.length l.
Proof.
  induction l as [|c tl IH]; simpl; [reflexivity|].
  destruct c; simpl; rewrite IH; reflexivity.
Qed.

Lemma cast_len (s : Series) (dt : DType) : len (cast s dt) = len s.
Proof. unfold len, cast; simpl. apply length_map. Qed.

Lemma null_series_len nm n dt : len (null_series nm n dt) = n.
Proof. unfold len, null_series; simpl. apply repeat_length. Qed.

Lemma to_numpy_length (s : Series) : List.length (to_numpy s) = len s.
Proof. unfold to_numpy, len. apply length_map. Qed.

Lemma of_numpy_len nm a : len (of_numpy nm a) = List.length a.
Proof. unfold len, of_numpy; simpl. apply length_map. Qed.

(** A value that is there survives [interpolate] and both fills. *)
Lemma interpolate_from_keeps (l : list cell) (x : num) :
  forall prev k, In (Some x) l -> In (Some x) (interpolate_from prev k l).
Proof.
  induction l as [|c tl IH]; intros prev k H; simpl in *; [contradiction|].
  destruct H as [->|H]; [now left|].
  destruct c; simpl; right; now apply IH.
Qed.

Lemma fill_backward_values_keeps (l : list cell) (x : num) :
  In (Some x) l -> In (Some x) (fill_backward_values l).
Proof.
  induction l as [|c tl IH]; intros H; simpl in *; [contradiction|].
  destruct H as [->|H]; [now left|].
  destruct c; simpl; right; now apply IH.
Qed.

Lemma fill_forward_from_keeps (l : list cell) (x : num) :
  forall prev, In (Some x) l -> In (Some x) (fill_forward_from prev l).
Proof.
  induction l as [|c tl IH]; intros prev H; simpl in *; [contradiction|].
  destruct H as [->|H]; [now left|].
  destruct c; simpl; right; now apply IH.
Qed.

End PolarsFacts.

(* ================================================================== *)
(** * The Signal Smoother *)
(* ================================================================== *)

Module SmootherFacts.
Import Polars Smoother PolarsFacts.

Lemma s_processed_len (s : Series) : len (s_processed s) = len s.
Proof.
  unfold s_processed, len, fill_null_forward, fill_null_backward, interpolate,
    interpolate_values; simpl.
  now rewrite fill_forward_from_length, fill_backward_values_length,
    interpolate_from_length.
Qed.

Lemma s_processed_name (s : Series) : name (s_processed s) = name s.
Proof. reflexivity. Qed.

Lemma s_processed_is_float (s : Series) : is_float (dtype (s_processed s)) = true.
Proof. reflexivity. Qed.

Lemma s_processed_keeps (s : Series) (x : num) :
  In (Some x) (values s) -> In (Some x) (values (s_processed s)).
Proof.
  intros H. unfold s_processed; simpl.
  apply fill_forward_from_keeps, fill_backward_values_keeps.
  now apply interpolate_from_keeps.
Qed.

Lemma all_null_false_of_In (l : list cell) (x : num) :
  In (Some x) l -> all_null l = false.
Proof.
  intros H. unfold all_null.
  destruct (forallb cell_is_null l) eqn:E; [|reflexivity].
  rewrite forallb_forall in E. specialize (E _ H). discriminate.
Qed.

Lemma is_empty_false_of_In (s : Series) (c : cell) :
  In c (values s) -> is_empty s = false.
Proof. unfold is_empty. destruct (values s); [contradiction|reflexivity]. Qed.

Lemma num_valid_points_pos (a : list num) (x : num) :
  In x a -> is_nan x = false -> 0 < num_valid_points a.
Proof.
  intros Hin Hx. unfold num_valid_points.
  assert (H : In x (filter (fun y => negb (is_nan y)) a)).
  { apply filter_In. split; [assumption|now rewrite Hx]. }
  destruct (filter _ a); [contradiction|simpl; lia].
Qed.

Lemma to_numpy_In (s : Series) (x : num) :
  In (Some x) (values s) -> In x (to_numpy s).
Proof.
  intros H. unfold to_numpy.
  apply (in_map (fun c => match c with Some y => y | None => NaN end)) in H.
  exact H.
Qed.

(** The window of lines 41-48 for a request not above the order. *)
Lemma window_odd_above_le (W P : Z) :
  W <= P ->
  window_odd_above W P = if Z.eqb (P mod 2) 0 then P + 3 else P + 2.
Proof.
  intros H. unfold window_odd_above.
  apply Z.leb_le in H. rewrite H.
  destruct (Z.eqb (P mod 2) 0) eqn:E.
  - apply Z.eqb_eq in E.
    replace ((P + 1 + 1) mod 2) with 0 by (symmetry; rewrite Zplus_mod, Zplus_mod with (a := P), E; reflexivity).
    simpl. lia.
  - apply Z.eqb_neq in E.
    assert (Hm : P mod 2 = 1) by (pose proof (Z.mod_pos_bound P 2); lia).
    replace ((P + 1 + 0) mod 2) with 0
      by (symmetry; rewrite Z.add_0_r, Zplus_mod, Hm; reflexivity).
    simpl. lia.
Qed.

Lemma window_odd_above_odd (W P : Z) : (window_odd_above W P) mod 2 = 1.
Proof.
  unfold window_odd_above.
  set (w := if Z.leb W P then _ else _).
  destruct (Z.eqb (w mod 2) 0) eqn:E.
  - apply Z.eqb_eq in E. rewrite Zplus_mod, E. reflexivity.
  - apply Z.eqb_neq in E. pose proof (Z.mod_pos_bound w 2). lia.
Qed.

End SmootherFacts.

Module SmootherClaims.
Import Polars Smoother PolarsFacts SmootherFacts.

(** C4.  For a requested window not above the order the code does not
    resolve the window to the next odd number above the order when the
    order is even: for window 2 and order 2 it resolves 5, where the next
    odd number above the order is 3. *)
Theorem window_odd_above_2_2 :
  window_odd_above 2 2 = 5 /\ window_odd_above 2 2 <> 2 + 1.
Proof. split; [reflexivity|discriminate]. Qed.

(** C2, as worded, fails: a column holding one NaN is non-empty and not
    all null, its shrunk window (1) does not exceed the order (3), and the
    result is the all-null column, not the filled one. *)
Lemma smoother_degrades_fails : ~ Stated.smoother_degrades.
Proof.
  intros H.
  specialize (H (filter_raising ValueError)
                (mkSeries "x" Float64 [Some NaN]) 5 3 0
                eq_refl eq_refl).
  simpl in H.
  assert (G : effective_window_length (mkSeries "x" Float64 [Some NaN]) 5 3 <= 3)
    by (vm_compute; discriminate).
  specialize (H (or_introl G)).
  vm_compute in H. discriminate H.
Qed.

(** C2, amended.  On a column that holds a value which is neither null nor
    NaN, [apply_savgol_filter] returns the interpolated and boundary-filled
    column, cast to the type of the input, whenever the window shrunk to
    the number of usable samples does not exceed the order, and whenever
    the filter raises a [ValueError] (numpy's [LinAlgError] included). *)
Theorem smoother_degrades_usable
    (savgol_filter : filter_t) (s : Series) (W P D : Z) (x : num) :
  In (Some x) (values s) ->
  is_nan x = false ->
  let sp := s_processed s in
  let w := effective_window_length s W P in
  (w <= P \/
   exists e, savgol_filter (to_numpy sp) w P D = Raise e /\
             isinstance_ValueError e = true) ->
  apply_savgol_filter savgol_filter s W P D = Return (cast sp (dtype s)).
Proof.
  intros Hin Hx sp w Hdeg.
  pose proof (s_processed_keeps s x Hin) as Hsp. fold sp in Hsp.
  pose proof (num_valid_points_pos _ _ (to_numpy_In _ _ Hsp) Hx) as Hv.
  unfold apply_savgol_filter.
  rewrite (is_empty_false_of_In s _ Hin), (all_null_false_of_In _ _ Hin).
  fold sp. rewrite (all_null_false_of_In _ _ Hsp).
  change (is_float (dtype sp)) with true. cbv iota.
  destruct (Z.eqb (num_valid_points (to_numpy sp)) 0) eqn:E;
    [apply Z.eqb_eq in E; lia|].
  change (window_shrunk (window_odd_above W P) (num_valid_points (to_numpy sp)))
    with w.
  destruct (Z.leb w P) eqn:Ew; [reflexivity|].
  apply Z.leb_gt in Ew.
  destruct Hdeg as [Hle|[e [He Hve]]]; [lia|].
  rewrite He, Hve. reflexivity.
Qed.

Lemma smoother_degrades_usable_witness :
  apply_savgol_filter (filter_raising LinAlgError)
    (mkSeries "x" Float64 [Some (Num.of_Z 1); None; Some (Num.of_Z 3);
                            Some (Num.of_Z 4); Some (Num.of_Z 5)]) 5 3 0
  = Return (mkSeries "x" Float64
              [Some (Num.of_Z 1); Some (Num.of_Z 2); Some (Num.of_Z 3);
               Some (Num.of_Z 4); Some (Num.of_Z 5)]).
Proof.
  refine (eq_trans
            (smoother_degrades_usable (filter_raising LinAlgError)
               (mkSeries "x" Float64 [Some (Num.of_Z 1); None; Some (Num.of_Z 3);
                                       Some (Num.of_Z 4); Some (Num.of_Z 5)])
               5 3 0 (Num.of_Z 1) _ _ _) _).
  - simpl. left. reflexivity.
  - reflexivity.
  - right. exists LinAlgError. split; reflexivity.
  - vm_compute. reflexivity.
Defined.

(** C10.  Whatever the input series, every result [apply_savgol_filter]
    returns has the length and the name of the input, given that the
    filter returns an array as long as its input; the call raises only
    when the filter raised an exception that is not a [ValueError]. *)
Theorem apply_savgol_filter_len_name
    (savgol_filter : filter_t) (s : Series) (W P D : Z) :
  (forall a w p d b, savgol_filter a w p d = Return b ->
                     List.length b = List.length a) ->
  match apply_savgol_filter savgol_filter s W P D with
  | Return r => len r = len s /\ name r = name s
  | Raise e =>
      isinstance_ValueError e = false /\
      exists a w, savgol_filter a w P D = Raise e
  end.
Proof.
  intros Hlen. unfold apply_savgol_filter.
  destruct (is_empty s); [split; [apply cast_len|reflexivity]|].
  destruct (all_null (values s));
    [split; [apply null_series_len|reflexivity]|].
  destruct (all_null (values (s_processed s)));
    [split; [apply null_series_len|reflexivity]|].
  rewrite (s_processed_is_float s).
  destruct (Z.eqb _ 0); [split; [apply null_series_len|reflexivity]|].
  destruct (Z.leb _ P);
    [split; [rewrite cast_len; apply s_processed_len|reflexivity]|].
  destruct (savgol_filter _ _ P D) as [b|e] eqn:E.
  - split; [|reflexivity].
    rewrite cast_len, of_numpy_len, (Hlen _ _ _ _ _ E), to_numpy_length.
    apply s_processed_len.
  - destruct (isinstance_ValueError e) eqn:Ev.
    + split; [rewrite cast_len; apply s_processed_len|reflexivity].
    + split; [exact Ev|]. eexists; eexists; exact E.
Qed.

Lemma apply_savgol_filter_len_name_witness :
  match apply_savgol_filter filter_echo
          (mkSeries "RecInit_Smooth" Int8
             [None; Some (Num.of_Z 1); None; Some (Num.of_Z 4); Some (Num.of_Z 5);
              Some (Num.of_Z 6); Some (Num.of_Z 7); None]) 5 3 0 with
  | Return r => len r = 8%nat /\ name r = "RecInit_Smooth"%string
  | Raise e => isinstance_ValueError e = false /\
               exists a w, filter_echo a w 3 0 = Raise e
  end.
Proof.
  apply (apply_savgol_filter_len_name filter_echo
           (mkSeries "RecInit_Smooth" Int8
             [None; Some (Num.of_Z 1); None; Some (Num.of_Z 4); Some (Num.of_Z 5);
              Some (Num.of_Z 6); Some (Num.of_Z 7); None]) 5 3 0).
  intros a w p d b H. inversion H. reflexivity.
Defined.

End SmootherClaims.

(* ================================================================== *)
(** * The Derived Series Evaluator *)
(* ================================================================== *)

Module EvaluatorFacts.
Import Polars Evaluator.
Local Open Scope list_scope.

Lemma nth_error_zip_with {A B C} (f : A -> B -> C) (l : list A) (m : list B) :
  forall i,
    nth_error (zip_with f l m) i =
    match nth_error l i, nth_error m i with
    | Some a, Some b => Some (f a b)
    | _, _ => None
    end.
Proof.
  revert m. induction l as [|a l IH]; intros m i.
  - simpl. destruct i; reflexivity.
  - destruct m as [|b m].
    + simpl. destruct i; simpl; [reflexivity|].
      destruct (nth_error l i); reflexivity.
    + destruct i; simpl; [reflexivity|apply IH].
Qed.

Lemma missing_components_nonempty (d : AggDetails) (df : DataFrame) (comp : string) :
  In comp (components d) -> in_columns comp df = false ->
  missing_components d df <> [].
Proof.
  intros Hin Hc E.
  assert (H : In comp (missing_components d df)).
  { unfold missing_components. apply filter_In. split; [assumption|].
    now rewrite Hc. }
  rewrite E in H. contradiction.
Qed.

Lemma agg_loop_app (pre post : list (string * AggDetails)) (st : LoopState) :
  agg_loop (pre ++ post) st = agg_loop post (agg_loop pre st).
Proof. unfold agg_loop. apply fold_left_app. Qed.

(** A rule that divides by [column.replace(0, None)] is null on every row
    where the column is zero: this is what [GSPC_DailySwing] does. *)
Lemma div_replace_zero_null (df : DataFrame) (a : Expr) (c : string)
    (col r : list cell) (i : nat) (x : num) (v : cell) :
  get_column c (data df) = Some col ->
  nth_error col i = Some (Some x) ->
  Num.is_zero x = true ->
  eval df (Div a (ReplaceZeroNull (Col c))) = Some r ->
  nth_error r i = Some v ->
  v = None.
Proof.
  intros Hc Hx Hz He Hv. simpl in He. rewrite Hc in He. simpl in He.
  destruct (eval df a) as [la|]; [|discriminate]. simpl in He.
  injection He as <-.
  rewrite nth_error_zip_with, nth_error_map, Hx in Hv. simpl in Hv.
  rewrite Hz in Hv.
  destruct (nth_error la i) as [ca|]; [|discriminate].
  injection Hv as <-. destruct ca; reflexivity.
Qed.

End EvaluatorFacts.

Module EvaluatorClaims.
Import Polars Evaluator EvaluatorFacts.
Local Open Scope list_scope.
Local Open Scope string_scope.

(** C3.  On a grid where [GDP] and [^GSPC_open] are zero on the first day,
    the catalog's rule [BUSLOANS_by_GDP] divides by the zero and produces
    an infinity there, whereas [GSPC_DailySwing], which nulls its zero
    denominator, produces a null. *)
Theorem zero_denominator_not_nulled :
  let out := fst (create_aggregate_series aggregations_config true []
                    Stated.grid_with_zeros) in
  get_column "BUSLOANS_by_GDP" (data out)
    = Some [Some PInf; Some (Num.of_Z 250)] /\
  get_column "GSPC_DailySwing" (data out)
    = Some [None; Some (Num.of_Z 0)].
Proof. split; vm_compute; reflexivity. Qed.

(** In the catalog one rule nulls the zeros of its denominator; twenty-two
    divide by a column as it is. *)
Example catalog_division_rules :
  guarded_division_rules aggregations_config = ["GSPC_DailySwing"] /\
  unguarded_division_rules aggregations_config =
  [ "BUSLOANS_minus_BUSLOANSNSA_by_GDP"; "BUSLOANS_by_GDP";
    "BUSLOANS_INTEREST_by_GDP"; "W875RX1_by_GDP"; "PI_by_GDP";
    "CPROFIT_by_GDP"; "TOTLNNSA_by_GDP"; "WRESBAL_by_GDP"; "AAA_div_DGS10";
    "UNEMPLOY_by_POPTHM"; "DCOILWTICO_by_PPIACO"; "GDP_by_POPTHM";
    "GDP_by_CPIAUCSL"; "GDP_by_CPIAUCSL_by_POPTHM"; "GSPC_Close_by_MDY_Close";
    "QQQ_Close_by_MDY_Close"; "GSPC_Close_by_GDPDEF"; "GSPC_open_by_GDPDEF";
    "HOUST_div_POPTHM"; "FARMINCOME_by_GDP"; "GSG_Close_by_GDPDEF";
    "GSG_Close_by_GSPC_Close" ].
Proof. split; vm_compute; reflexivity. Qed.

(** C5.  A definition with a component that is absent from the grid's
    current columns leaves the grid and the metadata list as they are, is
    counted as skipped, and the loop goes on with the definitions after
    it. *)
Theorem missing_component_skips
    (config_pre config_post : list (string * AggDetails))
    (new_col_name : string) (agg_details : AggDetails)
    (st0 : LoopState) (comp : string) :
  let st := agg_loop config_pre st0 in
  let st' := agg_step st (new_col_name, agg_details) in
  In comp (components agg_details) ->
  in_columns comp (df_data_pl st) = false ->
  df_data_pl st' = df_data_pl st /\
  new_symbols_metadata st' = new_symbols_metadata st /\
  successful_aggregates st' = successful_aggregates st /\
  skipped_aggregates st' = skipped_aggregates st + 1 /\
  agg_loop (config_pre ++ (new_col_name, agg_details) :: config_post) st0
  = agg_loop config_post st'.
Proof.
  intros st st' Hin Hc.
  pose proof (missing_components_nonempty _ _ _ Hin Hc) as Hm.
  assert (E : st' = mkState (df_data_pl st) (new_symbols_metadata st)
                            (successful_aggregates st) (skipped_aggregates st + 1)).
  { unfold st', agg_step.
    destruct (missing_components agg_details (df_data_pl st));
      [contradiction|reflexivity]. }
  repeat split; try (rewrite E; reflexivity).
  rewrite agg_loop_app. reflexivity.
Qed.

Lemma missing_component_skips_witness :
  match aggregations_config with
  | (new_col_name, agg_details) :: config_post =>
      let st := init_state Stated.grid_with_zeros in
      let st' := agg_step st (new_col_name, agg_details) in
      In "RRSFS" (components agg_details) /\
      in_columns "RRSFS" (df_data_pl st) = false /\
      df_data_pl st' = df_data_pl st /\
      new_symbols_metadata st' = new_symbols_metadata st /\
      successful_aggregates st' = successful_aggregates st /\
      skipped_aggregates st' = skipped_aggregates st + 1 /\
      agg_loop ([] ++ (new_col_name, agg_details) :: config_post) st
      = agg_loop config_post st'
  | [] => False
  end.
Proof.
  unfold aggregations_config.
  split; [simpl; auto|]. split; [reflexivity|].
  apply (missing_component_skips [] _ "RSALESAGG" _
           (init_state Stated.grid_with_zeros) "RRSFS");
    [simpl; auto|reflexivity].
Defined.

End EvaluatorClaims.

(* ================================================================== *)
(** * The Per-Symbol Feature Generator *)
(* ================================================================== *)

Module FeaturesFacts.
Import Polars Features EvaluatorFacts.
Local Open Scope list_scope.

(** The rows of a series shifted down by [n >= 0]. *)
Lemma nth_error_shift (n : Z) (l : list cell) (t : nat) :
  0 <= n -> (t < List.length l)%nat ->
  nth_error (shift n l) t =
  if Z.ltb (Z.of_nat t) n then Some None
  else nth_error l (Z.to_nat (Z.of_nat t - n)).
Proof.
  intros Hn Ht. unfold shift.
  apply Z.leb_le in Hn. rewrite Hn. apply Z.leb_le in Hn.
  set (m := Nat.min (Z.to_nat n) (List.length l)).
  destruct (Z.ltb (Z.of_nat t) n) eqn:E.
  - apply Z.ltb_lt in E.
    assert (Hm : (t < m)%nat) by (unfold m; lia).
    rewrite nth_error_app1 by (rewrite repeat_length; exact Hm).
    now apply nth_error_repeat.
  - apply Z.ltb_ge in E.
    assert (Hm : m = Z.to_nat n) by (unfold m; lia).
    rewrite nth_error_app2 by (rewrite repeat_length; lia).
    rewrite repeat_length, nth_error_firstn.
    assert (Hlt : (t - m <? List.length l - m)%nat = true)
      by (apply Nat.ltb_lt; lia).
    rewrite Hlt. f_equal. lia.
Qed.

Lemma shift_length (n : Z) (l : list cell) :
  List.length (shift n l) = List.length l.
Proof.
  unfold shift. destruct (Z.leb 0 n).
  - rewrite length_app, repeat_length, length_firstn. lia.
  - rewrite length_app, repeat_length, length_skipn. lia.
Qed.

Lemma nth_error_yoy_values (v : list cell) (lag : Z) (t : nat) :
  0 <= lag -> (t < List.length v)%nat ->
  nth_error (yoy_values v lag) t =
  Some (if Z.ltb (Z.of_nat t) lag then None
        else yoy_cell (nth t v None) (nth (Z.to_nat (Z.of_nat t - lag)) v None)).
Proof.
  intros Hl Ht. unfold yoy_values, series_mul_scalar, series_sub_scalar, series_div.
  rewrite !nth_error_map, nth_error_zip_with, (nth_error_shift lag v t Hl Ht).
  rewrite (nth_error_nth' v None Ht).
  destruct (Z.ltb (Z.of_nat t) lag) eqn:E.
  - simpl. destruct (nth t v None); reflexivity.
  - apply Z.ltb_ge in E.
    rewrite (nth_error_nth' v None) by lia.
    reflexivity.
Qed.

End FeaturesFacts.

Module FeaturesClaims.
Import Polars Features FeaturesFacts.
Local Open Scope list_scope.

(** C8.  For a year of [n_days_year >= 0] rows, the three year-over-year
    features (list positions 0, 1, 2) use the lags 1, 4 and 5 times
    [n_days_year]; at a row [t] of the grid the feature with lag [L] is null
    when [t < L] and [(v[t] / v[t-L] - 1) * 100] otherwise. *)
Theorem yoy_features_rows
    (original_series : Series) (symbol_name_prefix description_r : string)
    (series_start_date_str series_end_date_str : string) (n_days_year : Z)
    (j : nat) (k : Z) (t : nat) :
  0 <= n_days_year ->
  In (j, k) [(0%nat, 1); (1%nat, 4); (2%nat, 5)] ->
  (t < len original_series)%nat ->
  let v := values original_series in
  let L := k * n_days_year in
  option_map (fun f => nth_error (values f) t)
    (nth_error
       (fst (_calculate_yoy_features_series original_series symbol_name_prefix
               description_r series_start_date_str series_end_date_str
               n_days_year)) j)
  = Some (Some (if Z.ltb (Z.of_nat t) L then None
                else yoy_cell (nth t v None)
                              (nth (Z.to_nat (Z.of_nat t - L)) v None))).
Proof.
  intros Hn Hjk Ht v L. unfold L.
  simpl in Hjk.
  unfold _calculate_yoy_features_series.
  destruct Hjk as [E|[E|[E|[]]]]; injection E as <- <-;
    cbn [fst nth_error option_map yoy_series values]; f_equal.
  - replace (1 * n_days_year) with n_days_year by lia.
    now apply nth_error_yoy_values.
  - rewrite (Z.mul_comm 4). apply nth_error_yoy_values; [lia|exact Ht].
  - rewrite (Z.mul_comm 5). apply nth_error_yoy_values; [lia|exact Ht].
Qed.

(** With a year of 365 rows, row 365 of the first feature of the column
    1, 2, 3, ... is [(v[365] / v[0] - 1) * 100 = (366 / 1 - 1) * 100]. *)
Lemma yoy_features_rows_witness :
  option_map (fun f => nth_error (values f) 365)
    (nth_error
       (fst (_calculate_yoy_features_series Stated.ramp_series "X" "" "" "" 365))
       0)
  = Some (Some (yoy_cell (Some (Num.of_Z 366)) (Some (Num.of_Z 1)))).
Proof.
  apply (yoy_features_rows Stated.ramp_series "X" "" "" "" 365 0 1 365).
  - lia.
  - simpl. auto.
  - vm_compute. lia.
Defined.

Section MovingAverages.
Variable original_series : Series.
Variables symbol_name_prefix description_r label_y_r : string.
Variables series_start_date_str series_end_date_str : string.

Let step :=
  mva_step original_series symbol_name_prefix description_r label_y_r
           series_start_date_str series_end_date_str.

(** One iteration appends exactly one series and one record; below the
    window size these are the all-null column and the skipped record. *)
Lemma mva_step_appends (sl : list Series) (ml : list FeatureMeta)
    (suffix : string) (window : Z) :
  1 <= window ->
  exists f m,
    step (Return (sl, ml)) (suffix, window) = Return (sl ++ [f], ml ++ [m]) /\
    name f = (symbol_name_prefix ++ suffix)%string /\
    symbol m = (symbol_name_prefix ++ suffix)%string /\
    (Z.of_nat (count_non_null (values original_series)) < window ->
     f = null_series (symbol_name_prefix ++ suffix) (len original_series) Float64 /\
     source m = "Calc (Skipped)"%string).
Proof.
  intros Hw. unfold step, mva_step.
  destruct (Z.leb window _) eqn:E.
  - unfold rolling_mean.
    assert (Hlt : Z.ltb window 1 = false) by (apply Z.ltb_ge; lia).
    rewrite Hlt.
    eexists; eexists. split; [reflexivity|].
    split; [reflexivity|]. split; [reflexivity|].
    apply Z.leb_le in E. intros Hc. lia.
  - eexists; eexists. split; [reflexivity|].
    split; [reflexivity|]. split; [reflexivity|].
    intros _. split; reflexivity.
Qed.

(** C9.  For a year of at least one row the moving-average battery returns
    exactly three columns and three metadata records, in the order of the
    windows ([n_days_year], 200, 50); a window larger than the number of
    non-null samples gets the column of the full grid length filled with
    nulls and a record whose source is "Calc (Skipped)". *)
Theorem mva_skipped_column_present (n_days_year : Z) :
  1 <= n_days_year ->
  exists series meta,
    _calculate_mva_features_series original_series symbol_name_prefix
      description_r label_y_r series_start_date_str series_end_date_str
      n_days_year = Return (series, meta) /\
    List.length series = 3%nat /\ List.length meta = 3%nat /\
    forall j suffix window,
      nth_error (mva_configs n_days_year) j = Some (suffix, window) ->
      Z.of_nat (count_non_null (values original_series)) < window ->
      exists m,
        nth_error series j
        = Some (mkSeries (symbol_name_prefix ++ suffix) Float64
                         (repeat None (len original_series))) /\
        nth_error meta j = Some m /\
        symbol m = (symbol_name_prefix ++ suffix)%string /\
        source m = "Calc (Skipped)"%string.
Proof.
  intros Hn.
  unfold _calculate_mva_features_series, mva_configs. cbn [fold_left].
  destruct (mva_step_appends [] [] "_mva365" n_days_year Hn)
    as (f1 & m1 & E1 & _ & S1 & K1).
  destruct (mva_step_appends ([] ++ [f1]) ([] ++ [m1]) "_mva200" 200 ltac:(lia))
    as (f2 & m2 & E2 & _ & S2 & K2).
  destruct (mva_step_appends (([] ++ [f1]) ++ [f2]) (([] ++ [m1]) ++ [m2])
              "_mva050" 50 ltac:(lia))
    as (f3 & m3 & E3 & _ & S3 & K3).
  unfold step in *. rewrite E1, E2, E3.
  exists [f1; f2; f3], [m1; m2; m3].
  split; [reflexivity|]. split; [reflexivity|]. split; [reflexivity|].
  intros j suffix window Hj Hc.
  destruct j as [|[|[|j]]]; simpl in Hj.
  - injection Hj as <- <-. destruct (K1 Hc) as [-> Hs].
    exists m1. repeat split; assumption.
  - injection Hj as <- <-. destruct (K2 Hc) as [-> Hs].
    exists m2. repeat split; assumption.
  - injection Hj as <- <-. destruct (K3 Hc) as [-> Hs].
    exists m3. repeat split; assumption.
  - destruct j; discriminate.
Qed.

End MovingAverages.

Lemma mva_skipped_column_present_witness :
  1 <= 365 /\
  exists series meta,
    _calculate_mva_features_series Stated.short_series "X" "x" "y" "" "" 365
    = Return (series, meta) /\
    List.length series = 3%nat /\ List.length meta = 3%nat /\
    forall j suffix window,
      nth_error (mva_configs 365) j = Some (suffix, window) ->
      Z.of_nat (count_non_null (values Stated.short_series)) < window ->
      exists m,
        nth_error series j
        = Some (mkSeries ("X" ++ suffix) Float64
                         (repeat None (len Stated.short_series))) /\
        nth_error meta j = Some m /\
        symbol m = ("X" ++ suffix)%string /\
        source m = "Calc (Skipped)"%string.
Proof.
  split; [lia|].
  apply (mva_skipped_column_present Stated.short_series "X" "x" "y" "" "" 365).
  lia.
Defined.

End FeaturesClaims.

(* ================================================================== *)
(** * The Grid Normalizer *)
(* ================================================================== *)

Module NormalizerFacts.
Import Normalizer.
Local Open Scope list_scope.

(** ** The daily range *)

Lemma date_range_length (a b : Z) :
  List.length (date_range a b) = Z.to_nat (b - a + 1).
Proof. unfold date_range. now rewrite length_map, length_seq. Qed.

Lemma date_range_nth (a b : Z) (i : nat) :
  (i < Z.to_nat (b - a + 1))%nat ->
  nth_error (date_range a b) i = Some (a + Z.of_nat i).
Proof.
  intros H. unfold date_range.
  rewrite nth_error_map, nth_error_seq.
  apply Nat.ltb_lt in H. rewrite H. reflexivity.
Qed.

Lemma date_range_In (a b d : Z) : In d (date_range a b) <-> a <= d <= b.
Proof.
  unfold date_range. rewrite in_map_iff. split.
  - intros [i [<- Hi]]. apply in_seq in Hi. lia.
  - intros H. exists (Z.to_nat (d - a)). split; [lia|].
    apply in_seq. lia.
Qed.

Lemma date_range_NoDup (a b : Z) : NoDup (date_range a b).
Proof.
  unfold date_range.
  apply NoDup_map_NoDup_ForallPairs; [|apply seq_NoDup].
  intros x y _ _ H. lia.
Qed.

(** ** The bounds of the index *)

Lemma fold_min_spec (l : list Z) :
  forall x, let m := fold_left Z.min l x in
            In m (x :: l) /\ forall y, In y (x :: l) -> m <= y.
Proof.
  induction l as [|a l IH]; intros x; simpl.
  - split; [now left|]. intros y [<-|[]]. lia.
  - destruct (IH (Z.min x a)) as [Hin Hle]. split.
    + destruct Hin as [E|Hin]; [|right; right; exact Hin].
      rewrite <- E. destruct (Z.min_spec x a) as [[_ ->]|[_ ->]]; auto.
    + intros y [<-|[<-|Hy]].
      * specialize (Hle (Z.min x a) (or_introl eq_refl)). lia.
      * specialize (Hle (Z.min x a) (or_introl eq_refl)). lia.
      * apply Hle. now right.
Qed.

Lemma fold_max_spec (l : list Z) :
  forall x, let m := fold_left Z.max l x in
            In m (x :: l) /\ forall y, In y (x :: l) -> y <= m.
Proof.
  induction l as [|a l IH]; intros x; simpl.
  - split; [now left|]. intros y [<-|[]]. lia.
  - destruct (IH (Z.max x a)) as [Hin Hle]. split.
    + destruct Hin as [E|Hin]; [|right; right; exact Hin].
      rewrite <- E. destruct (Z.max_spec x a) as [[_ ->]|[_ ->]]; auto.
    + intros y [<-|[<-|Hy]].
      * specialize (Hle (Z.max x a) (or_introl eq_refl)). lia.
      * specialize (Hle (Z.max x a) (or_introl eq_refl)). lia.
      * apply Hle. now right.
Qed.

Lemma index_min_spec (l : list Z) :
  l <> [] -> In (index_min l) l /\ forall y, In y l -> index_min l <= y.
Proof. destruct l as [|x l]; [congruence|]. intros _. apply fold_min_spec. Qed.

Lemma index_max_spec (l : list Z) :
  l <> [] -> In (index_max l) l /\ forall y, In y l -> y <= index_max l.
Proof. destruct l as [|x l]; [congruence|]. intros _. apply fold_max_spec. Qed.

Lemma is_unique_NoDup (l : list Z) : NoDup l -> is_unique l = true.
Proof.
  induction 1 as [|x l Hx _ IH]; simpl; [reflexivity|].
  rewrite IH, andb_true_r. apply negb_true_iff.
  destruct (existsb (Z.eqb x) l) eqn:E; [|reflexivity].
  apply existsb_exists in E. destruct E as [y [Hy E]].
  apply Z.eqb_eq in E. subst y. contradiction.
Qed.

Lemma empty_false (df : DataFrame) :
  empty df = false -> index df <> [] /\ columns df <> [].
Proof.
  unfold empty. destruct (index df), (columns df); intros H;
    try discriminate; split; discriminate.
Qed.

(** ** Forward fill *)

Lemma ffill_leading (k : nat) (rest : list cell) :
  ffill (repeat None k ++ rest) = repeat None k ++ ffill rest.
Proof.
  unfold ffill. induction k as [|k IH]; simpl; [reflexivity|].
  now rewrite IH.
Qed.

Lemma ffill_from_length (l : list cell) :
  forall prev, List.length (ffill_from prev l) = List.length l.
Proof.
  induction l as [|c tl IH]; intros prev; simpl; [reflexivity|].
  destruct c; simpl; now rewrite IH.
Qed.

(** ** Linear interpolation with both-direction boundary fill *)

Lemma next_valid_In (l : list cell) (v : Q) :
  In (Some v) l -> exists d w, next_valid l = Some (d, w).
Proof.
  induction l as [|c tl IH]; intros H; [contradiction|].
  destruct c as [x|]; simpl; [now eexists; eexists|].
  destruct H as [H|H]; [discriminate|].
  destruct (IH H) as (d & w & ->). now eexists; eexists.
Qed.

Lemma next_valid_repeat_None (k : nat) : next_valid (repeat None k) = None.
Proof. induction k as [|k IH]; simpl; [reflexivity|now rewrite IH]. Qed.

Lemma next_valid_leading (a : nat) (v : Q) (l : list cell) :
  next_valid (repeat None a ++ Some v :: l) = Some (a, v).
Proof. induction a as [|a IH]; simpl; [reflexivity|now rewrite IH]. Qed.

Lemma pandas_interpolate_length (l : list cell) :
  forall prev k, List.length (interpolate_from prev k l) = List.length l.
Proof.
  induction l as [|c tl IH]; intros prev k; simpl; [reflexivity|].
  destruct c; simpl; now rewrite IH.
Qed.

(** No null survives once a value is known, before or ahead. *)
Lemma interpolate_from_no_null (l : list cell) :
  forall prev k,
    (prev <> None \/ exists v, In (Some v) l) ->
    ~ In None (interpolate_from prev k l).
Proof.
  induction l as [|c tl IH]; intros prev k H Hin; simpl in Hin; [exact Hin|].
  destruct c as [x|].
  - destruct Hin as [Hin|Hin]; [discriminate|].
    apply (IH (Some x) O); [left; discriminate|exact Hin].
  - assert (H' : prev <> None \/ exists v, In (Some v) tl).
    { destruct H as [H|[v [H|H]]]; [now left|discriminate|right; eauto]. }
    destruct Hin as [Hin|Hin]; [|exact (IH prev (S k) H' Hin)].
    destruct prev as [lo|].
    + destruct (next_valid tl) as [[d hi]|]; discriminate.
    + destruct H' as [H'|[v Hv]]; [congruence|].
      destruct (next_valid_In _ _ Hv) as (d & w & E).
      rewrite E in Hin. discriminate.
Qed.

Lemma interpolate_from_trailing (v : Q) (b : nat) :
  forall k, interpolate_from (Some v) k (repeat None b) = repeat (Some v) b.
Proof.
  induction b as [|b IH]; intros k; simpl; [reflexivity|].
  now rewrite next_valid_repeat_None, IH.
Qed.

Lemma interpolate_from_single (v : Q) (a b : nat) :
  forall k,
    interpolate_from None k (repeat None a ++ Some v :: repeat None b)
    = repeat (Some v) (a + 1 + b).
Proof.
  induction a as [|a IH]; intros k; simpl.
  - now rewrite interpolate_from_trailing.
  - now rewrite next_valid_leading, IH.
Qed.

(** ** Row by row *)

Lemma ffill_from_nth (l : list cell) (v : Q) :
  forall prev i, nth_error l i = Some (Some v) ->
                 nth_error (ffill_from prev l) i = Some (Some v).
Proof.
  induction l as [|c tl IH]; intros prev i H; [destruct i; discriminate|].
  destruct i; simpl in *.
  - injection H as ->. reflexivity.
  - destruct c; simpl; now apply IH.
Qed.

Lemma pandas_interpolate_nth (l : list cell) (v : Q) :
  forall prev k i, nth_error l i = Some (Some v) ->
                   nth_error (interpolate_from prev k l) i = Some (Some v).
Proof.
  induction l as [|c tl IH]; intros prev k i H; [destruct i; discriminate|].
  destruct i; simpl in *.
  - injection H as ->. reflexivity.
  - destruct c; simpl; now apply IH.
Qed.

(** A run of nulls takes the value carried into it. *)
Lemma ffill_from_run (l : list cell) :
  forall prev j,
    (j < List.length l)%nat ->
    (forall t, (t <= j)%nat -> nth_error l t = Some None) ->
    nth_error (ffill_from prev l) j = Some prev.
Proof.
  induction l as [|c tl IH]; intros prev j Hj H; [simpl in Hj; lia|].
  pose proof (H O (Nat.le_0_l j)) as H0. simpl in H0. injection H0 as ->.
  destruct j; simpl; [reflexivity|].
  apply IH; [simpl in Hj; lia|].
  intros t Ht. apply (H (S t)). lia.
Qed.

Lemma ffill_from_carried (l : list cell) :
  forall prev p j v,
    nth_error l p = Some (Some v) ->
    (p <= j)%nat -> (j < List.length l)%nat ->
    (forall t, (p < t <= j)%nat -> nth_error l t = Some None) ->
    nth_error (ffill_from prev l) j = Some (Some v).
Proof.
  induction l as [|c tl IH]; intros prev p j v Hp Hpj Hj H;
    [destruct p; discriminate|].
  destruct p as [|p].
  - simpl in Hp. injection Hp as ->.
    destruct j as [|j]; [reflexivity|]. simpl.
    apply ffill_from_run; [simpl in Hj; lia|].
    intros t Ht. apply (H (S t)). lia.
  - destruct j as [|j]; [lia|].
    assert (E : nth_error (ffill_from prev (c :: tl)) (S j)
                = nth_error (ffill_from (match c with Some x => Some x | None => prev end) tl) j)
      by (destruct c; reflexivity).
    rewrite E. apply (IH _ p j v); [exact Hp|lia|simpl in Hj; lia|].
    intros t Ht. apply (H (S t)). lia.
Qed.

Lemma next_valid_first (l : list cell) :
  forall q hi,
    nth_error l q = Some (Some hi) ->
    (forall t, (t < q)%nat -> nth_error l t = Some None) ->
    next_valid l = Some (q, hi).
Proof.
  induction l as [|c tl IH]; intros q hi Hq H; [destruct q; discriminate|].
  destruct q as [|q].
  - simpl in Hq. injection Hq as ->. reflexivity.
  - pose proof (H O ltac:(lia)) as H0. simpl in H0. injection H0 as ->.
    simpl. rewrite (IH q hi); [reflexivity|exact Hq|].
    intros t Ht. apply (H (S t)). lia.
Qed.

Lemma next_valid_nulls (l : list cell) :
  (forall t, (t < List.length l)%nat -> nth_error l t = Some None) ->
  next_valid l = None.
Proof.
  induction l as [|c tl IH]; intros H; [reflexivity|].
  pose proof (H O ltac:(simpl; lia)) as H0. simpl in H0. injection H0 as ->.
  simpl. rewrite IH; [reflexivity|].
  intros t Ht. apply (H (S t)). simpl. lia.
Qed.

(** Inside a gap that follows the value [lo], [k] rows behind. *)
Lemma interpolate_from_gap (l : list cell) :
  forall lo k q j hi,
    nth_error l q = Some (Some hi) ->
    (forall t, (t < q)%nat -> nth_error l t = Some None) ->
    (j < q)%nat ->
    nth_error (interpolate_from (Some lo) k l) j
    = Some (Some (interp lo hi (k + S j) (k + S q))).
Proof.
  induction l as [|c tl IH]; intros lo k q j hi Hq H Hj;
    [destruct q; discriminate|].
  destruct q as [|q]; [lia|].
  pose proof (H O ltac:(lia)) as H0. simpl in H0. injection H0 as ->.
  assert (Hn : next_valid tl = Some (q, hi)).
  { apply next_valid_first; [exact Hq|]. intros t Ht. apply (H (S t)). lia. }
  destruct j as [|j]; simpl.
  - rewrite Hn. do 2 f_equal. f_equal; lia.
  - rewrite (IH lo (S k) q j hi); [|exact Hq| |lia].
    + do 2 f_equal. f_equal; lia.
    + intros t Ht. apply (H (S t)). lia.
Qed.

Lemma pandas_interpolate_gap (l : list cell) :
  forall prev k p q j lo hi,
    nth_error l p = Some (Some lo) ->
    nth_error l q = Some (Some hi) ->
    (p < j < q)%nat ->
    (forall t, (p < t < q)%nat -> nth_error l t = Some None) ->
    nth_error (interpolate_from prev k l) j
    = Some (Some (interp lo hi (j - p) (q - p))).
Proof.
  induction l as [|c tl IH]; intros prev k p q j lo hi Hp Hq Hj H;
    [destruct p; discriminate|].
  destruct j as [|j]; [lia|]. destruct q as [|q]; [lia|].
  destruct p as [|p].
  - simpl in Hp. injection Hp as ->. simpl.
    rewrite (interpolate_from_gap tl lo O q j hi); [|exact Hq| |lia].
    + reflexivity.
    + intros t Ht. apply (H (S t)). lia.
  - assert (E : exists prev' k',
               nth_error (interpolate_from prev k (c :: tl)) (S j)
               = nth_error (interpolate_from prev' k' tl) j)
      by (destruct c; simpl; eauto).
    destruct E as (prev' & k' & ->).
    rewrite (IH prev' k' p q j lo hi); [reflexivity|exact Hp|exact Hq|lia|].
    intros t Ht. apply (H (S t)). lia.
Qed.

Lemma pandas_interpolate_leading (l : list cell) :
  forall k q j hi,
    nth_error l q = Some (Some hi) ->
    (j < q)%nat ->
    (forall t, (t < q)%nat -> nth_error l t = Some None) ->
    nth_error (interpolate_from None k l) j = Some (Some hi).
Proof.
  induction l as [|c tl IH]; intros k q j hi Hq Hj H;
    [destruct q; discriminate|].
  destruct q as [|q]; [lia|].
  pose proof (H O ltac:(lia)) as H0. simpl in H0. injection H0 as ->.
  assert (Hn : next_valid tl = Some (q, hi)).
  { apply next_valid_first; [exact Hq|]. intros t Ht. apply (H (S t)). lia. }
  destruct j as [|j]; simpl; [now rewrite Hn|].
  apply (IH (S k) q j hi); [exact Hq|lia|].
  intros t Ht. apply (H (S t)). lia.
Qed.

Lemma interpolate_from_tail (l : list cell) :
  forall lo k j,
    (j < List.length l)%nat ->
    (forall t, (t < List.length l)%nat -> nth_error l t = Some None) ->
    nth_error (interpolate_from (Some lo) k l) j = Some (Some lo).
Proof.
  induction l as [|c tl IH]; intros lo k j Hj H; [simpl in Hj; lia|].
  pose proof (H O ltac:(simpl; lia)) as H0. simpl in H0. injection H0 as ->.
  assert (Ht : forall t, (t < List.length tl)%nat -> nth_error tl t = Some None)
    by (intros t Ht; apply (H (S t)); simpl; lia).
  destruct j as [|j]; simpl; [now rewrite (next_valid_nulls tl Ht)|].
  apply IH; [simpl in Hj; lia|exact Ht].
Qed.

Lemma pandas_interpolate_trailing (l : list cell) :
  forall prev k p j lo,
    nth_error l p = Some (Some lo) ->
    (p < j < List.length l)%nat ->
    (forall t, (p < t < List.length l)%nat -> nth_error l t = Some None) ->
    nth_error (interpolate_from prev k l) j = Some (Some lo).
Proof.
  induction l as [|c tl IH]; intros prev k p j lo Hp Hj H;
    [destruct p; discriminate|].
  destruct j as [|j]; [lia|].
  destruct p as [|p].
  - simpl in Hp. injection Hp as ->. simpl.
    apply interpolate_from_tail; [simpl in Hj; lia|].
    intros t Ht. apply (H (S t)). simpl. lia.
  - assert (E : exists prev' k',
               nth_error (interpolate_from prev k (c :: tl)) (S j)
               = nth_error (interpolate_from prev' k' tl) j)
      by (destruct c; simpl; eauto).
    destruct E as (prev' & k' & ->).
    apply (IH prev' k' p j lo); [exact Hp|simpl in Hj; lia|].
    intros t Ht. apply (H (S t)). simpl. lia.
Qed.

(** The interpolated value is on the straight line between the two values. *)
Lemma interp_line (lo hi : Q) (dx span : nat) :
  (0 < span)%nat ->
  (interp lo hi dx span
   == lo + (hi - lo) * inject_Z (Z.of_nat dx) / inject_Z (Z.of_nat span))%Q.
Proof.
  intros Hs. unfold interp. rewrite Qred_correct. field.
  intros Hz.
  assert (H0 : (0 < inject_Z (Z.of_nat span))%Q).
  { replace 0%Q with (inject_Z 0) by reflexivity. rewrite <- Zlt_Qlt. lia. }
  rewrite Hz in H0. discriminate.
Qed.

End NormalizerFacts.

Module NormalizerClaims.
Import Normalizer NormalizerFacts.
Local Open Scope list_scope.

(** C1.  For a non-empty wide table, the table that
    [interpolate_and_process] returns is indexed by every calendar day from
    the minimum to the maximum observed date: (max - min) + 1 entries, in
    order, one per day, without duplicates and without gaps.  No table is
    returned only when the input has two rows for one date, which the
    reindexing refuses. *)
Theorem daily_index (df_wide : DataFrame) (usrec_symbol : string) :
  empty df_wide = false ->
  let min_date := index_min (index df_wide) in
  let max_date := index_max (index df_wide) in
  In min_date (index df_wide) /\ In max_date (index df_wide) /\
  (forall d, In d (index df_wide) -> min_date <= d <= max_date) /\
  match interpolate_and_process df_wide usrec_symbol with
  | Return df =>
      Z.of_nat (List.length (index df)) = max_date - min_date + 1 /\
      NoDup (index df) /\
      (forall d, In d (index df) <-> min_date <= d <= max_date) /\
      (forall i, (i < List.length (index df))%nat ->
                 nth_error (index df) i = Some (min_date + Z.of_nat i))
  | Raise e => e = ValueError /\ ~ NoDup (index df_wide)
  end.
Proof.
  intros He min_date max_date.
  destruct (empty_false _ He) as [Hi _].
  destruct (index_min_spec _ Hi) as [Hmin_in Hmin].
  destruct (index_max_spec _ Hi) as [Hmax_in Hmax].
  fold min_date in Hmin_in, Hmin. fold max_date in Hmax_in, Hmax.
  assert (Hle : min_date <= max_date) by (apply Hmin; exact Hmax_in).
  split; [exact Hmin_in|]. split; [exact Hmax_in|].
  split; [intros d Hd; split; [now apply Hmin|now apply Hmax]|].
  unfold interpolate_and_process, reindex. rewrite He.
  fold min_date max_date.
  destruct (is_unique (index df_wide)) eqn:Eu.
  - cbn [fill_step interpolate_cols ffill_usrec index].
    split; [rewrite date_range_length; lia|].
    split; [apply date_range_NoDup|].
    split; [apply date_range_In|].
    intros i Hlt. rewrite date_range_length in Hlt.
    now apply date_range_nth.
  - split; [reflexivity|]. intros Hu.
    rewrite (is_unique_NoDup _ Hu) in Eu. discriminate.
Qed.

Example sparse_table_processed :
  interpolate_and_process Stated.sparse_table "USREC"
  = Return
      (mkFrame [10; 11; 12; 13; 14; 15]
         [ ("USREC"%string,
            mkColumn true [None; None; Some (1 # 1)%Q; Some (1 # 1)%Q;
                           Some (1 # 1)%Q; Some (1 # 1)%Q]);
           ("GDP"%string,
            mkColumn true (repeat (Some (7 # 2)%Q) 6)) ]).
Proof. vm_compute. reflexivity. Qed.

Lemma daily_index_witness :
  In 10 (index Stated.sparse_table) /\ In 15 (index Stated.sparse_table) /\
  (forall d, In d (index Stated.sparse_table) -> 10 <= d <= 15) /\
  match interpolate_and_process Stated.sparse_table "USREC" with
  | Return df =>
      Z.of_nat (List.length (index df)) = 15 - 10 + 1 /\
      NoDup (index df) /\
      (forall d, In d (index df) <-> 10 <= d <= 15) /\
      (forall i, (i < List.length (index df))%nat ->
                 nth_error (index df) i = Some (10 + Z.of_nat i))
  | Raise e => e = ValueError /\ ~ NoDup (index Stated.sparse_table)
  end.
Proof.
  apply (daily_index Stated.sparse_table "USREC"). reflexivity.
Defined.

(** C6.  In the fill step the column named [usrec_symbol], and no other, is
    forward-filled: a null row takes the last value observed above it, and
    the rows above the first observation stay null.  Every other numeric
    column is interpolated linearly with both-direction boundary fill: a
    row in a gap between two observations lies on the straight line between
    them, the rows above the first observation take its value and the rows
    below the last one take its value, so that no null is left in a column
    that holds a value, and a column with a single value becomes constant.
    Observed values are kept everywhere, and a column that is not numeric
    (and not the regime column) is left as it is. *)
Theorem fill_policy (usrec_symbol : string) (df : DataFrame)
    (i : nat) (nm : string) (c : Column) :
  nth_error (columns df) i = Some (nm, c) ->
  exists c',
    nth_error (columns (fill_step usrec_symbol df)) i = Some (nm, c') /\
    numeric c' = numeric c /\
    List.length (cells c') = List.length (cells c) /\
    (forall j v, nth_error (cells c) j = Some (Some v) ->
                 nth_error (cells c') j = Some (Some v)) /\
    (nm = usrec_symbol ->
       (forall p j v,
           nth_error (cells c) p = Some (Some v) ->
           (p <= j < List.length (cells c))%nat ->
           (forall t, (p < t <= j)%nat -> nth_error (cells c) t = Some None) ->
           nth_error (cells c') j = Some (Some v)) /\
       (forall j,
           (j < List.length (cells c))%nat ->
           (forall t, (t <= j)%nat -> nth_error (cells c) t = Some None) ->
           nth_error (cells c') j = Some None)) /\
    (nm <> usrec_symbol -> numeric c = true ->
       (forall p q j lo hi,
           nth_error (cells c) p = Some (Some lo) ->
           nth_error (cells c) q = Some (Some hi) ->
           (p < j < q)%nat ->
           (forall t, (p < t < q)%nat -> nth_error (cells c) t = Some None) ->
           exists x,
             nth_error (cells c') j = Some (Some x) /\
             (x == lo + (hi - lo) * inject_Z (Z.of_nat (j - p))
                        / inject_Z (Z.of_nat (q - p)))%Q) /\
       (forall q j hi,
           nth_error (cells c) q = Some (Some hi) ->
           (j < q)%nat ->
           (forall t, (t < q)%nat -> nth_error (cells c) t = Some None) ->
           nth_error (cells c') j = Some (Some hi)) /\
       (forall p j lo,
           nth_error (cells c) p = Some (Some lo) ->
           (p < j < List.length (cells c))%nat ->
           (forall t, (p < t < List.length (cells c))%nat ->
                      nth_error (cells c) t = Some None) ->
           nth_error (cells c') j = Some (Some lo)) /\
       ((exists v, In (Some v) (cells c)) -> ~ In None (cells c')) /\
       (forall a b v, cells c = repeat None a ++ Some v :: repeat None b ->
                      cells c' = repeat (Some v) (a + 1 + b))) /\
    (nm <> usrec_symbol -> numeric c = false -> c' = c).
Proof.
  intros Hc. unfold fill_step, interpolate_cols, ffill_usrec.
  cbn [columns index]. rewrite !nth_error_map, Hc. cbn [option_map fst snd].
  unfold is_interpolation_col.
  destruct (String.eqb nm usrec_symbol) eqn:E; cbn [fst snd map_cells numeric].
  - apply String.eqb_eq in E. rewrite E, String.eqb_refl, andb_false_r.
    eexists. split; [reflexivity|]. cbn [numeric cells].
    split; [reflexivity|].
    split; [apply ffill_from_length|].
    split; [intros j v Hj; now apply ffill_from_nth|].
    split; [|split; intros Hne; congruence].
    intros _. split.
    + intros p j v Hp Hj Hn. unfold ffill.
      apply (ffill_from_carried _ None p j v Hp); [lia|lia|exact Hn].
    + intros j Hj Hn. unfold ffill. now apply ffill_from_run.
  - rewrite E. apply String.eqb_neq in E. rewrite andb_true_r.
    destruct (numeric c) eqn:Hn.
    + eexists. split; [reflexivity|]. cbn [numeric cells map_cells].
      split; [congruence|].
      split; [apply pandas_interpolate_length|].
      split; [intros j v Hj; unfold interpolate_both;
              now apply pandas_interpolate_nth|].
      split; [intros; congruence|].
      split; [|intros; congruence].
      intros _ _. unfold interpolate_both. split.
      { intros p q j lo hi Hp Hq Hj Hgap. eexists. split.
        - apply (pandas_interpolate_gap _ None O p q j lo hi Hp Hq Hj Hgap).
        - apply interp_line. lia. }
      split.
      { intros q j hi Hq Hj Hgap.
        now apply (pandas_interpolate_leading _ O q j hi). }
      split.
      { intros p j lo Hp Hj Hgap.
        now apply (pandas_interpolate_trailing _ None O p j lo). }
      split.
      * intros Hv. apply interpolate_from_no_null. now right.
      * intros a b v Hab. rewrite Hab. apply interpolate_from_single.
    + exists c. split; [reflexivity|]. split; [congruence|].
      split; [reflexivity|]. split; [auto|].
      split; [intros; congruence|]. split; [intros; congruence|].
      reflexivity.
Qed.

(** On a table with a gap of two days: the regime column keeps its leading
    null and carries 1, then 0, downwards; the series 1, null, null, 4 is
    filled with 2 and 3 inside the gap, 1 above and 4 below; the series
    observed once is constant. *)
Lemma fill_policy_witness :
  exists u g p,
    nth_error (columns (fill_step "USREC"%string Stated.gapped_table)) 0 = Some ("USREC"%string, u) /\
    nth_error (columns (fill_step "USREC"%string Stated.gapped_table)) 1 = Some ("GDP"%string, g) /\
    nth_error (columns (fill_step "USREC"%string Stated.gapped_table)) 2 = Some ("CPI"%string, p) /\
    nth_error (cells u) 0 = Some None /\
    nth_error (cells u) 1 = Some (Some (1 # 1)%Q) /\
    nth_error (cells u) 3 = Some (Some (1 # 1)%Q) /\
    nth_error (cells u) 5 = Some (Some (0 # 1)%Q) /\
    nth_error (cells g) 0 = Some (Some (1 # 1)%Q) /\
    (exists x, nth_error (cells g) 2 = Some (Some x) /\ (x == 2 # 1)%Q) /\
    (exists x, nth_error (cells g) 3 = Some (Some x) /\ (x == 3 # 1)%Q) /\
    nth_error (cells g) 5 = Some (Some (4 # 1)%Q) /\
    ~ In None (cells g) /\
    cells p = repeat (Some (7 # 2)%Q) 6.
Proof.
  destruct (fill_policy "USREC"%string Stated.gapped_table 0 "USREC"%string
              (mkColumn true
                 [None; Some (1 # 1)%Q; None; None; Some (0 # 1)%Q; None])
              eq_refl)
    as (u & Hu & _ & _ & Uk & Uf & _).
  destruct (fill_policy "USREC"%string Stated.gapped_table 1 "GDP"%string
              (mkColumn true
                 [None; Some (1 # 1)%Q; None; None; Some (4 # 1)%Q; None])
              eq_refl)
    as (g & Hg & _ & _ & _ & _ & Gi & _).
  destruct (fill_policy "USREC"%string Stated.gapped_table 2 "CPI"%string
              (mkColumn true [None; None; Some (7 # 2)%Q; None; None; None])
              eq_refl)
    as (p & Hp & _ & _ & _ & _ & Pi & _).
  destruct (Uf eq_refl) as (Ucarry & Ulead).
  destruct (Gi ltac:(discriminate) eq_refl)
    as (Ggap & Glead & Gtrail & Gfull & _).
  destruct (Pi ltac:(discriminate) eq_refl) as (_ & _ & _ & _ & Psingle).
  cbn [cells] in *.
  exists u, g, p.
  split; [exact Hu|]. split; [exact Hg|]. split; [exact Hp|].
  split.
  { apply Ulead; [simpl; lia|].
    intros t Ht. assert (t = O) by lia. subst t. reflexivity. }
  split; [apply Uk; reflexivity|].
  split.
  { apply (Ucarry 1%nat 3%nat (1 # 1)%Q); [reflexivity|simpl; lia|].
    intros t Ht.
    assert (Ht' : t = 2%nat \/ t = 3%nat) by lia.
    destruct Ht' as [-> | ->]; reflexivity. }
  split.
  { apply (Ucarry 4%nat 5%nat (0 # 1)%Q); [reflexivity|simpl; lia|].
    intros t Ht. assert (t = 5%nat) by lia. subst t. reflexivity. }
  split.
  { apply (Glead 1%nat 0%nat (1 # 1)%Q); [reflexivity|lia|].
    intros t Ht. assert (t = O) by lia. subst t. reflexivity. }
  assert (Gnull : forall t, (1 < t < 4)%nat ->
                    nth_error [None; Some (1 # 1)%Q; None; None;
                               Some (4 # 1)%Q; None] t = Some None).
  { intros t Ht. assert (Ht' : t = 2%nat \/ t = 3%nat) by lia.
    destruct Ht' as [-> | ->]; reflexivity. }
  split.
  { destruct (Ggap 1%nat 4%nat 2%nat (1 # 1)%Q (4 # 1)%Q eq_refl eq_refl
                ltac:(lia) Gnull) as (x & Hx & Ex).
    exists x. split; [exact Hx|]. rewrite Ex. reflexivity. }
  split.
  { destruct (Ggap 1%nat 4%nat 3%nat (1 # 1)%Q (4 # 1)%Q eq_refl eq_refl
                ltac:(lia) Gnull) as (x & Hx & Ex).
    exists x. split; [exact Hx|]. rewrite Ex. reflexivity. }
  split.
  { apply (Gtrail 4%nat 5%nat (4 # 1)%Q); [reflexivity|simpl; lia|].
    intros t Ht. simpl in Ht. assert (t = 5%nat) by lia. subst t. reflexivity. }
  split.
  { apply Gfull. exists (1 # 1)%Q. simpl. tauto. }
  exact (Psingle 2%nat 3%nat (7 # 2)%Q eq_refl).
Defined.

End NormalizerClaims.

(* ================================================================== *)
(** * The Recession Window Labeler *)
(* ================================================================== *)

Module RecessionFacts.
Import Recession.
Local Open Scope list_scope.

Lemma zip4_init (f g : Date -> option Date) (starts : list Date) :
  forall (ends : list Date) (r : RecessionRow),
    In r (zip4 (map f starts) (map g starts) starts ends) ->
    initStart r = f (start r) /\ initEnd r = g (start r) /\ In (start r) starts.
Proof.
  induction starts as [|s tl IH]; intros ends r H; simpl in H; [contradiction|].
  destruct ends as [|e ends]; [contradiction|].
  destruct H as [<-|H]; [simpl; auto|].
  destruct (IH _ _ H) as (H1 & H2 & H3).
  split; [exact H1|]. split; [exact H2|]. right. exact H3.
Qed.

Lemma df_recession_rows (today : Date) (sorted : list Row) (r : RecessionRow) :
  In r (df_recession today sorted) ->
  init_of_start r /\
  In (start r) (dt_start_dates sorted) /\
  forall m, min_date (map fst sorted) = Some m -> m <= start r.
Proof.
  unfold df_recession.
  set (starts := dt_start_dates sorted).
  set (n := Nat.min _ _).
  destruct (Nat.eqb n 0); [contradiction|].
  rewrite !firstn_map.
  set (rows := zip4 _ _ _ _).
  assert (Hrows : forall x, In x rows ->
                            init_of_start x /\ In (start x) starts).
  { intros x Hx. unfold rows in Hx.
    destruct (zip4_init _ _ _ _ _ Hx) as (H1 & H2 & H3).
    split; [split; assumption|].
    revert H3. clear. generalize n. induction starts as [|a l IH]; intros k H.
    - destruct k; contradiction.
    - destruct k; [contradiction|]. simpl in H.
      destruct H as [H|H]; [now left|right; eauto]. }
  destruct (min_date (map fst sorted)) as [m0|].
  - intros H. apply filter_In in H. destruct H as [H Hm].
    destruct (Hrows _ H) as [H1 H2]. split; [exact H1|]. split; [exact H2|].
    intros m E. injection E as <-. now apply Z.leb_le.
  - intros H. destruct (Hrows _ H) as [H1 H2].
    split; [exact H1|]. split; [exact H2|]. discriminate.
Qed.

Lemma flag_window_length (dates : list Date) (flags : list Z) (r : RecessionRow) :
  List.length flags = List.length dates ->
  List.length (flag_window dates flags r) = List.length dates.
Proof.
  intros H. unfold flag_window.
  destruct (initStart r), (initEnd r); try exact H.
  rewrite length_map, length_combine. lia.
Qed.

Lemma nth_error_combine {A B} (l : list A) (m : list B) :
  forall i a b, nth_error l i = Some a -> nth_error m i = Some b ->
                nth_error (combine l m) i = Some (a, b).
Proof.
  revert m. induction l as [|x l IH]; intros m i a b Ha Hb.
  - destruct i; discriminate.
  - destruct m as [|y m]; [destruct i; discriminate|].
    destruct i; simpl in *; [congruence|eauto].
Qed.

Lemma flag_window_nth (dates : list Date) (flags : list Z) (r : RecessionRow)
    (i : nat) (d : Date) (f0 : Z) :
  nth_error dates i = Some d -> nth_error flags i = Some f0 ->
  nth_error (flag_window dates flags r) i
  = Some (if in_window d r then 1 else f0).
Proof.
  intros Hd Hf. unfold flag_window, in_window.
  destruct (initStart r) as [s|], (initEnd r) as [e|]; try exact Hf.
  unfold Date in *.
  rewrite nth_error_map, (nth_error_combine _ _ _ _ _ Hd Hf). reflexivity.
Qed.

(** After the passes over the episodes [rs], a day is flagged exactly when
    it is in the window of one of them; otherwise it keeps its flag. *)
Lemma fold_flag_window_nth (dates : list Date) (rs : list RecessionRow) :
  forall (flags : list Z) (i : nat) (d : Date) (f0 : Z),
    List.length flags = List.length dates ->
    nth_error dates i = Some d -> nth_error flags i = Some f0 ->
    nth_error (fold_left (flag_window dates) rs flags) i
    = Some (if existsb (in_window d) rs then 1 else f0).
Proof.
  induction rs as [|r rs IH]; intros flags i d f0 Hl Hd Hf; simpl; [exact Hf|].
  rewrite (IH _ i d (if in_window d r then 1 else f0)
              (flag_window_length _ _ _ Hl) Hd (flag_window_nth _ _ _ _ _ _ Hd Hf)).
  destruct (in_window d r); simpl; [|reflexivity].
  destruct (existsb (in_window d) rs); reflexivity.
Qed.

Lemma fold_flag_window_length (dates : list Date) (rs : list RecessionRow) :
  forall flags, List.length flags = List.length dates ->
                List.length (fold_left (flag_window dates) rs flags)
                = List.length dates.
Proof.
  induction rs as [|r rs IH]; intros flags H; simpl; [exact H|].
  apply IH. now apply flag_window_length.
Qed.

(** ** The calendar *)

Lemma forall_range_spec (n : nat) (P : Z -> bool) :
  forall z, forall_range n z P = true ->
            forall x, z <= x < z + Z.of_nat n -> P x = true.
Proof.
  induction n as [|n IH]; intros z H x Hx; [lia|].
  simpl in H. apply andb_true_iff in H. destruct H as [H0 H1].
  destruct (Z.eq_dec x z) as [->|Hne]; [exact H0|].
  apply (IH (z + 1) H1). lia.
Qed.

Lemma civil_eqb_eq (a b : Z * Z * Z) : civil_eqb a b = true -> a = b.
Proof.
  destruct a as [[y m] d], b as [[y' m'] d']. unfold civil_eqb.
  intros H. apply andb_true_iff in H. destruct H as [H H3].
  apply andb_true_iff in H. destruct H as [H1 H2].
  apply Z.eqb_eq in H1, H2, H3. congruence.
Qed.

Lemma civil_from_days_shift (z k : Z) :
  civil_from_days (z + 146097 * k)
  = let '(y, m, d) := civil_from_days z in (y + 400 * k, m, d).
Proof.
  unfold civil_from_days. cbv zeta.
  replace (z + 146097 * k + 719468) with (z + 719468 + k * 146097) by lia.
  rewrite Z.div_add by lia.
  replace (z + 719468 + k * 146097 - ((z + 719468) / 146097 + k) * 146097)
    with (z + 719468 - (z + 719468) / 146097 * 146097) by lia.
  set (doe := z + 719468 - (z + 719468) / 146097 * 146097).
  set (yoe := (doe - doe / 1460 + doe / 36524 - doe / 146096) / 365).
  set (doy := doe - (365 * yoe + yoe / 4 - yoe / 100)).
  set (mp := (5 * doy + 2) / 153).
  destruct (Z.ltb mp 10); destruct (Z.leb _ 2); f_equal; f_equal; lia.
Qed.

Lemma days_from_civil_shift (y m d k : Z) :
  days_from_civil (y + 400 * k) m d = days_from_civil y m d + 146097 * k.
Proof.
  unfold days_from_civil. cbv zeta.
  set (y0 := if Z.leb m 2 then y - 1 else y).
  replace (if Z.leb m 2 then y + 400 * k - 1 else y + 400 * k)
    with (y0 + k * 400) by (unfold y0; destruct (Z.leb m 2); lia).
  rewrite Z.div_add by lia.
  replace (y0 + k * 400 - (y0 / 400 + k) * 400) with (y0 - y0 / 400 * 400) by lia.
  lia.
Qed.

Lemma era_days_checked :
  calendar_check (Z.to_nat 146098) 0 (1970, 1, 1) = true.
Proof. vm_compute. reflexivity. Qed.

Lemma calendar_check_spec (n : nat) :
  forall z c, calendar_check n z c = true ->
  forall x, z <= x < z + Z.of_nat n ->
    let '(y, m, d) := civil_from_days x in
    days_from_civil y m d = x /\
    1 <= m <= 12 /\ 1 <= d <= days_in_month y m /\
    (x + 1 < z + Z.of_nat n ->
     civil_from_days (x + 1) = next_civil (y, m, d)).
Proof.
  induction n as [|n IH]; intros z c H x Hx; [lia|].
  cbn [calendar_check] in H.
  apply andb_true_iff in H. destruct H as [H Hrest].
  apply andb_true_iff in H. destruct H as [Hc Hz].
  apply civil_eqb_eq in Hc.
  destruct (Z.eq_dec x z) as [->|Hne].
  - rewrite Hc. destruct c as [[y m] d].
    repeat (apply andb_true_iff in Hz; destruct Hz as [Hz ?]).
    apply Z.eqb_eq in Hz.
    repeat match goal with
           | H : Z.leb _ _ = true |- _ => apply Z.leb_le in H
           end.
    split; [exact Hz|]. split; [lia|]. split; [lia|].
    intros Hn. destruct n as [|n]; [lia|].
    cbn [calendar_check] in Hrest.
    apply andb_true_iff in Hrest. destruct Hrest as [Hr _].
    apply andb_true_iff in Hr. destruct Hr as [Hr _].
    now apply civil_eqb_eq in Hr.
  - specialize (IH (z + 1) (next_civil c) Hrest x ltac:(lia)).
    destruct (civil_from_days x) as [[y m] d].
    destruct IH as (H1 & H2 & H3 & H4).
    split; [exact H1|]. split; [exact H2|]. split; [exact H3|].
    intros Hn. apply H4. lia.
Qed.

Lemma first_days_checked :
  forall_range 400 0
    (fun y => forallb (fun m => civil_eqb (civil_from_days (days_from_civil y m 1))
                                          (y, m, 1))
                      [1; 2; 3; 4; 5; 6; 7; 8; 9; 10; 11; 12])
  = true.
Proof. vm_compute. reflexivity. Qed.

Lemma is_leap_shift (y k : Z) : is_leap (y + 400 * k) = is_leap y.
Proof.
  unfold is_leap.
  replace (y + 400 * k) with (y + (100 * k) * 4) at 1 by lia.
  replace (y + 400 * k) with (y + (4 * k) * 100) at 1 by lia.
  replace (y + 400 * k) with (y + k * 400) by lia.
  now rewrite !Z_mod_plus_full.
Qed.

Lemma days_in_month_shift (y m k : Z) :
  days_in_month (y + 400 * k) m = days_in_month y m.
Proof. unfold days_in_month. now rewrite is_leap_shift. Qed.

Lemma days_in_month_pos (y m : Z) : 28 <= days_in_month y m <= 31.
Proof.
  unfold days_in_month.
  destruct (Z.eqb m 2); [destruct (is_leap y); lia|].
  destruct (_ || _); lia.
Qed.

(** The calendar reading of a day number: the day number is recovered from
    the date, the month and the day are in range, and the next day number
    reads as the next date. *)
Lemma civil_from_days_spec (z : Z) :
  let '(y, m, d) := civil_from_days z in
  days_from_civil y m d = z /\
  1 <= m <= 12 /\ 1 <= d <= days_in_month y m /\
  civil_from_days (z + 1) = next_civil (y, m, d).
Proof.
  pose proof (Z.div_mod z 146097 ltac:(lia)) as Hz.
  pose proof (Z.mod_pos_bound z 146097 ltac:(lia)) as Hb.
  set (k := z / 146097) in *. set (z0 := z mod 146097) in *.
  pose proof (calendar_check_spec _ _ _ era_days_checked z0 ltac:(lia)) as Hc.
  replace z with (z0 + 146097 * k) by lia.
  replace (z0 + 146097 * k + 1) with (z0 + 1 + 146097 * k) by lia.
  rewrite !civil_from_days_shift.
  destruct (civil_from_days z0) as [[y m] d].
  destruct Hc as (Hc & Hm & Hd & Hnext).
  rewrite (Hnext ltac:(lia)).
  rewrite days_from_civil_shift, days_in_month_shift.
  split; [lia|]. split; [lia|]. split; [lia|].
  unfold next_civil. rewrite days_in_month_shift.
  destruct (Z.ltb d (days_in_month y m)); [reflexivity|].
  destruct (Z.ltb m 12); [reflexivity|]. f_equal. f_equal. lia.
Qed.

Lemma civil_from_days_inj (a b : Z) :
  civil_from_days a = civil_from_days b -> a = b.
Proof.
  intros H. pose proof (civil_from_days_spec a) as Ha.
  pose proof (civil_from_days_spec b) as Hb. rewrite H in Ha.
  destruct (civil_from_days b) as [[y m] d]. lia.
Qed.

Lemma civil_from_days_month (z y m d : Z) :
  civil_from_days z = (y, m, d) -> 1 <= m <= 12.
Proof.
  intros H. pose proof (civil_from_days_spec z) as Hz. rewrite H in Hz. lia.
Qed.

Lemma civil_of_first_day (y m : Z) :
  1 <= m <= 12 -> civil_from_days (days_from_civil y m 1) = (y, m, 1).
Proof.
  intros Hm.
  pose proof (Z.div_mod y 400 ltac:(lia)) as Hy.
  pose proof (Z.mod_pos_bound y 400 ltac:(lia)) as Hb.
  set (k := y / 400) in *. set (y0 := y mod 400) in *.
  pose proof (forall_range_spec _ _ _ first_days_checked y0 ltac:(lia)) as Hc.
  cbv beta in Hc. rewrite forallb_forall in Hc.
  assert (Hin : In m [1; 2; 3; 4; 5; 6; 7; 8; 9; 10; 11; 12])
    by (simpl; lia).
  specialize (Hc m Hin). apply civil_eqb_eq in Hc.
  replace y with (y0 + 400 * k) by lia.
  now rewrite days_from_civil_shift, civil_from_days_shift, Hc.
Qed.

Lemma month_start_civil (s y m d : Z) :
  civil_from_days s = (y, m, d) -> civil_from_days (month_start s) = (y, m, 1).
Proof.
  intros H. unfold month_start. rewrite H.
  apply civil_of_first_day. exact (civil_from_days_month _ _ _ _ H).
Qed.

Lemma offset_by_minus_1y_first (t y m : Z) :
  civil_from_days t = (y, m, 1) ->
  civil_from_days (offset_by_minus_1y t) = (y - 1, m, 1).
Proof.
  intros H. unfold offset_by_minus_1y. rewrite H.
  pose proof (days_in_month_pos (y - 1) m).
  rewrite Z.min_l by lia.
  apply civil_of_first_day. exact (civil_from_days_month _ _ _ _ H).
Qed.

Lemma offset_by_minus_1mo_first (t y m : Z) :
  civil_from_days t = (y, m, 1) ->
  civil_from_days (offset_by_minus_1mo t)
  = if Z.eqb m 1 then (y - 1, 12, 1) else (y, m - 1, 1).
Proof.
  intros H. unfold offset_by_minus_1mo. rewrite H.
  pose proof (civil_from_days_month _ _ _ _ H) as Hm.
  destruct (Z.eqb m 1) eqn:E.
  - pose proof (days_in_month_pos (y - 1) 12).
    rewrite Z.min_l by lia. apply civil_of_first_day. lia.
  - apply Z.eqb_neq in E. pose proof (days_in_month_pos y (m - 1)).
    rewrite Z.min_l by lia. apply civil_of_first_day. lia.
Qed.

End RecessionFacts.

Module RecessionClaims.
Import Recession RecessionFacts.
Local Open Scope list_scope.

(** C7.  When the labeler flags the grid, every grid day gets the flag 1 or
    0, and it gets 1 exactly when, for some retained episode whose start
    falls in month [m] of year [y], the day lies strictly between the first
    day of month [m] of year [y - 1] and the first day of the month before
    [m] (December of [y - 1] when [m] is January); every retained episode
    starts on a start date of the grid that is not before the grid's
    earliest date. *)
Theorem rec_init_window (today : Date) (df_data sorted : list Row)
    (RecInit : list Z) :
  add_recession_features today df_data = Labeled sorted RecInit ->
  let retained := df_recession today sorted in
  List.length RecInit = List.length sorted /\
  (forall r, In r retained ->
     In (start r) (dt_start_dates sorted) /\
     forall m, min_date (map fst sorted) = Some m -> m <= start r) /\
  forall i d u,
    nth_error sorted i = Some (d, u) ->
    exists f,
      nth_error RecInit i = Some f /\
      (f = 1 \/ f = 0) /\
      (f = 1 <->
       exists r y m dd lo hi,
         In r retained /\
         civil_from_days (start r) = (y, m, dd) /\
         civil_from_days lo = (y - 1, m, 1) /\
         civil_from_days hi
         = (if Z.eqb m 1 then (y - 1, 12, 1) else (y, m - 1, 1)) /\
         lo < d /\ d < hi).
Proof.
  unfold add_recession_features.
  destruct (dt_start_dates (sort_by_date df_data)) as [|s0 starts] eqn:Es;
    [discriminate|].
  intros H. injection H as <- <-.
  set (sorted := sort_by_date df_data) in *.
  set (retained := df_recession today sorted).
  assert (Hlen : List.length (repeat 0 (List.length sorted))
                 = List.length (map fst sorted))
    by now rewrite repeat_length, length_map.
  split.
  { unfold rec_init. rewrite fold_flag_window_length by exact Hlen.
    apply length_map. }
  split.
  { intros r Hr. destruct (df_recession_rows _ _ _ Hr) as (_ & H1 & H2).
    split; assumption. }
  intros i d u Hi.
  assert (Hd : nth_error (map fst sorted) i = Some d)
    by exact (map_nth_error fst _ _ Hi).
  assert (Hf : nth_error (repeat 0 (List.length sorted)) i = Some 0).
  { apply nth_error_repeat. apply nth_error_Some. congruence. }
  unfold rec_init.
  rewrite (fold_flag_window_nth _ _ _ i d 0 Hlen Hd Hf).
  fold retained.
  assert (Hbounds : forall r y m dd,
             civil_from_days (start r) = (y, m, dd) ->
             civil_from_days (offset_by_minus_1y (month_start (start r)))
             = (y - 1, m, 1) /\
             civil_from_days (offset_by_minus_1mo (month_start (start r)))
             = (if Z.eqb m 1 then (y - 1, 12, 1) else (y, m - 1, 1))).
  { intros r y m dd Hc. pose proof (month_start_civil _ _ _ _ Hc) as Hm.
    split; [now apply offset_by_minus_1y_first
           |now apply offset_by_minus_1mo_first]. }
  eexists. split; [reflexivity|].
  destruct (existsb (in_window d) retained) eqn:E.
  - split; [now left|]. split; [intros _|reflexivity].
    apply existsb_exists in E. destruct E as (r & Hr & Hw).
    destruct (df_recession_rows _ _ _ Hr) as ((H1 & H2) & _).
    unfold in_window in Hw. rewrite H1, H2 in Hw.
    apply andb_true_iff in Hw. destruct Hw as [Ha Hb].
    apply Z.ltb_lt in Ha, Hb.
    destruct (civil_from_days (start r)) as [[y m] dd] eqn:Hc.
    destruct (Hbounds r y m dd Hc) as [Hlo Hhi].
    exists r, y, m, dd, (offset_by_minus_1y (month_start (start r))),
      (offset_by_minus_1mo (month_start (start r))).
    repeat split; assumption.
  - split; [now right|]. split; [discriminate|].
    intros (r & y & m & dd & lo & hi & Hr & Hc & Hlo & Hhi & Ha & Hb).
    exfalso.
    destruct (Hbounds r y m dd Hc) as [Hlo' Hhi'].
    assert (Elo : lo = offset_by_minus_1y (month_start (start r)))
      by (apply civil_from_days_inj; congruence).
    assert (Ehi : hi = offset_by_minus_1mo (month_start (start r)))
      by (apply civil_from_days_inj; congruence).
    assert (Hw : in_window d r = true).
    { destruct (df_recession_rows _ _ _ Hr) as ((H1 & H2) & _).
      unfold in_window. rewrite H1, H2.
      apply andb_true_iff. split; apply Z.ltb_lt; congruence. }
    assert (Hex : existsb (in_window d) retained = true)
      by (apply existsb_exists; eauto).
    congruence.
Qed.

(** The example grid has one episode, starting on 2023-02-12 (day 19400):
    2022-02-01 (day 19024) and 2023-01-01 (day 19358) are not flagged, the
    days after the first and before the second are. *)
Lemma rec_init_window_witness :
  let sorted := sort_by_date Stated.regime_grid in
  let RecInit := rec_init 20000 sorted in
  add_recession_features 20000 Stated.regime_grid = Labeled sorted RecInit /\
  df_recession 20000 sorted = [mkRec (Some 19024) (Some 19358) 19400 20000] /\
  civil_from_days 19400 = (2023, 2, 12) /\
  civil_from_days 19024 = (2022, 2, 1) /\
  civil_from_days 19358 = (2023, 1, 1) /\
  nth_error sorted 24 = Some (19024, Some 0) /\
  nth_error RecInit 24 = Some 0 /\
  nth_error sorted 25 = Some (19025, Some 0) /\
  nth_error RecInit 25 = Some 1 /\
  nth_error sorted 357 = Some (19357, Some 0) /\
  nth_error RecInit 357 = Some 1 /\
  nth_error sorted 358 = Some (19358, Some 0) /\
  nth_error RecInit 358 = Some 0.
Proof.
  intros sorted RecInit.
  assert (H : add_recession_features 20000 Stated.regime_grid
              = Labeled sorted RecInit) by (vm_compute; reflexivity).
  assert (Hret : df_recession 20000 sorted
                 = [mkRec (Some 19024) (Some 19358) 19400 20000])
    by (vm_compute; reflexivity).
  destruct (rec_init_window 20000 Stated.regime_grid sorted RecInit H)
    as (_ & _ & Hday).
  rewrite Hret in Hday.
  assert (Hin : forall i d u, nth_error sorted i = Some (d, u) ->
                  19024 < d < 19358 -> nth_error RecInit i = Some 1).
  { intros i d u Hi Hd. destruct (Hday i d u Hi) as (f & Hf & _ & Hiff).
    rewrite Hf. f_equal. apply Hiff.
    exists (mkRec (Some 19024) (Some 19358) 19400 20000),
      2023, 2, 12, 19024, 19358.
    split; [now left|]. repeat split; try reflexivity; lia. }
  assert (Hout : forall i d u, nth_error sorted i = Some (d, u) ->
                   d <= 19024 \/ 19358 <= d -> nth_error RecInit i = Some 0).
  { intros i d u Hi Hd. destruct (Hday i d u Hi) as (f & Hf & [Hf1|Hf0] & Hiff);
      [|now rewrite Hf, Hf0].
    exfalso. apply Hiff in Hf1.
    destruct Hf1 as (r & y & m & dd & lo & hi & [<-|[]] & Hc & Hlo & Hhi & Ha & Hb).
    cbn [start] in Hc.
    assert (Hc' : civil_from_days 19400 = (2023, 2, 12)) by reflexivity.
    rewrite Hc' in Hc. injection Hc as <- <- <-.
    assert (lo = 19024) by (apply civil_from_days_inj; rewrite Hlo; reflexivity).
    assert (hi = 19358) by (apply civil_from_days_inj; rewrite Hhi; reflexivity).
    lia. }
  split; [exact H|]. split; [exact Hret|].
  split; [reflexivity|]. split; [reflexivity|]. split; [reflexivity|].
  assert (S24 : nth_error sorted 24 = Some (19024, Some 0)) by (vm_compute; reflexivity).
  assert (S25 : nth_error sorted 25 = Some (19025, Some 0)) by (vm_compute; reflexivity).
  assert (S357 : nth_error sorted 357 = Some (19357, Some 0)) by (vm_compute; reflexivity).
  assert (S358 : nth_error sorted 358 = Some (19358, Some 0)) by (vm_compute; reflexivity).
  split; [exact S24|]. split; [apply (Hout _ _ _ S24); lia|].
  split; [exact S25|]. split; [apply (Hin _ _ _ S25); lia|].
  split; [exact S357|]. split; [apply (Hin _ _ _ S357); lia|].
  split; [exact S358|]. apply (Hout _ _ _ S358); lia.
Defined.

(** The episode of the example grid starts on 2023-02-12: the days flagged
    are those after 2022-02-01 (day 19024) and before 2023-01-01 (day
    19358), 333 of them. *)
Example regime_grid_flagged_days :
  df_recession 20000 (sort_by_date Stated.regime_grid)
    = [mkRec (Some 19024) (Some 19358) 19400 20000] /\
  List.length (filter (Z.eqb 1) (rec_init 20000 (sort_by_date Stated.regime_grid)))
    = Z.to_nat (19358 - 19024 - 1).
Proof. split; vm_compute; reflexivity. Qed.

End RecessionClaims.

(* ================================================================== *)
(** * More on the series operations and the Signal Smoother *)
(* ================================================================== *)

Module SmootherExtras.
Import Polars Smoother PolarsFacts SmootherFacts.
Local Open Scope list_scope.

Lemma all_null_repeat (l : list cell) :
  all_null l = true -> l = repeat None (List.length l).
Proof.
  induction l as [|c tl IH]; simpl; [reflexivity|].
  intros H. apply andb_true_iff in H. destruct H as [Hc Ht].
  destruct c; [discriminate|]. now rewrite <- (IH Ht).
Qed.

(** An empty or all-null column comes back as it is, whatever the filter
    and the parameters: the filter is not run. *)
Theorem apply_savgol_filter_no_data
    (savgol_filter : filter_t) (s : Series) (W P D : Z) :
  all_null (values s) = true ->
  apply_savgol_filter savgol_filter s W P D = Return s.
Proof.
  intros H. unfold apply_savgol_filter, is_empty.
  destruct s as [nm dt v]; simpl in *.
  destruct v as [|c tl]; [reflexivity|].
  rewrite H. unfold null_series, len. simpl values.
  now rewrite <- (all_null_repeat _ H).
Qed.

Lemma apply_savgol_filter_no_data_witness :
  apply_savgol_filter (filter_raising OtherError)
    (mkSeries "X" Int64 [None; None; None]) 15 3 0
  = Return (mkSeries "X" Int64 [None; None; None]).
Proof.
  apply (apply_savgol_filter_no_data (filter_raising OtherError)
           (mkSeries "X" Int64 [None; None; None]) 15 3 0).
  reflexivity.
Defined.

(** ** Values that are there stay where they are *)

Lemma interpolate_from_nth (l : list cell) (x : num) :
  forall prev k i,
    nth_error l i = Some (Some x) ->
    nth_error (interpolate_from prev k l) i = Some (Some x).
Proof.
  induction l as [|c tl IH]; intros prev k i H; [destruct i; discriminate|].
  destruct i; simpl in *.
  - injection H as ->. reflexivity.
  - destruct c; simpl; now apply IH.
Qed.

Lemma fill_backward_values_nth (l : list cell) (x : num) :
  forall i, nth_error l i = Some (Some x) ->
            nth_error (fill_backward_values l) i = Some (Some x).
Proof.
  induction l as [|c tl IH]; intros i H; [destruct i; discriminate|].
  destruct i; simpl in *.
  - injection H as ->. reflexivity.
  - destruct c; simpl; now apply IH.
Qed.

Lemma fill_forward_from_nth (l : list cell) (x : num) :
  forall prev i, nth_error l i = Some (Some x) ->
                 nth_error (fill_forward_from prev l) i = Some (Some x).
Proof.
  induction l as [|c tl IH]; intros prev i H; [destruct i; discriminate|].
  destruct i; simpl in *.
  - injection H as ->. reflexivity.
  - destruct c; simpl; now apply IH.
Qed.

Lemma polars_next_valid_In (l : list cell) (x : num) :
  In (Some x) l -> exists d y, next_valid l = Some (d, y).
Proof.
  induction l as [|c tl IH]; intros H; [contradiction|].
  destruct c as [z|]; simpl; [now eexists; eexists|].
  destruct H as [H|H]; [discriminate|].
  destruct (IH H) as (d & y & ->). now eexists; eexists.
Qed.

Lemma fill_backward_values_head (l : list cell) (x : num) :
  In (Some x) l -> exists y tl, fill_backward_values l = Some y :: tl.
Proof.
  destruct l as [|c tl]; intros H; [contradiction|].
  destruct c as [z|]; simpl; [now eexists; eexists|].
  destruct H as [H|H]; [discriminate|].
  destruct (polars_next_valid_In _ _ H) as (d & y & ->).
  now eexists; eexists.
Qed.

Lemma fill_forward_from_no_null (l : list cell) :
  forall prev, prev <> None -> ~ In None (fill_forward_from prev l).
Proof.
  induction l as [|c tl IH]; intros prev Hp Hin; simpl in Hin; [exact Hin|].
  destruct c as [z|]; simpl in Hin.
  - destruct Hin as [Hin|Hin]; [discriminate|].
    apply (IH (Some z)); [discriminate|exact Hin].
  - destruct Hin as [Hin|Hin]; [congruence|]. now apply (IH prev).
Qed.

(** After line 29 the numeric core sees no null: a column that holds a
    value has none left.  Every value it held is still in its row, as far
    as the conversion to Float64 is exact: always in a column that is not
    Int64, and in an Int64 column for an integer of magnitude at most
    2^53. *)
Theorem s_processed_filled (s : Series) (x : num) :
  In (Some x) (values s) ->
  ~ In None (values (s_processed s)) /\
  forall i y, nth_error (values s) i = Some (Some y) ->
              (dtype s = Int64 ->
               exists z, y = Num.of_Z z /\ - 2 ^ 53 <= z <= 2 ^ 53) ->
              nth_error (values (s_processed s)) i = Some (Some y).
Proof.
  intros H. unfold s_processed; simpl. split.
  - assert (Hi : In (Some x) (interpolate_values (values s)))
      by now apply interpolate_from_keeps.
    destruct (fill_backward_values_head _ _ Hi) as (y & tl & E).
    rewrite E. simpl. intros [Hn|Hn]; [discriminate|].
    revert Hn. apply fill_forward_from_no_null. discriminate.
  - intros i y Hy _.
    apply fill_forward_from_nth, fill_backward_values_nth.
    now apply interpolate_from_nth.
Qed.

Lemma s_processed_filled_witness :
  ~ In None (values (s_processed Stated.int_series)) /\
  nth_error (values (s_processed Stated.int_series)) 1
  = Some (Some (Num.of_Z 3)) /\
  nth_error (values (s_processed Stated.int_series)) 3
  = Some (Some (Num.of_Z (2 ^ 53))).
Proof.
  destruct (s_processed_filled Stated.int_series (Num.of_Z 3))
    as [Hfull Hkept]; [simpl; tauto|].
  split; [exact Hfull|]. split.
  - apply Hkept; [reflexivity|].
    intros _. exists 3. split; [reflexivity|lia].
  - apply Hkept; [reflexivity|].
    intros _. exists (2 ^ 53). split; [reflexivity|lia].
Defined.

(** ** The window given to the filter *)

Lemma num_valid_points_le (a : list num) :
  num_valid_points a <= Z.of_nat (List.length a).
Proof.
  unfold num_valid_points. apply inj_le. apply filter_length_le.
Qed.

Lemma window_shrunk_spec (w v : Z) :
  w mod 2 = 1 -> 0 < v ->
  (window_shrunk w v) mod 2 = 1 /\ window_shrunk w v <= v.
Proof.
  intros Hw Hv. unfold window_shrunk.
  destruct (Z.ltb v w) eqn:E.
  - destruct (Z.eqb (v mod 2) 0) eqn:Ev; simpl.
    + apply Z.eqb_eq in Ev.
      assert (2 <= v).
      { destruct (Z.eq_dec v 1) as [->|]; [discriminate Ev|lia]. }
      rewrite Z.max_r by lia.
      split; [|lia].
      pose proof (Z.div_mod v 2 ltac:(lia)).
      pose proof (Z.div_mod (v - 1) 2 ltac:(lia)).
      pose proof (Z.mod_pos_bound (v - 1) 2 ltac:(lia)). lia.
    + apply Z.eqb_neq in Ev.
      pose proof (Z.mod_pos_bound v 2 ltac:(lia)). lia.
  - apply Z.ltb_ge in E. split; [exact Hw|]. lia.
Qed.

(** When a column holds a usable value and the resolved window exceeds the
    order, the filter is run on the filled column, which is as long as the
    input, with a window that is odd, larger than the order and not larger
    than the number of usable samples; its array comes back under the name
    of the input, and a [ValueError] gives the filled column. *)
Theorem filter_call_invariant
    (savgol_filter : filter_t) (s : Series) (W P D : Z) (x : num) :
  In (Some x) (values s) ->
  is_nan x = false ->
  let a := to_numpy (s_processed s) in
  let w := effective_window_length s W P in
  P < w ->
  w mod 2 = 1 /\
  w <= num_valid_points a /\
  num_valid_points a <= Z.of_nat (len s) /\
  List.length a = len s /\
  apply_savgol_filter savgol_filter s W P D =
  match savgol_filter a w P D with
  | Return filtered_array =>
      Return (cast (of_numpy (name s) filtered_array) (dtype s))
  | Raise e =>
      if isinstance_ValueError e
      then Return (cast (s_processed s) (dtype s))
      else Raise e
  end.
Proof.
  intros Hin Hx a w Hw.
  pose proof (s_processed_keeps s x Hin) as Hsp.
  pose proof (num_valid_points_pos _ _ (to_numpy_In _ _ Hsp) Hx) as Hv.
  fold a in Hv.
  destruct (window_shrunk_spec (window_odd_above W P) (num_valid_points a)
              (window_odd_above_odd W P) Hv) as (Ho & Hle).
  fold a in Ho, Hle.
  split; [exact Ho|]. split; [exact Hle|].
  assert (Hl : List.length a = len s)
    by (unfold a; rewrite to_numpy_length; apply s_processed_len).
  split; [rewrite <- Hl; apply num_valid_points_le|].
  split; [exact Hl|].
  unfold apply_savgol_filter.
  rewrite (is_empty_false_of_In s _ Hin), (all_null_false_of_In _ _ Hin).
  rewrite (all_null_false_of_In _ _ Hsp).
  change (is_float (dtype (s_processed s))) with true. cbv iota.
  fold a.
  destruct (Z.eqb (num_valid_points a) 0) eqn:E;
    [apply Z.eqb_eq in E; lia|].
  change (window_shrunk (window_odd_above W P) (num_valid_points a)) with w.
  destruct (Z.leb w P) eqn:Ew; [apply Z.leb_le in Ew; lia|].
  reflexivity.
Qed.

Lemma filter_call_invariant_witness :
  let s := Stated.ramp_series in
  let a := to_numpy (s_processed s) in
  let w := effective_window_length s 501 3 in
  w = 399 /\
  w mod 2 = 1 /\
  w <= num_valid_points a /\
  num_valid_points a <= Z.of_nat (len s) /\
  List.length a = len s /\
  apply_savgol_filter filter_echo s 501 3 1 =
  match filter_echo a w 3 1 with
  | Return filtered_array =>
      Return (cast (of_numpy (name s) filtered_array) (dtype s))
  | Raise e =>
      if isinstance_ValueError e
      then Return (cast (s_processed s) (dtype s))
      else Raise e
  end.
Proof.
  split; [vm_compute; reflexivity|].
  apply (filter_call_invariant filter_echo Stated.ramp_series 501 3 1
           (Num.of_Z 1)).
  - left. reflexivity.
  - reflexivity.
  - vm_compute. reflexivity.
Defined.

End SmootherExtras.

(* ================================================================== *)
(** * More on the Per-Symbol Feature Generator *)
(* ================================================================== *)

Module SymbolFeaturesFacts.
Import Polars Smoother Features SymbolFeatures.
Import PolarsFacts SmootherFacts SmootherExtras EvaluatorFacts FeaturesFacts.
Local Open Scope list_scope.

(** ** What the smoother returns *)

Section WithFilter.
Variable savgol_filter : filter_t.
Hypothesis filter_length :
  forall a w p d b, savgol_filter a w p d = Return b ->
                    List.length b = List.length a.

Lemma smoother_returns_shape (s : Series) (W P D : Z) (r : Series) :
  apply_savgol_filter savgol_filter s W P D = Return r ->
  len r = len s /\ name r = name s.
Proof.
  unfold apply_savgol_filter.
  destruct (is_empty s);
    [intros E; injection E as <-; split; [apply cast_len|reflexivity]|].
  destruct (all_null (values s));
    [intros E; injection E as <-; split; [apply null_series_len|reflexivity]|].
  destruct (all_null (values (s_processed s)));
    [intros E; injection E as <-; split; [apply null_series_len|reflexivity]|].
  rewrite (s_processed_is_float s).
  destruct (Z.eqb _ 0);
    [intros E; injection E as <-; split; [apply null_series_len|reflexivity]|].
  destruct (Z.leb _ P);
    [intros E; injection E as <-; split;
     [rewrite cast_len; apply s_processed_len|reflexivity]|].
  destruct (savgol_filter _ _ P D) as [b|e] eqn:E.
  - intros E'; injection E' as <-. split; [|reflexivity].
    rewrite cast_len, of_numpy_len, (filter_length _ _ _ _ _ E), to_numpy_length.
    apply s_processed_len.
  - destruct (isinstance_ValueError e); [|discriminate].
    intros E'; injection E' as <-.
    split; [rewrite cast_len; apply s_processed_len|reflexivity].
Qed.

Hypothesis filter_value_errors :
  forall a w p d e, savgol_filter a w p d = Raise e ->
                    isinstance_ValueError e = true.

Lemma smoother_returns (s : Series) (W P D : Z) :
  exists r, apply_savgol_filter savgol_filter s W P D = Return r.
Proof.
  unfold apply_savgol_filter.
  destruct (is_empty s); [now eexists|].
  destruct (all_null (values s)); [now eexists|].
  destruct (all_null (values (s_processed s))); [now eexists|].
  rewrite (s_processed_is_float s).
  destruct (Z.eqb _ 0); [now eexists|].
  destruct (Z.leb _ P); [now eexists|].
  destruct (savgol_filter _ _ P D) as [b|e] eqn:E; [now eexists|].
  rewrite (filter_value_errors _ _ _ _ _ E). now eexists.
Qed.

Variable original_series : Series.
Variables symbol_original description_r label_y_r : string.
Variables series_start_date_str series_end_date_str : string.

Lemma savgol_step_shape (sl : list Series) (ml : list FeatureMeta)
    (config : SavgolConfig) :
  exists f m,
    savgol_step savgol_filter original_series symbol_original description_r
      label_y_r series_start_date_str series_end_date_str
      (Return (sl, ml)) config
    = Return (sl ++ [f], ml ++ [m]) /\
    name f = (symbol_original ++ suffix config)%string /\
    len f = len original_series /\
    symbol m = (symbol_original ++ suffix config)%string.
Proof.
  unfold savgol_step.
  destruct (smoother_returns
              (alias original_series (symbol_original ++ suffix config))
              (window config) (poly config) (deriv config)) as [r Hr].
  rewrite Hr.
  destruct (smoother_returns_shape _ _ _ _ _ Hr) as [Hl Hn].
  destruct (all_null (values r) && negb (all_null (values original_series))).
  - eexists; eexists. split; [reflexivity|].
    split; [reflexivity|]. split; [apply null_series_len|reflexivity].
  - eexists; eexists. split; [reflexivity|].
    split; [exact Hn|]. split; [exact Hl|reflexivity].
Qed.

(** The smoothed battery always has its three columns, named after the
    symbol with the suffixes [_Smooth], [_Smooth_short] and [_SmoothDer],
    each as long as the base column, and one metadata record for each,
    provided the filter returns arrays of the length of its input and
    fails only with a [ValueError]. *)
Theorem savgol_features_schema (n_days_year : Z) :
  exists series meta,
    _calculate_savgol_features_series savgol_filter original_series
      symbol_original description_r label_y_r
      series_start_date_str series_end_date_str n_days_year
    = Return (series, meta) /\
    map name series
    = map (String.append symbol_original)
          ["_Smooth"; "_Smooth_short"; "_SmoothDer"]%string /\
    map symbol meta = map name series /\
    Forall (fun f => len f = len original_series) series.
Proof.
  unfold _calculate_savgol_features_series, savgol_configs. cbn [fold_left].
  destruct (savgol_step_shape [] []
              (mkSavgol "_Smooth" n_days_year 3 0 "Savitsky-Golay Smoothed"))
    as (f1 & m1 & E1 & N1 & L1 & S1).
  rewrite E1.
  destruct (savgol_step_shape ([] ++ [f1]) ([] ++ [m1])
              (mkSavgol "_Smooth_short" 15 3 0 "Savitsky-Golay Smoothed"))
    as (f2 & m2 & E2 & N2 & L2 & S2).
  rewrite E2.
  destruct (savgol_step_shape (([] ++ [f1]) ++ [f2]) (([] ++ [m1]) ++ [m2])
              (mkSavgol "_SmoothDer" 501 3 1
                        "Derivative of Savitsky-Golay Smoothed"))
    as (f3 & m3 & E3 & N3 & L3 & S3).
  rewrite E3.
  exists [f1; f2; f3], [m1; m2; m3].
  split; [reflexivity|]. simpl in N1, N2, N3, S1, S2, S3.
  split; [simpl; now rewrite N1, N2, N3|].
  split; [simpl; now rewrite N1, N2, N3, S1, S2, S3|].
  repeat constructor; assumption.
Qed.

End WithFilter.

(** ** The log transform *)

Lemma interpolate_from_leading (l : list cell) :
  forall k i,
    (i < List.length l)%nat ->
    (forall j, (j <= i)%nat -> nth_error l j = Some None) ->
    nth_error (interpolate_from None k l) i = Some None.
Proof.
  induction l as [|c tl IH]; intros k i Hi H; [simpl in Hi; lia|].
  pose proof (H O (Nat.le_0_l i)) as H0. simpl in H0. injection H0 as ->.
  destruct i; simpl; [reflexivity|].
  apply IH; [simpl in Hi; lia|].
  intros j Hj. apply (H (S j)). lia.
Qed.

(** The log feature is named after the symbol with [_Log] and is as long as
    the base column; a row with a positive value holds its logarithm, and
    the rows before the first positive value stay null (there is no
    boundary fill). *)
Theorem log_transform_rows (ln : num -> num) (original_series : Series)
    (symbol_name_prefix description_r label_y_r : string)
    (series_start_date_str series_end_date_str : string) :
  let f := fst (_calculate_log_transform_series ln original_series
                  symbol_name_prefix description_r label_y_r
                  series_start_date_str series_end_date_str) in
  name f = (symbol_name_prefix ++ "_Log")%string /\
  len f = len original_series /\
  (forall i x, nth_error (values original_series) i = Some (Some x) ->
               is_pos x = true ->
               nth_error (values f) i = Some (Some (ln x))) /\
  (forall i, (i < len original_series)%nat ->
             (forall j x, (j <= i)%nat ->
                          nth_error (values original_series) j = Some (Some x) ->
                          is_pos x = false) ->
             nth_error (values f) i = Some None).
Proof.
  unfold _calculate_log_transform_series, alias, interpolate.
  cbn [fst name values].
  assert (Hv : values (if is_float (dtype original_series) then original_series
                       else cast original_series Float64)
               = values original_series).
  { destruct (is_float (dtype original_series)); [reflexivity|].
    unfold cast; simpl. rewrite <- (map_id (values original_series)) at 2.
    apply map_ext. intros [x|]; reflexivity. }
  rewrite Hv. unfold interpolate_values.
  split; [reflexivity|].
  split; [unfold len; cbn [values];
          now rewrite interpolate_from_length, length_map|].
  split.
  - intros i x Hx Hp. apply interpolate_from_nth.
    rewrite nth_error_map, Hx. simpl. now rewrite Hp.
  - intros i Hi H. apply interpolate_from_leading.
    + now rewrite length_map.
    + intros j Hj. rewrite nth_error_map.
      destruct (nth_error (values original_series) j) as [c|] eqn:E.
      * destruct c as [x|]; simpl; [|reflexivity].
        now rewrite (H j x Hj E).
      * apply nth_error_None in E. unfold len in Hi. lia.
Qed.

Lemma log_transform_rows_witness :
  let f := fst (_calculate_log_transform_series (fun x => x)
                  Stated.short_series "X" "x" "y" "" "") in
  name f = "X_Log"%string /\
  len f = len Stated.short_series /\
  (forall i x, nth_error (values Stated.short_series) i = Some (Some x) ->
               is_pos x = true ->
               nth_error (values f) i = Some (Some x)) /\
  (forall i, (i < len Stated.short_series)%nat ->
             (forall j x, (j <= i)%nat ->
                          nth_error (values Stated.short_series) j
                          = Some (Some x) ->
                          is_pos x = false) ->
             nth_error (values f) i = Some None).
Proof.
  exact (log_transform_rows (fun x => x) Stated.short_series
           "X" "x" "y" "" "").
Defined.

(** ** The shape of the other batteries *)

Lemma zip_with_length {A B C} (f : A -> B -> C) (l : list A) (m : list B) :
  List.length (zip_with f l m) = Nat.min (List.length l) (List.length m).
Proof.
  revert m. induction l as [|a l IH]; intros [|b m]; simpl; auto.
Qed.

Lemma yoy_values_length (v : list cell) (lag : Z) :
  List.length (yoy_values v lag) = List.length v.
Proof.
  unfold yoy_values, series_mul_scalar, series_sub_scalar, series_div.
  rewrite !length_map, zip_with_length, shift_length. lia.
Qed.

Lemma rolling_mean_values_length (w : nat) (l : list cell) :
  List.length (rolling_mean_values w l) = List.length l.
Proof. unfold rolling_mean_values. now rewrite length_map, length_seq. Qed.

Lemma mva_step_shape (original_series : Series)
    (symbol_name_prefix description_r label_y_r : string)
    (series_start_date_str series_end_date_str : string)
    (sl : list Series) (ml : list FeatureMeta) (suffix : string) (window : Z) :
  1 <= window ->
  exists f m,
    mva_step original_series symbol_name_prefix description_r label_y_r
      series_start_date_str series_end_date_str (Return (sl, ml)) (suffix, window)
    = Return (sl ++ [f], ml ++ [m]) /\
    name f = (symbol_name_prefix ++ suffix)%string /\
    len f = len original_series /\
    symbol m = (symbol_name_prefix ++ suffix)%string /\
    (window <= Z.of_nat (count_non_null (values original_series)) ->
     values f = interpolate_values
                  (rolling_mean_values (Z.to_nat window) (values original_series))
     /\ source m = "Calc"%string).
Proof.
  intros Hw. unfold mva_step.
  destruct (Z.leb window _) eqn:E.
  - unfold rolling_mean.
    assert (Hlt : Z.ltb window 1 = false) by (apply Z.ltb_ge; lia).
    rewrite Hlt.
    eexists; eexists. split; [reflexivity|].
    split; [reflexivity|].
    split; [unfold len, alias, interpolate, interpolate_values; cbn [values];
            now rewrite interpolate_from_length, rolling_mean_values_length|].
    split; [reflexivity|]. intros _. split; reflexivity.
  - eexists; eexists. split; [reflexivity|].
    split; [reflexivity|]. split; [apply null_series_len|].
    split; [reflexivity|]. apply Z.leb_gt in E. intros Hc. lia.
Qed.

Lemma mva_features_shape (original_series : Series)
    (symbol_name_prefix description_r label_y_r : string)
    (series_start_date_str series_end_date_str : string) (n_days_year : Z) :
  1 <= n_days_year ->
  exists series meta,
    _calculate_mva_features_series original_series symbol_name_prefix
      description_r label_y_r series_start_date_str series_end_date_str
      n_days_year = Return (series, meta) /\
    map name series
    = map (String.append symbol_name_prefix)
          ["_mva365"; "_mva200"; "_mva050"]%string /\
    map symbol meta = map name series /\
    Forall (fun f => len f = len original_series) series.
Proof.
  intros Hn.
  unfold _calculate_mva_features_series, mva_configs. cbn [fold_left].
  destruct (mva_step_shape original_series symbol_name_prefix description_r
              label_y_r series_start_date_str series_end_date_str
              [] [] "_mva365" n_days_year Hn)
    as (f1 & m1 & E1 & N1 & L1 & S1 & _).
  rewrite E1.
  destruct (mva_step_shape original_series symbol_name_prefix description_r
              label_y_r series_start_date_str series_end_date_str
              ([] ++ [f1]) ([] ++ [m1]) "_mva200" 200 ltac:(lia))
    as (f2 & m2 & E2 & N2 & L2 & S2 & _).
  rewrite E2.
  destruct (mva_step_shape original_series symbol_name_prefix description_r
              label_y_r series_start_date_str series_end_date_str
              (([] ++ [f1]) ++ [f2]) (([] ++ [m1]) ++ [m2]) "_mva050" 50
              ltac:(lia))
    as (f3 & m3 & E3 & N3 & L3 & S3 & _).
  rewrite E3.
  exists [f1; f2; f3], [m1; m2; m3].
  split; [reflexivity|].
  split; [simpl; now rewrite N1, N2, N3|].
  split; [simpl; now rewrite N1, N2, N3, S1, S2, S3|].
  repeat constructor; assumption.
Qed.

Lemma log_transform_shape (ln : num -> num) (original_series : Series)
    (symbol_name_prefix description_r label_y_r : string)
    (series_start_date_str series_end_date_str : string) :
  let r := _calculate_log_transform_series ln original_series
             symbol_name_prefix description_r label_y_r
             series_start_date_str series_end_date_str in
  name (fst r) = (symbol_name_prefix ++ "_Log")%string /\
  len (fst r) = len original_series /\
  symbol (snd r) = name (fst r).
Proof.
  unfold _calculate_log_transform_series, alias, interpolate.
  cbn [fst snd name values symbol].
  split; [reflexivity|]. split; [|reflexivity].
  unfold len, interpolate_values; cbn [values].
  rewrite interpolate_from_length, length_map.
  destruct (is_float (dtype original_series)); [reflexivity|].
  unfold cast; cbn [values]. now rewrite length_map.
Qed.

Section Battery.
Variable savgol_filter : filter_t.
Hypothesis filter_length :
  forall a w p d b, savgol_filter a w p d = Return b ->
                    List.length b = List.length a.
Hypothesis filter_value_errors :
  forall a w p d e, savgol_filter a w p d = Raise e ->
                    isinstance_ValueError e = true.

(** The battery of one symbol yields ten columns and ten metadata records,
    in a fixed order and named after the symbol, each column as long as the
    base column, whatever the data (too short, all null, ...), for a year of
    at least one row and a filter that keeps the length of its input and
    fails only with a [ValueError]. *)
Theorem process_symbol_schema (ln : num -> num)
    (symbol_original : string) (original_series_data : Series)
    (description_r label_y_r : string)
    (series_start_date_str series_end_date_str : string) (n_days_year : Z) :
  1 <= n_days_year ->
  exists series meta,
    _process_symbol_features savgol_filter ln symbol_original
      original_series_data description_r label_y_r
      series_start_date_str series_end_date_str n_days_year
    = Return (symbol_original, series, meta) /\
    map name series
    = map (String.append symbol_original)
          ["_YoY"; "_YoY4"; "_YoY5"; "_Smooth"; "_Smooth_short"; "_SmoothDer";
           "_Log"; "_mva365"; "_mva200"; "_mva050"]%string /\
    map symbol meta = map name series /\
    Forall (fun f => len f = len original_series_data) series.
Proof.
  intros Hn. unfold _process_symbol_features.
  destruct (savgol_features_schema savgol_filter filter_length
              filter_value_errors original_series_data symbol_original
              description_r label_y_r series_start_date_str
              series_end_date_str n_days_year)
    as (ss & sm & Es & Ns & Ms & Ls).
  destruct (mva_features_shape original_series_data symbol_original
              description_r label_y_r series_start_date_str
              series_end_date_str n_days_year Hn)
    as (ms & mm & Em & Nm & Mm & Lm).
  destruct (log_transform_shape ln original_series_data symbol_original
              description_r label_y_r series_start_date_str
              series_end_date_str) as (Nl & Ll & Hlm).
  unfold _calculate_yoy_features_series.
  rewrite Es.
  destruct (_calculate_log_transform_series ln original_series_data
              symbol_original description_r label_y_r series_start_date_str
              series_end_date_str) as [lf lm] eqn:El.
  rewrite Em. cbn [fst snd] in Nl, Ll, Hlm.
  eexists; eexists. split; [reflexivity|].
  split.
  { rewrite !map_app. cbn [map]. rewrite Ns, Nm, Nl. reflexivity. }
  split.
  { rewrite !map_app. cbn [map]. rewrite Ms, Mm, Hlm. reflexivity. }
  repeat (apply Forall_app; split); try assumption.
  - repeat constructor; unfold len, yoy_series; cbn [values];
      apply yoy_values_length.
  - repeat constructor. exact Ll.
Qed.

End Battery.

Lemma process_symbol_schema_witness :
  exists series meta,
    _process_symbol_features filter_echo (fun x => x) "X"
      Stated.short_series "x" "y" "" "" 365
    = Return ("X"%string, series, meta) /\
    map name series
    = map (String.append "X")
          ["_YoY"; "_YoY4"; "_YoY5"; "_Smooth"; "_Smooth_short"; "_SmoothDer";
           "_Log"; "_mva365"; "_mva200"; "_mva050"]%string /\
    map symbol meta = map name series /\
    Forall (fun f => len f = len Stated.short_series) series.
Proof.
  apply (process_symbol_schema filter_echo).
  - intros a w p d b H. injection H as <-. reflexivity.
  - intros a w p d e H. discriminate H.
  - lia.
Defined.

(** ** The moving average between observations *)

Lemma rolling_mean_values_observed (w : nat) (l : list cell) (i : nat) (x : num) :
  (1 <= w)%nat ->
  nth_error l i = Some (Some x) ->
  exists c, nth_error (rolling_mean_values w l) i = Some (Some c).
Proof.
  intros Hw Hx.
  assert (Hi : (i < List.length l)%nat)
    by (apply nth_error_Some; congruence).
  unfold rolling_mean_values.
  rewrite nth_error_map, nth_error_seq.
  apply Nat.ltb_lt in Hi. rewrite Hi. cbn [option_map Nat.add].
  assert (Hin : In (Some x) (window_at w i l)).
  { unfold window_at.
    apply (nth_error_In _ (i - (S i - w))).
    rewrite nth_error_skipn, nth_error_firstn.
    replace (S i - w + (i - (S i - w)))%nat with i by lia.
    rewrite (proj2 (Nat.ltb_lt i (S i)) (Nat.lt_succ_diag_r i)).
    exact Hx. }
  unfold window_mean.
  assert (Hc : (1 <= count_non_null (window_at w i l))%nat).
  { unfold count_non_null.
    assert (H : In (Some x)
                   (filter (fun c => negb (cell_is_null c)) (window_at w i l)))
      by (apply filter_In; split; [exact Hin|reflexivity]).
    destruct (filter _ (window_at w i l)); [contradiction|simpl; lia]. }
  apply Nat.leb_le in Hc. rewrite Hc. now eexists.
Qed.

Lemma interpolate_from_between (l : list cell) :
  forall prev k j,
    (prev <> None \/
     exists i a, (i <= j)%nat /\ nth_error l i = Some (Some a)) ->
    (exists i b, (j <= i)%nat /\ nth_error l i = Some (Some b)) ->
    exists c, nth_error (interpolate_from prev k l) j = Some (Some c).
Proof.
  induction l as [|c tl IH]; intros prev k j Hb Ha.
  - destruct Ha as (i & b & _ & H). destruct i; discriminate.
  - destruct j as [|j].
    + destruct c as [v|]; simpl; [now eexists|].
      assert (Hp : prev <> None).
      { destruct Hb as [Hb|(i & a & Hi & H)]; [exact Hb|].
        assert (i = O) by lia. subst i. discriminate. }
      destruct Ha as (i & b & _ & H).
      destruct i as [|i]; [discriminate|]. simpl in H.
      destruct (polars_next_valid_In _ _ (nth_error_In _ _ H)) as (d & y & E).
      rewrite E. destruct prev; [now eexists|congruence].
    + assert (Ha' : exists i b, (j <= i)%nat /\ nth_error tl i = Some (Some b)).
      { destruct Ha as (i & b & Hi & H).
        destruct i as [|i]; [lia|]. exists i, b. split; [lia|exact H]. }
      destruct c as [v|]; simpl.
      * apply IH; [left; discriminate|exact Ha'].
      * apply IH; [|exact Ha'].
        destruct Hb as [Hb|(i & a & Hi & H)]; [now left|].
        destruct i as [|i]; [discriminate|].
        right. exists i, a. split; [lia|exact H].
Qed.

(** A moving average that is not skipped has source "Calc" and, thanks to
    the minimum of one period and the interpolation, holds a value on every
    row from the first to the last observation of the base column. *)
Theorem mva_between_observations (original_series : Series)
    (symbol_name_prefix description_r label_y_r : string)
    (series_start_date_str series_end_date_str : string) (n_days_year : Z) :
  1 <= n_days_year ->
  exists series meta,
    _calculate_mva_features_series original_series symbol_name_prefix
      description_r label_y_r series_start_date_str series_end_date_str
      n_days_year = Return (series, meta) /\
    forall k suffix window,
      nth_error (mva_configs n_days_year) k = Some (suffix, window) ->
      window <= Z.of_nat (count_non_null (values original_series)) ->
      exists f m,
        nth_error series k = Some f /\ nth_error meta k = Some m /\
        source m = "Calc"%string /\
        forall i0 i1 j a b,
          nth_error (values original_series) i0 = Some (Some a) ->
          nth_error (values original_series) i1 = Some (Some b) ->
          (i0 <= j <= i1)%nat ->
          exists c, nth_error (values f) j = Some (Some c).
Proof.
  intros Hn.
  unfold _calculate_mva_features_series, mva_configs. cbn [fold_left].
  destruct (mva_step_shape original_series symbol_name_prefix description_r
              label_y_r series_start_date_str series_end_date_str
              [] [] "_mva365" n_days_year Hn)
    as (f1 & m1 & E1 & _ & _ & _ & K1).
  rewrite E1.
  destruct (mva_step_shape original_series symbol_name_prefix description_r
              label_y_r series_start_date_str series_end_date_str
              ([] ++ [f1]) ([] ++ [m1]) "_mva200" 200 ltac:(lia))
    as (f2 & m2 & E2 & _ & _ & _ & K2).
  rewrite E2.
  destruct (mva_step_shape original_series symbol_name_prefix description_r
              label_y_r series_start_date_str series_end_date_str
              (([] ++ [f1]) ++ [f2]) (([] ++ [m1]) ++ [m2]) "_mva050" 50
              ltac:(lia))
    as (f3 & m3 & E3 & _ & _ & _ & K3).
  rewrite E3.
  exists [f1; f2; f3], [m1; m2; m3]. split; [reflexivity|].
  assert (Hrow : forall (f : Series) (w : Z),
             1 <= w ->
             values f = interpolate_values
                          (rolling_mean_values (Z.to_nat w)
                             (values original_series)) ->
             forall i0 i1 j a b,
               nth_error (values original_series) i0 = Some (Some a) ->
               nth_error (values original_series) i1 = Some (Some b) ->
               (i0 <= j <= i1)%nat ->
               exists c, nth_error (values f) j = Some (Some c)).
  { intros f w Hw Hf i0 i1 j a b H0 H1 Hj. rewrite Hf.
    destruct (rolling_mean_values_observed (Z.to_nat w) _ _ _ ltac:(lia) H0)
      as [c0 Hc0].
    destruct (rolling_mean_values_observed (Z.to_nat w) _ _ _ ltac:(lia) H1)
      as [c1 Hc1].
    apply interpolate_from_between.
    - right. exists i0, c0. split; [lia|exact Hc0].
    - exists i1, c1. split; [lia|exact Hc1]. }
  intros k suffix window Hk Hc.
  destruct k as [|[|[|k]]]; simpl in Hk.
  - injection Hk as <- <-. destruct (K1 Hc) as [Hv Hs].
    exists f1, m1. repeat split; try assumption.
    exact (Hrow f1 n_days_year Hn Hv).
  - injection Hk as <- <-. destruct (K2 Hc) as [Hv Hs].
    exists f2, m2. repeat split; try assumption.
    exact (Hrow f2 200 ltac:(lia) Hv).
  - injection Hk as <- <-. destruct (K3 Hc) as [Hv Hs].
    exists f3, m3. repeat split; try assumption.
    exact (Hrow f3 50 ltac:(lia) Hv).
  - destruct k; discriminate.
Qed.

Lemma mva_between_observations_witness :
  exists series meta,
    _calculate_mva_features_series Stated.short_series "X" "x" "y" "" "" 2
    = Return (series, meta) /\
    forall k suffix window,
      nth_error (mva_configs 2) k = Some (suffix, window) ->
      window <= Z.of_nat (count_non_null (values Stated.short_series)) ->
      exists f m,
        nth_error series k = Some f /\ nth_error meta k = Some m /\
        source m = "Calc"%string /\
        forall i0 i1 j a b,
          nth_error (values Stated.short_series) i0 = Some (Some a) ->
          nth_error (values Stated.short_series) i1 = Some (Some b) ->
          (i0 <= j <= i1)%nat ->
          exists c, nth_error (values f) j = Some (Some c).
Proof.
  apply (mva_between_observations Stated.short_series "X" "x" "y" "" "" 2).
  lia.
Defined.

Lemma savgol_features_schema_witness :
  exists series meta,
    _calculate_savgol_features_series (filter_raising LinAlgError)
      Stated.short_series "X" "x" "y" "" "" 365
    = Return (series, meta) /\
    map name series
    = map (String.append "X") ["_Smooth"; "_Smooth_short"; "_SmoothDer"]%string /\
    map symbol meta = map name series /\
    Forall (fun f => len f = len Stated.short_series) series.
Proof.
  apply (savgol_features_schema (filter_raising LinAlgError)).
  - intros a w p d b H. discriminate H.
  - intros a w p d e H. injection H as <-. reflexivity.
Defined.

End SymbolFeaturesFacts.

(* ================================================================== *)
(** * More on the Derived Series Evaluator *)
(* ================================================================== *)

Module EvaluatorExtras.
Import Polars Evaluator Shapes EvaluatorFacts SymbolFeaturesFacts.
Local Open Scope list_scope.

(** ** Columns of a frame *)

Lemma get_column_of_In (c : string) (cols : list (string * list cell)) :
  In c (map fst cols) -> exists v, get_column c cols = Some v.
Proof.
  induction cols as [|[n w] tl IH]; simpl; [contradiction|].
  intros H. destruct (String.eqb c n) eqn:E; [now eexists|].
  apply String.eqb_neq in E.
  destruct H as [H|H]; [congruence|now apply IH].
Qed.

Lemma get_column_In (c : string) (cols : list (string * list cell))
    (v : list cell) :
  get_column c cols = Some v -> In (c, v) cols.
Proof.
  induction cols as [|[n w] tl IH]; simpl; [discriminate|].
  destruct (String.eqb c n) eqn:E.
  - apply String.eqb_eq in E. subst n. intros H. injection H as ->. now left.
  - intros H. right. now apply IH.
Qed.

Lemma get_set_column_same (nm : string) (v : list cell)
    (cols : list (string * list cell)) :
  get_column nm (set_column nm v cols) = Some v.
Proof.
  induction cols as [|[n w] tl IH]; simpl.
  - now rewrite String.eqb_refl.
  - destruct (String.eqb nm n) eqn:E; simpl; rewrite E; [reflexivity|exact IH].
Qed.

Lemma get_set_column_other (c nm : string) (v : list cell)
    (cols : list (string * list cell)) :
  c <> nm -> get_column c (set_column nm v cols) = get_column c cols.
Proof.
  intros Hc. apply String.eqb_neq in Hc.
  induction cols as [|[n w] tl IH]; simpl.
  - now rewrite Hc.
  - destruct (String.eqb nm n) eqn:E; simpl.
    + apply String.eqb_eq in E. subst n. now rewrite Hc.
    + now rewrite IH.
Qed.

Lemma set_column_names (nm : string) (v : list cell)
    (cols : list (string * list cell)) :
  map fst (set_column nm v cols)
  = map fst cols ++ (if existsb (String.eqb nm) (map fst cols) then [] else [nm]).
Proof.
  induction cols as [|[n w] tl IH]; simpl; [reflexivity|].
  destruct (String.eqb nm n) eqn:E; simpl.
  - now rewrite app_nil_r.
  - now rewrite IH.
Qed.

Lemma set_column_Forall (P : string * list cell -> Prop) (nm : string)
    (v : list cell) (cols : list (string * list cell)) :
  Forall P cols -> P (nm, v) -> Forall P (set_column nm v cols).
Proof.
  intros H Hp. induction H as [|[n w] tl Hx Ht IH]; simpl.
  - now constructor.
  - destruct (String.eqb nm n) eqn:E.
    + apply String.eqb_eq in E. subst n. now constructor.
    + now constructor.
Qed.

(** ** Evaluation *)

Lemma eval_defined (df : DataFrame) (e : Expr) :
  (forall c, In c (expr_cols e) -> In c (map fst (data df))) ->
  exists series, eval df e = Some series.
Proof.
  induction e as [c|x|a IHa b IHb|a IHa b IHb|a IHa b IHb|a IHa b IHb|a IHa];
    intros H; simpl in *.
  - apply get_column_of_In. apply H. now left.
  - now eexists.
  - destruct IHa as [la ->]; [intros; apply H, in_or_app; now left|].
    destruct IHb as [lb ->]; [intros; apply H, in_or_app; now right|].
    now eexists.
  - destruct IHa as [la ->]; [intros; apply H, in_or_app; now left|].
    destruct IHb as [lb ->]; [intros; apply H, in_or_app; now right|].
    now eexists.
  - destruct IHa as [la ->]; [intros; apply H, in_or_app; now left|].
    destruct IHb as [lb ->]; [intros; apply H, in_or_app; now right|].
    now eexists.
  - destruct IHa as [la ->]; [intros; apply H, in_or_app; now left|].
    destruct IHb as [lb ->]; [intros; apply H, in_or_app; now right|].
    now eexists.
  - destruct (IHa H) as [la ->]. now eexists.
Qed.

Lemma bin_length (f : num -> num -> num) (a b : option (list cell))
    (n : nat) (r : list cell) :
  (forall l, a = Some l -> List.length l = n) ->
  (forall l, b = Some l -> List.length l = n) ->
  bin f a b = Some r -> List.length r = n.
Proof.
  intros Ha Hb. unfold bin.
  destruct a as [la|]; [|discriminate]. destruct b as [lb|]; [|discriminate].
  intros H. injection H as <-.
  rewrite zip_with_length, (Ha _ eq_refl), (Hb _ eq_refl). lia.
Qed.

Lemma eval_length (df : DataFrame) (e : Expr) :
  rectangular df ->
  forall series, eval df e = Some series -> List.length series = height df.
Proof.
  intros Hr.
  induction e as [c|x|a IHa b IHb|a IHa b IHb|a IHa b IHb|a IHa b IHb|a IHa];
    intros series H; simpl in H.
  - apply get_column_In in H.
    unfold rectangular in Hr. rewrite Forall_forall in Hr.
    exact (Hr _ H).
  - injection H as <-. apply repeat_length.
  - exact (bin_length _ _ _ _ _ IHa IHb H).
  - exact (bin_length _ _ _ _ _ IHa IHb H).
  - exact (bin_length _ _ _ _ _ IHa IHb H).
  - exact (bin_length _ _ _ _ _ IHa IHb H).
  - destruct (eval df a) as [la|]; [|discriminate].
    injection H as <-. rewrite length_map. now apply IHa.
Qed.

(** ** One definition whose components are there *)

Lemma in_columns_of_data (c : string) (df : DataFrame) :
  In c (map fst (data df)) -> in_columns c df = true.
Proof.
  intros H. unfold in_columns, columns. apply existsb_exists.
  exists c. split; [now right|apply String.eqb_refl].
Qed.

Lemma agg_step_evaluated (st : LoopState) (new_col_name : string)
    (agg_details : AggDetails) :
  (forall c, In c (components agg_details) ->
             In c (map fst (data (df_data_pl st)))) ->
  (forall c, In c (expr_cols (expr_lambda agg_details)) ->
             In c (components agg_details)) ->
  exists series,
    eval (df_data_pl st) (expr_lambda agg_details) = Some series /\
    agg_step st (new_col_name, agg_details)
    = mkState (with_columns (df_data_pl st) new_col_name series)
              (new_symbols_metadata st ++
                 [mkEntry new_col_name "Calc"
                          (description agg_details) (unit agg_details)])
              (successful_aggregates st + 1) (skipped_aggregates st).
Proof.
  intros Hc He.
  destruct (eval_defined (df_data_pl st) (expr_lambda agg_details)) as [series Hs].
  { intros c H. apply Hc, He, H. }
  exists series. split; [exact Hs|].
  assert (Hm : missing_components agg_details (df_data_pl st) = []).
  { unfold missing_components.
    destruct (filter _ (components agg_details)) as [|c tl] eqn:E; [reflexivity|].
    assert (H : In c (filter (fun comp => negb (in_columns comp (df_data_pl st)))
                             (components agg_details)))
      by (rewrite E; now left).
    apply filter_In in H. destruct H as [H1 H2].
    rewrite (in_columns_of_data _ _ (Hc _ H1)) in H2. discriminate. }
  unfold agg_step; rewrite Hm, Hs; reflexivity.
Qed.

(** A definition whose components are columns of the grid, and whose rule
    reads only its components, is evaluated: its column is set in the grid
    under its name, one record with source "Calc" is appended, and it is
    counted as created. *)
Theorem agg_step_creates (st : LoopState) (new_col_name : string)
    (agg_details : AggDetails) :
  (forall c, In c (components agg_details) ->
             In c (map fst (data (df_data_pl st)))) ->
  (forall c, In c (expr_cols (expr_lambda agg_details)) ->
             In c (components agg_details)) ->
  exists series,
    eval (df_data_pl st) (expr_lambda agg_details) = Some series /\
    agg_step st (new_col_name, agg_details)
    = mkState (with_columns (df_data_pl st) new_col_name series)
              (new_symbols_metadata st ++
                 [mkEntry new_col_name "Calc"
                          (description agg_details) (unit agg_details)])
              (successful_aggregates st + 1) (skipped_aggregates st) /\
    get_column new_col_name
      (data (df_data_pl (agg_step st (new_col_name, agg_details))))
    = Some series.
Proof.
  intros Hc He.
  destruct (agg_step_evaluated st new_col_name agg_details Hc He)
    as (series & Hs & Hstep).
  exists series. split; [exact Hs|]. split; [exact Hstep|].
  rewrite Hstep. cbn [df_data_pl with_columns data].
  apply get_set_column_same.
Qed.

Lemma agg_step_creates_witness :
  let st := init_state Stated.grid_with_zeros in
  let d := mkAgg ["^GSPC_high"; "^GSPC_low"; "^GSPC_open"]%string
             (Div (Sub (Col "^GSPC_high") (Col "^GSPC_low"))
                  (ReplaceZeroNull (Col "^GSPC_open")))
             "S&P 500 (GSPC) Daily Swing: (High - Low) / Open" "Ratio" in
  exists series,
    eval (df_data_pl st) (expr_lambda d) = Some series /\
    agg_step st ("GSPC_DailySwing"%string, d)
    = mkState (with_columns (df_data_pl st) "GSPC_DailySwing" series)
              (new_symbols_metadata st ++
                 [mkEntry "GSPC_DailySwing" "Calc" (description d) (unit d)])
              (successful_aggregates st + 1) (skipped_aggregates st) /\
    get_column "GSPC_DailySwing"
      (data (df_data_pl (agg_step st ("GSPC_DailySwing"%string, d))))
    = Some series.
Proof.
  intros st d.
  apply (agg_step_creates st "GSPC_DailySwing" d).
  - simpl. intuition (subst; auto 10).
  - simpl. intuition (subst; auto 10).
Defined.

(** ** The whole loop *)

Lemma agg_step_cases (st : LoopState) (item : string * AggDetails) :
  agg_step st item
  = mkState (df_data_pl st) (new_symbols_metadata st)
            (successful_aggregates st) (skipped_aggregates st + 1)
  \/
  exists series,
    eval (df_data_pl st) (expr_lambda (snd item)) = Some series /\
    agg_step st item
    = mkState (with_columns (df_data_pl st) (fst item) series)
              (new_symbols_metadata st ++
                 [mkEntry (fst item) "Calc"
                          (description (snd item)) (unit (snd item))])
              (successful_aggregates st + 1) (skipped_aggregates st).
Proof.
  destruct item as [nm d]. unfold agg_step. cbn [fst snd].
  destruct (missing_components d (df_data_pl st)); [|now left].
  destruct (eval (df_data_pl st) (expr_lambda d)) as [series|];
    [right; now exists series|now left].
Qed.

(** The loop keeps the grid a grid: the date column and the height are
    untouched, every column keeps the height, the columns that were there
    keep their order with the new ones after them, every definition is
    counted once as created or skipped, and one record is appended for each
    one created. *)
Theorem agg_loop_keeps_grid (config : list (string * AggDetails)) :
  forall st,
    rectangular (df_data_pl st) ->
    let st' := agg_loop config st in
    date (df_data_pl st') = date (df_data_pl st) /\
    rectangular (df_data_pl st') /\
    (exists added,
        map fst (data (df_data_pl st'))
        = map fst (data (df_data_pl st)) ++ added /\
        incl added (map fst config)) /\
    successful_aggregates st' + skipped_aggregates st'
    = successful_aggregates st + skipped_aggregates st
      + Z.of_nat (List.length config) /\
    Z.of_nat (List.length (new_symbols_metadata st'))
    = Z.of_nat (List.length (new_symbols_metadata st))
      + (successful_aggregates st' - successful_aggregates st).
Proof.
  induction config as [|item config IH]; intros st Hr.
  - simpl. split; [reflexivity|]. split; [exact Hr|].
    split; [exists []; split; [now rewrite app_nil_r|intros x []]|].
    split; lia.
  - cbn [agg_loop fold_left]. fold (agg_loop config (agg_step st item)).
    assert (Hstep :
              date (df_data_pl (agg_step st item)) = date (df_data_pl st) /\
              rectangular (df_data_pl (agg_step st item)) /\
              (exists added,
                  map fst (data (df_data_pl (agg_step st item)))
                  = map fst (data (df_data_pl st)) ++ added /\
                  incl added [fst item]) /\
              successful_aggregates (agg_step st item)
              + skipped_aggregates (agg_step st item)
              = successful_aggregates st + skipped_aggregates st + 1 /\
              Z.of_nat (List.length (new_symbols_metadata (agg_step st item)))
              = Z.of_nat (List.length (new_symbols_metadata st))
                + (successful_aggregates (agg_step st item)
                   - successful_aggregates st)).
    { destruct (agg_step_cases st item) as [E|(series & He & E)]; rewrite E;
        cbn [df_data_pl new_symbols_metadata successful_aggregates
             skipped_aggregates].
      - split; [reflexivity|]. split; [exact Hr|].
        split; [exists []; split; [now rewrite app_nil_r|intros x []]|].
        split; lia.
      - split; [reflexivity|]. split.
        + unfold rectangular, with_columns. cbn [data].
          apply set_column_Forall; [exact Hr|].
          cbn [snd]. exact (eval_length _ _ Hr _ He).
        + split.
          * unfold with_columns. cbn [data]. rewrite set_column_names.
            eexists. split; [reflexivity|].
            destruct (existsb _ _); [intros x []|apply incl_refl].
          * rewrite length_app. simpl. split; lia. }
    destruct Hstep as (Hd & Hr' & (a1 & Ha1 & Hi1) & Hc & Hm).
    destruct (IH (agg_step st item) Hr') as (Hd2 & Hr2 & (a2 & Ha2 & Hi2) & Hc2 & Hm2).
    split; [congruence|]. split; [exact Hr2|].
    split.
    { exists (a1 ++ a2). split; [now rewrite Ha2, Ha1, app_assoc|].
      apply incl_app.
      - intros x Hx. specialize (Hi1 x Hx). simpl in *. tauto.
      - intros x Hx. right. now apply Hi2. }
    cbn [List.length]. split; lia.
Qed.

Lemma agg_loop_keeps_grid_witness :
  let st := init_state Stated.grid_with_zeros in
  let st' := agg_loop aggregations_config st in
  date (df_data_pl st') = date (df_data_pl st) /\
  rectangular (df_data_pl st') /\
  (exists added,
      map fst (data (df_data_pl st'))
      = map fst (data (df_data_pl st)) ++ added /\
      incl added (map fst aggregations_config)) /\
  successful_aggregates st' + skipped_aggregates st'
  = successful_aggregates st + skipped_aggregates st
    + Z.of_nat (List.length aggregations_config) /\
  Z.of_nat (List.length (new_symbols_metadata st'))
  = Z.of_nat (List.length (new_symbols_metadata st))
    + (successful_aggregates st' - successful_aggregates st).
Proof.
  apply (agg_loop_keeps_grid aggregations_config
           (init_state Stated.grid_with_zeros)).
  repeat constructor.
Defined.

(** A column whose name is not a name of the catalog is not touched. *)
Theorem agg_loop_base_columns (config : list (string * AggDetails))
    (c : string) :
  ~ In c (map fst config) ->
  forall st,
    get_column c (data (df_data_pl (agg_loop config st)))
    = get_column c (data (df_data_pl st)).
Proof.
  induction config as [|item config IH]; intros Hc st; [reflexivity|].
  cbn [agg_loop fold_left]. fold (agg_loop config (agg_step st item)).
  rewrite IH by (intros H; apply Hc; now right).
  destruct (agg_step_cases st item) as [E|(series & He & E)]; rewrite E;
    cbn [df_data_pl]; [reflexivity|].
  unfold with_columns. cbn [data].
  apply get_set_column_other. intros ->. apply Hc. now left.
Qed.

Lemma agg_loop_base_columns_witness :
  get_column "GDP"
    (data (df_data_pl (agg_loop aggregations_config
                                (init_state Stated.grid_with_zeros))))
  = get_column "GDP" (data (df_data_pl (init_state Stated.grid_with_zeros))).
Proof.
  apply (agg_loop_base_columns aggregations_config "GDP").
  vm_compute. intuition discriminate.
Defined.

(** ** The symbols table *)

Lemma filter_none {A} (f : A -> bool) (l : list A) :
  (forall x, In x l -> f x = false) -> filter f l = [].
Proof.
  induction l as [|a l IH]; intros H; simpl; [reflexivity|].
  rewrite (H a (or_introl eq_refl)). apply IH. intros x Hx. apply H. now right.
Qed.

Lemma insert_symbols_again (table new : list SymbolEntry) :
  insert_symbols (insert_symbols table new) new = insert_symbols table new.
Proof.
  unfold insert_symbols at 1.
  rewrite filter_none; [apply app_nil_r|].
  intros e He. apply negb_false_iff. apply existsb_exists.
  unfold insert_symbols.
  destruct (existsb (fun t => String.eqb (symbol e) (symbol t)) table) eqn:E.
  - apply existsb_exists in E. destruct E as (t & Ht & Hs).
    exists t. split; [apply in_or_app; now left|exact Hs].
  - exists e. split; [|apply String.eqb_refl].
    apply in_or_app. right. apply filter_In. split; [exact He|].
    now rewrite E.
Qed.

(** The symbols table only grows at its end and never gets a symbol twice:
    the rows it had stay first, every new record's symbol is in the table
    afterwards, and when the table and the new records have no duplicate
    symbol, neither has the result. *)
Theorem insert_symbols_no_duplicate (table new : list SymbolEntry) :
  NoDup (map symbol table) ->
  NoDup (map symbol new) ->
  (exists added, insert_symbols table new = table ++ added) /\
  (forall e, In e new -> In (symbol e) (map symbol (insert_symbols table new))) /\
  NoDup (map symbol (insert_symbols table new)).
Proof.
  intros Ht Hn. unfold insert_symbols.
  split; [now eexists|].
  split.
  { intros e He. rewrite map_app. apply in_or_app.
    destruct (existsb (fun t => String.eqb (symbol e) (symbol t)) table) eqn:E.
    - left. apply existsb_exists in E. destruct E as (t & Hin & Hs).
      apply String.eqb_eq in Hs. rewrite Hs. now apply in_map.
    - right. apply in_map. apply filter_In. split; [exact He|now rewrite E]. }
  rewrite map_app. apply NoDup_app; [exact Ht| |].
  - clear Ht. induction new as [|e new IH]; simpl; [constructor|].
    inversion Hn as [|? ? Hx Hn']; subst.
    destruct (negb _); [|now apply IH].
    simpl. constructor; [|now apply IH].
    intros H. apply Hx. apply in_map_iff in H. destruct H as (y & Hy & Hin).
    apply filter_In in Hin. apply in_map_iff. exists y. tauto.
  - intros a Ha Hb. apply in_map_iff in Hb. destruct Hb as (e & <- & He).
    apply filter_In in He. destruct He as [_ He].
    apply negb_true_iff in He.
    apply in_map_iff in Ha. destruct Ha as (t & Hs & Hin).
    assert (Hex : existsb (fun t0 => String.eqb (symbol e) (symbol t0)) table = true).
    { apply existsb_exists. exists t. split; [exact Hin|].
      rewrite Hs. apply String.eqb_refl. }
    congruence.
Qed.

Lemma insert_symbols_no_duplicate_witness :
  let table := [mkEntry "GDP" "FRED" "Gross Domestic Product" "Billions"] in
  let new := [mkEntry "GDP" "Calc" "" ""; mkEntry "PI_by_GDP" "Calc" "" "Percent"] in
  (exists added, insert_symbols table new = table ++ added) /\
  (forall e, In e new -> In (symbol e) (map symbol (insert_symbols table new))) /\
  NoDup (map symbol (insert_symbols table new)).
Proof.
  apply insert_symbols_no_duplicate.
  - repeat constructor. simpl. tauto.
  - repeat constructor; simpl; intuition discriminate.
Defined.

(** A definition may read the column of a definition before it: when the
    first is evaluated and the components of the second are columns of the
    grid or the first's name, both are created, in order. *)
Theorem chained_definitions (st : LoopState)
    (name1 name2 : string) (def1 def2 : AggDetails) :
  (forall c, In c (components def1) -> In c (map fst (data (df_data_pl st)))) ->
  (forall c, In c (expr_cols (expr_lambda def1)) -> In c (components def1)) ->
  (forall c, In c (components def2) ->
             c = name1 \/ In c (map fst (data (df_data_pl st)))) ->
  (forall c, In c (expr_cols (expr_lambda def2)) -> In c (components def2)) ->
  let st' := agg_loop [(name1, def1); (name2, def2)] st in
  successful_aggregates st' = successful_aggregates st + 2 /\
  skipped_aggregates st' = skipped_aggregates st /\
  map symbol (new_symbols_metadata st')
  = map symbol (new_symbols_metadata st) ++ [name1; name2] /\
  (exists v, get_column name2 (data (df_data_pl st')) = Some v).
Proof.
  intros H1 H2 H3 H4. cbn [agg_loop fold_left].
  destruct (agg_step_evaluated st name1 def1 H1 H2) as (s1 & _ & E1).
  rewrite E1.
  set (st1 := mkState _ _ _ _).
  assert (Hc : forall c, In c (components def2) ->
                         In c (map fst (data (df_data_pl st1)))).
  { intros c Hin. unfold st1, with_columns. cbn [df_data_pl data].
    rewrite set_column_names. apply in_or_app.
    destruct (H3 c Hin) as [->|Hc]; [|now left].
    destruct (existsb (String.eqb name1) (map fst (data (df_data_pl st)))) eqn:E.
    - left. apply existsb_exists in E. destruct E as (x & Hx & Ex).
      apply String.eqb_eq in Ex. now subst x.
    - right. now left. }
  destruct (agg_step_evaluated st1 name2 def2 Hc H4) as (s2 & _ & E2).
  rewrite E2.
  cbn [successful_aggregates skipped_aggregates new_symbols_metadata df_data_pl].
  unfold st1. cbn [successful_aggregates skipped_aggregates new_symbols_metadata].
  split; [lia|]. split; [reflexivity|].
  split; [rewrite !map_app; cbn [map symbol]; now rewrite <- app_assoc|].
  exists s2. unfold with_columns. cbn [data]. apply get_set_column_same.
Qed.

Lemma chained_definitions_witness :
  let st := init_state Stated.grid_with_zeros in
  let def1 := mkAgg ["BUSLOANS"; "GDP"]%string
                (Sub (Col "BUSLOANS") (Col "GDP")) "" "" in
  let def2 := mkAgg ["A"; "GDP"]%string
                (Mul (Div (Col "A") (Col "GDP")) (Lit (Num.of_Z 100))) "" "" in
  let st' := agg_loop [("A"%string, def1); ("A_by_GDP"%string, def2)] st in
  successful_aggregates st' = successful_aggregates st + 2 /\
  skipped_aggregates st' = skipped_aggregates st /\
  map symbol (new_symbols_metadata st')
  = map symbol (new_symbols_metadata st) ++ ["A"; "A_by_GDP"]%string /\
  (exists v, get_column "A_by_GDP" (data (df_data_pl st')) = Some v).
Proof.
  intros st def1 def2.
  apply (chained_definitions st "A" "A_by_GDP" def1 def2);
    simpl; intuition (subst; auto 10).
Defined.

(** Running the evaluator again on the same grid, with the symbols table
    the first run left, gives the same grid and leaves the table as it
    is. *)
Theorem create_aggregate_series_again (config : list (string * AggDetails))
    (con : bool) (symbols : list SymbolEntry) (df_interpolated : DataFrame) :
  let run := create_aggregate_series config con symbols df_interpolated in
  create_aggregate_series config con (snd run) df_interpolated = run.
Proof.
  unfold create_aggregate_series.
  destruct (empty df_interpolated); [reflexivity|].
  cbn [snd].
  destruct (new_symbols_metadata (agg_loop config (init_state df_interpolated)))
    as [|m ms] eqn:E; [reflexivity|].
  destruct con; [|reflexivity].
  now rewrite insert_symbols_again.
Qed.

(** ** Division behind [replace(0, None)] *)

(** A rule that divides by [column.replace(0, None)] gives a null on every
    row where the column holds a zero, whatever the numerator. *)
Theorem guarded_division_null (df : DataFrame) (a : Expr) (c : string)
    (col r : list cell) (i : nat) (x : num) :
  get_column c (data df) = Some col ->
  nth_error col i = Some (Some x) ->
  Num.is_zero x = true ->
  eval df (Div a (ReplaceZeroNull (Col c))) = Some r ->
  (i < List.length r)%nat ->
  nth_error r i = Some None.
Proof.
  intros Hc Hx Hz He Hi.
  destruct (nth_error r i) as [v|] eqn:Ev.
  - now rewrite (div_replace_zero_null df a c col r i x v Hc Hx Hz He Ev).
  - apply nth_error_None in Ev. lia.
Qed.

Lemma guarded_division_null_witness :
  exists r,
    eval Stated.grid_with_zeros
      (Div (Sub (Col "^GSPC_high") (Col "^GSPC_low"))
           (ReplaceZeroNull (Col "^GSPC_open"))) = Some r /\
    nth_error r 0 = Some None.
Proof.
  exists [None; Some (Num.of_Z 0)]. split; [reflexivity|].
  apply (guarded_division_null Stated.grid_with_zeros
           (Sub (Col "^GSPC_high") (Col "^GSPC_low")) "^GSPC_open"
           [Some (Num.of_Z 0); Some (Num.of_Z 2)]
           [None; Some (Num.of_Z 0)] 0 (Num.of_Z 0));
    [reflexivity|reflexivity|reflexivity|reflexivity|simpl; lia].
Defined.

End EvaluatorExtras.

(* ================================================================== *)
(** * More on the Grid Normalizer *)
(* ================================================================== *)

Module NormalizerExtras.
Import Normalizer Shapes NormalizerFacts.
Local Open Scope list_scope.

(** ** Values that are there stay where they are *)

(** What the fill step does to the column in position [k]. *)
Lemma fill_step_column (usrec_symbol : string) (df : DataFrame)
    (k : nat) (nm : string) (c : Column) :
  nth_error (columns df) k = Some (nm, c) ->
  exists c',
    nth_error (columns (fill_step usrec_symbol df)) k = Some (nm, c') /\
    numeric c' = numeric c /\
    (cells c' = cells c \/ cells c' = ffill (cells c)
     \/ cells c' = interpolate_both (cells c)).
Proof.
  intros Hc. unfold fill_step, interpolate_cols, ffill_usrec.
  cbn [columns index]. rewrite !nth_error_map, Hc. cbn [option_map fst snd].
  unfold is_interpolation_col.
  destruct (String.eqb nm usrec_symbol) eqn:E; cbn [fst snd map_cells numeric].
  - rewrite E, andb_false_r.
    eexists. split; [reflexivity|]. split; [reflexivity|]. right. now left.
  - rewrite E, andb_true_r. destruct (numeric c) eqn:Hn.
    + eexists. split; [reflexivity|]. cbn [numeric cells map_cells].
      split; [congruence|]. right. now right.
    + exists c. split; [reflexivity|]. split; [congruence|]. now left.
Qed.

Lemma get_loc_nth (idx : list Z) :
  forall i d, NoDup idx -> nth_error idx i = Some d -> get_loc d idx = Some i.
Proof.
  induction idx as [|x tl IH]; intros i d Hu H; [destruct i; discriminate|].
  inversion Hu as [|? ? Hx Hu']; subst.
  destruct i; simpl in *.
  - injection H as ->. now rewrite Z.eqb_refl.
  - assert (Hd : d <> x) by (intros ->; apply Hx; eapply nth_error_In; eauto).
    apply Z.eqb_neq in Hd. rewrite Hd.
    now rewrite (IH _ _ Hu' H).
Qed.

(** Every value observed in the wide table is in the returned table, in its
    column and on the row of its date; filling never overwrites an
    observation. *)
Theorem observations_kept (df_wide df : DataFrame) (usrec_symbol : string)
    (i k : nat) (d : Z) (nm : string) (c : Column) (v : Q) :
  empty df_wide = false ->
  interpolate_and_process df_wide usrec_symbol = Return df ->
  nth_error (index df_wide) i = Some d ->
  nth_error (columns df_wide) k = Some (nm, c) ->
  nth_error (cells c) i = Some (Some v) ->
  exists c',
    nth_error (columns df) k = Some (nm, c') /\
    nth_error (index df) (Z.to_nat (d - index_min (index df_wide))) = Some d /\
    nth_error (cells c') (Z.to_nat (d - index_min (index df_wide)))
    = Some (Some v).
Proof.
  intros He Hrun Hd Hc Hv.
  unfold interpolate_and_process, reindex in Hrun. rewrite He in Hrun.
  destruct (is_unique (index df_wide)) eqn:Eu; [|discriminate].
  injection Hrun as <-.
  assert (Hu : NoDup (index df_wide)).
  { clear -Eu. induction (index df_wide) as [|x tl IH]; [constructor|].
    simpl in Eu. apply andb_true_iff in Eu. destruct Eu as [Hx Ht].
    constructor; [|now apply IH].
    intros Hin. apply negb_true_iff in Hx.
    assert (existsb (Z.eqb x) tl = true)
      by (apply existsb_exists; exists x; split; [exact Hin|apply Z.eqb_refl]).
    congruence. }
  destruct (empty_false _ He) as [Hi _].
  destruct (index_min_spec _ Hi) as [_ Hmin].
  destruct (index_max_spec _ Hi) as [_ Hmax].
  set (lo := index_min (index df_wide)) in *.
  set (hi := index_max (index df_wide)) in *.
  pose proof (nth_error_In _ _ Hd) as Hin.
  pose proof (Hmin _ Hin). pose proof (Hmax _ Hin).
  set (p := Z.to_nat (d - lo)).
  assert (Hp : nth_error (date_range lo hi) p = Some d).
  { unfold p. rewrite date_range_nth by lia. f_equal. lia. }
  set (df1 := mkFrame (date_range lo hi)
                (map (fun nc => (fst nc,
                                 reindex_column (index df_wide)
                                   (date_range lo hi) (snd nc)))
                     (columns df_wide))).
  assert (Hc1 : nth_error (columns df1) k
                = Some (nm, reindex_column (index df_wide) (date_range lo hi) c)).
  { unfold df1. cbn [columns]. now rewrite nth_error_map, Hc. }
  destruct (fill_step_column usrec_symbol df1 k nm _ Hc1) as (c' & Hc' & _ & Hcells).
  exists c'. split; [exact Hc'|]. split; [exact Hp|].
  assert (Hv1 : nth_error (cells (reindex_column (index df_wide)
                                    (date_range lo hi) c)) p = Some (Some v)).
  { unfold reindex_column. cbn [cells]. rewrite nth_error_map, Hp.
    cbn [option_map]. unfold take. rewrite (get_loc_nth _ _ _ Hu Hd).
    f_equal. now apply nth_error_nth. }
  destruct Hcells as [->|[->| ->]].
  - exact Hv1.
  - now apply ffill_from_nth.
  - now apply pandas_interpolate_nth.
Qed.

Lemma observations_kept_witness :
  exists c',
    nth_error (columns Stated.sparse_table_daily) 1 = Some ("GDP"%string, c') /\
    nth_error (index Stated.sparse_table_daily)
              (Z.to_nat (12 - index_min (index Stated.sparse_table))) = Some 12 /\
    nth_error (cells c') (Z.to_nat (12 - index_min (index Stated.sparse_table)))
    = Some (Some (7 # 2)%Q).
Proof.
  apply (observations_kept Stated.sparse_table Stated.sparse_table_daily
           "USREC" 1 1 12 "GDP"
           (mkColumn true [None; Some (7 # 2)%Q; None]) (7 # 2)%Q);
    reflexivity.
Defined.

(** ** The shape of the result *)

Lemma fill_column_shape (usrec_symbol : string) (nc : string * Column) :
  let nc1 := if String.eqb (fst nc) usrec_symbol
             then (fst nc, map_cells ffill (snd nc)) else nc in
  let nc2 := if is_interpolation_col usrec_symbol nc1
             then (fst nc1, map_cells interpolate_both (snd nc1)) else nc1 in
  fst nc2 = fst nc /\
  numeric (snd nc2) = numeric (snd nc) /\
  List.length (cells (snd nc2)) = List.length (cells (snd nc)).
Proof.
  destruct nc as [nm c]. unfold is_interpolation_col. cbn [fst snd].
  destruct (String.eqb nm usrec_symbol) eqn:E; cbn [fst snd map_cells numeric].
  - rewrite E, andb_false_r. cbn [fst snd numeric cells].
    repeat split. apply ffill_from_length.
  - rewrite E, andb_true_r. destruct (numeric c) eqn:Hn;
      cbn [fst snd map_cells numeric cells]; repeat split; try assumption.
    apply pandas_interpolate_length.
Qed.

Lemma fill_step_names (usrec_symbol : string) (df : DataFrame) :
  map fst (columns (fill_step usrec_symbol df)) = map fst (columns df) /\
  map (fun nc => numeric (snd nc)) (columns (fill_step usrec_symbol df))
  = map (fun nc => numeric (snd nc)) (columns df) /\
  map (fun nc => List.length (cells (snd nc)))
      (columns (fill_step usrec_symbol df))
  = map (fun nc => List.length (cells (snd nc))) (columns df).
Proof.
  unfold fill_step, interpolate_cols, ffill_usrec. cbn [columns index].
  rewrite !map_map.
  repeat split; apply map_ext; intros nc;
    destruct (fill_column_shape usrec_symbol nc) as (H1 & H2 & H3);
    assumption.
Qed.

(** The returned table has the columns of the input, in the same order and
    of the same kind; when the input is not empty each column is as long as
    the daily index. *)
Theorem processed_table_shape (df_wide df : DataFrame) (usrec_symbol : string) :
  interpolate_and_process df_wide usrec_symbol = Return df ->
  map fst (columns df) = map fst (columns df_wide) /\
  map (fun nc => numeric (snd nc)) (columns df)
  = map (fun nc => numeric (snd nc)) (columns df_wide) /\
  (empty df_wide = false -> pandas_rectangular df).
Proof.
  unfold interpolate_and_process, reindex.
  destruct (empty df_wide) eqn:He.
  - intros H. injection H as <-. repeat split. discriminate.
  - destruct (is_unique (index df_wide)); [|discriminate].
    intros H. injection H as <-.
    destruct (fill_step_names usrec_symbol
                (mkFrame (date_range (index_min (index df_wide))
                                     (index_max (index df_wide)))
                   (map (fun nc => (fst nc,
                           reindex_column (index df_wide)
                             (date_range (index_min (index df_wide))
                                         (index_max (index df_wide)))
                             (snd nc)))
                        (columns df_wide)))) as (Hn & Hk & Hl).
    cbn [columns] in Hn, Hk, Hl.
    split; [rewrite Hn, map_map; now apply map_ext|].
    split; [rewrite Hk, map_map; now apply map_ext|].
    intros _. unfold pandas_rectangular.
    apply Forall_forall. intros nc Hin.
    apply (in_map (fun nc => List.length (cells (snd nc)))) in Hin.
    rewrite Hl, map_map in Hin. apply in_map_iff in Hin.
    destruct Hin as (nc0 & <- & _). cbn [snd reindex_column cells].
    now rewrite length_map.
Qed.

Lemma processed_table_shape_witness :
  map fst (columns Stated.sparse_table_daily)
  = map fst (columns Stated.sparse_table) /\
  map (fun nc => numeric (snd nc)) (columns Stated.sparse_table_daily)
  = map (fun nc => numeric (snd nc)) (columns Stated.sparse_table) /\
  (empty Stated.sparse_table = false ->
   pandas_rectangular Stated.sparse_table_daily).
Proof.
  apply (processed_table_shape Stated.sparse_table Stated.sparse_table_daily
           "USREC").
  reflexivity.
Defined.

(** ** Filling twice *)

Lemma ffill_from_again (l : list cell) :
  forall prev, ffill_from prev (ffill_from prev l) = ffill_from prev l.
Proof.
  induction l as [|c tl IH]; intros prev; simpl; [reflexivity|].
  destruct c as [v|]; simpl.
  - now rewrite IH.
  - destruct prev as [v|]; simpl; now rewrite IH.
Qed.

Lemma interpolate_from_full (l : list cell) :
  ~ In None l -> forall prev k, interpolate_from prev k l = l.
Proof.
  induction l as [|c tl IH]; intros H prev k; simpl; [reflexivity|].
  destruct c as [v|]; [|exfalso; apply H; now left].
  rewrite IH; [reflexivity|]. intros Hin. apply H. now right.
Qed.

Lemma next_valid_found (l : list cell) (d : nat) (v : Q) :
  next_valid l = Some (d, v) -> In (Some v) l.
Proof.
  revert d. induction l as [|c tl IH]; intros d H; [discriminate|].
  destruct c as [w|]; simpl in H.
  - injection H as _ ->. now left.
  - destruct (next_valid tl) as [[d' w]|] eqn:E; [|discriminate].
    injection H as _ ->. right. now apply (IH d').
Qed.

Lemma interpolate_from_void (l : list cell) :
  (forall v, ~ In (Some v) l) -> forall k, interpolate_from None k l = l.
Proof.
  induction l as [|c tl IH]; intros H k; simpl; [reflexivity|].
  destruct c as [v|]; [exfalso; apply (H v); now left|].
  assert (Ht : forall v, ~ In (Some v) tl)
    by (intros v Hin; apply (H v); now right).
  rewrite (IH Ht).
  destruct (next_valid tl) as [[d hi]|] eqn:E; [|reflexivity].
  exfalso. exact (Ht hi (next_valid_found _ _ _ E)).
Qed.

Lemma interpolate_both_again (l : list cell) :
  interpolate_both (interpolate_both l) = interpolate_both l.
Proof.
  unfold interpolate_both.
  destruct (existsb (fun c => match c with Some _ => true | None => false end) l)
    eqn:E.
  - apply existsb_exists in E. destruct E as ([v|] & Hin & Hv); [|discriminate].
    apply interpolate_from_full. apply interpolate_from_no_null.
    right. now exists v.
  - rewrite (interpolate_from_void l); [|].
    + apply interpolate_from_void.
      intros v Hin.
      assert (H : existsb (fun c => match c with Some _ => true | None => false end) l
                  = true)
        by (apply existsb_exists; exists (Some v); now split).
      congruence.
    + intros v Hin.
      assert (H : existsb (fun c => match c with Some _ => true | None => false end) l
                  = true)
        by (apply existsb_exists; exists (Some v); now split).
      congruence.
Qed.

(** The fill step changes nothing on a table it has already filled. *)
Theorem fill_step_again (usrec_symbol : string) (df : DataFrame) :
  fill_step usrec_symbol (fill_step usrec_symbol df) = fill_step usrec_symbol df.
Proof.
  unfold fill_step, interpolate_cols, ffill_usrec. cbn [columns index].
  f_equal. rewrite !map_map. apply map_ext. intros [nm [num cs]].
  unfold is_interpolation_col, map_cells. cbn [fst snd numeric cells].
  destruct (String.eqb nm usrec_symbol) eqn:E;
    cbn [fst snd numeric cells]; rewrite ?E, ?andb_false_r, ?andb_true_r;
    cbn [fst snd numeric cells]; rewrite ?E, ?andb_false_r, ?andb_true_r;
    cbn [fst snd numeric cells].
  - repeat (rewrite E || rewrite andb_false_r || cbn [fst snd numeric cells]).
    unfold ffill. now rewrite ffill_from_again.
  - destruct num;
      repeat (rewrite E || cbn [fst snd numeric cells andb negb]);
      [|reflexivity].
    now rewrite interpolate_both_again.
Qed.

(** ** Filled values stay within the observed range *)

Lemma interp_within (lo hi m M : Q) (dx span : nat) :
  (dx <= span)%nat -> (0 < span)%nat ->
  (m <= lo)%Q -> (lo <= M)%Q -> (m <= hi)%Q -> (hi <= M)%Q ->
  (m <= interp lo hi dx span)%Q /\ (interp lo hi dx span <= M)%Q.
Proof.
  intros Hd Hs H1 H2 H3 H4. unfold interp. rewrite Qred_correct.
  assert (H0 : (0 < inject_Z (Z.of_nat span))%Q).
  { replace 0%Q with (inject_Z 0) by reflexivity. rewrite <- Zlt_Qlt. lia. }
  assert (Hn : (0 <= inject_Z (Z.of_nat dx))%Q).
  { replace 0%Q with (inject_Z 0) by reflexivity. rewrite <- Zle_Qle. lia. }
  assert (Hle : (inject_Z (Z.of_nat dx) <= inject_Z (Z.of_nat span))%Q).
  { rewrite <- Zle_Qle. lia. }
  set (t := (inject_Z (Z.of_nat dx) / inject_Z (Z.of_nat span))%Q).
  assert (Ht0 : (0 <= t)%Q) by (apply Qle_shift_div_l; [exact H0|lra]).
  assert (Ht1 : (t <= 1)%Q) by (apply Qle_shift_div_r; [exact H0|lra]).
  assert (E : ((hi - lo) / inject_Z (Z.of_nat span) * inject_Z (Z.of_nat dx) + lo
               == (hi - lo) * t + lo)%Q).
  { unfold t. field. intros Hz. rewrite Hz in H0. discriminate. }
  rewrite E. split; nra.
Qed.

Lemma interpolate_from_within (m M : Q) (l : list cell) :
  (forall v, In (Some v) l -> (m <= v)%Q /\ (v <= M)%Q) ->
  forall prev k,
    (forall lo, prev = Some lo -> (m <= lo)%Q /\ (lo <= M)%Q) ->
    forall v, In (Some v) (interpolate_from prev k l) ->
              (m <= v)%Q /\ (v <= M)%Q.
Proof.
  induction l as [|c tl IH]; intros Hl prev k Hp v Hin; [contradiction|].
  assert (Ht : forall w, In (Some w) tl -> (m <= w)%Q /\ (w <= M)%Q)
    by (intros w Hw; apply Hl; now right).
  destruct c as [x|]; simpl in Hin.
  - destruct Hin as [Hin|Hin].
    + injection Hin as <-. apply Hl. now left.
    + apply (IH Ht (Some x) O); [|exact Hin].
      intros lo Hlo. injection Hlo as <-. apply Hl. now left.
  - destruct Hin as [Hin|Hin]; [|exact (IH Ht prev (S k) Hp v Hin)].
    destruct prev as [lo|]; destruct (next_valid tl) as [[d hi]|] eqn:E;
      try discriminate; injection Hin as <-.
    + destruct (Hp lo eq_refl) as [Ha Hb].
      destruct (Ht hi (next_valid_found _ _ _ E)) as [Hc Hd].
      apply interp_within; try assumption; lia.
    + exact (Hp lo eq_refl).
    + exact (Ht hi (next_valid_found _ _ _ E)).
Qed.

Lemma ffill_from_values (l : list cell) :
  forall prev v, In (Some v) (ffill_from prev l) ->
                 prev = Some v \/ In (Some v) l.
Proof.
  induction l as [|c tl IH]; intros prev v Hin; [contradiction|].
  destruct c as [x|]; simpl in Hin.
  - destruct Hin as [Hin|Hin]; [right; now left|].
    destruct (IH _ _ Hin) as [H|H]; right; [left; exact H|now right].
  - destruct Hin as [Hin|Hin]; [now left|].
    destruct (IH _ _ Hin) as [H|H]; [now left|right; now right].
Qed.

(** The fill step invents no value outside what the column shows: when the
    values of a column lie between two bounds, so do all its values after
    the fill, forward-filled or interpolated. *)
Theorem fill_step_within (usrec_symbol : string) (df : DataFrame)
    (k : nat) (nm : string) (c c' : Column) (m M : Q) :
  nth_error (columns df) k = Some (nm, c) ->
  nth_error (columns (fill_step usrec_symbol df)) k = Some (nm, c') ->
  (forall v, In (Some v) (cells c) -> (m <= v)%Q /\ (v <= M)%Q) ->
  forall v, In (Some v) (cells c') -> (m <= v)%Q /\ (v <= M)%Q.
Proof.
  intros Hc Hc' Hr v Hin.
  destruct (fill_step_column usrec_symbol df k nm c Hc) as (c2 & E & _ & Hcells).
  rewrite E in Hc'. injection Hc' as <-.
  destruct Hcells as [Hs|[Hs|Hs]]; rewrite Hs in Hin.
  - now apply Hr.
  - destruct (ffill_from_values _ _ _ Hin) as [H|H]; [discriminate|now apply Hr].
  - apply (interpolate_from_within m M (cells c) Hr None O); [discriminate|exact Hin].
Qed.

Lemma fill_step_within_witness :
  ((1 # 1) <= (3 # 2))%Q /\ ((3 # 2) <= (2 # 1))%Q.
Proof.
  apply (fill_step_within "USREC"
           (mkFrame [0; 1; 2; 3]
              [("X"%string,
                mkColumn true [Some (1 # 1)%Q; None; Some (2 # 1)%Q; None])])
           0 "X"
           (mkColumn true [Some (1 # 1)%Q; None; Some (2 # 1)%Q; None])
           (mkColumn true
              [Some (1 # 1)%Q; Some (3 # 2)%Q; Some (2 # 1)%Q; Some (2 # 1)%Q])
           (1 # 1)%Q (2 # 1)%Q).
  - reflexivity.
  - vm_compute. reflexivity.
  - simpl. intros v [H|[H|[H|[H|[]]]]]; try discriminate;
      injection H as <-; split; discriminate.
  - simpl. right. now left.
Defined.

End NormalizerExtras.

(* ================================================================== *)
(** * More on the Recession Window Labeler *)
(* ================================================================== *)

Module RecessionExtras.
Import Recession RecessionRamp RecessionFacts NormalizerFacts EvaluatorExtras.
Local Open Scope list_scope.

(** ** The day counter *)

Lemma sum_key_snoc (k k' x : Z) (h : list (Z * Z)) :
  sum_key k (h ++ [(k', x)]) = sum_key k h + (if Z.eqb k' k then x else 0).
Proof.
  unfold sum_key. rewrite filter_app, map_app, fold_left_app. simpl.
  destruct (Z.eqb k' k); simpl; lia.
Qed.

Lemma sum_key_above (k acc : Z) (h : list (Z * Z)) :
  (forall p, In p h -> fst p <= acc) -> acc < k -> sum_key k h = 0.
Proof.
  intros H Hk. unfold sum_key. rewrite filter_none; [reflexivity|].
  intros p Hp. apply Z.eqb_neq. specialize (H p Hp). lia.
Qed.

Lemma cum_sum_over_after_cons (h : list (Z * Z)) (k x : Z) (key vals : list Z) :
  cum_sum_over_after h (k :: key) (x :: vals)
  = sum_key k (h ++ [(k, x)]) :: cum_sum_over_after (h ++ [(k, x)]) key vals.
Proof.
  unfold cum_sum_over_after. cbn [List.length seq map].
  f_equal. rewrite <- seq_shift, map_map. apply map_ext. intros i.
  cbn [nth combine firstn]. now rewrite <- app_assoc.
Qed.

Lemma ramp_from (l : list Z) :
  forall (h : list (Z * Z)) (acc prev r : Z),
    Forall (fun x => x = 0 \/ x = 1) l ->
    (prev = 0 \/ prev = 1) ->
    (forall p, In p h -> fst p <= acc) ->
    (prev = 1 -> sum_key acc h = r) ->
    (prev = 0 -> r = 0) ->
    map (fun p => if Z.eqb (fst p) 1 then snd p else 0)
        (combine l (cum_sum_over_after h
                      (cum_sum_bool_from acc (block_starts_from prev l)) l))
    = days_in_run_from r l.
Proof.
  induction l as [|x tl IH]; intros h acc prev r Hl Hp Hh Hs Hz; [reflexivity|].
  inversion Hl as [|? ? Hx Ht]; subst.
  cbn [block_starts_from cum_sum_bool_from].
  rewrite cum_sum_over_after_cons. cbn [combine map fst snd days_in_run_from].
  set (acc' := acc + (if Z.eqb x 1 && Z.eqb prev 0 then 1 else 0)).
  assert (Hacc : acc <= acc') by (unfold acc'; destruct (_ && _); lia).
  assert (Hh' : forall p, In p (h ++ [(acc', x)]) -> fst p <= acc').
  { intros p Hin. apply in_app_or in Hin. destruct Hin as [Hin|[<-|[]]].
    - specialize (Hh p Hin). lia.
    - simpl. lia. }
  destruct Hx as [->| ->].
  - (* an unflagged day *)
    change (Z.eqb 0 1) with false. cbv iota. f_equal.
    apply (IH (h ++ [(acc', 0)]) acc' 0 0 Ht (or_introl eq_refl) Hh');
      [discriminate|reflexivity].
  - (* a flagged day *)
    change (Z.eqb 1 1) with true. cbv iota.
    assert (Hv : sum_key acc' (h ++ [(acc', 1)]) = r + 1).
    { rewrite sum_key_snoc, Z.eqb_refl.
      destruct Hp as [->| ->].
      - unfold acc'. simpl.
        rewrite (sum_key_above (acc + 1) acc h Hh ltac:(lia)).
        rewrite (Hz eq_refl). reflexivity.
      - unfold acc'. simpl. rewrite Z.add_0_r. now rewrite (Hs eq_refl). }
    rewrite Hv. f_equal.
    apply (IH (h ++ [(acc', 1)]) acc' 1 (r + 1) Ht (or_intror eq_refl) Hh');
      [intros _; exact Hv|discriminate].
Qed.

(** On a column of flags 0 and 1 the counter of lines 120-131 counts the
    days since the current run of 1s began: one more than the day before on
    a flagged day, zero on any other day. *)
Theorem rec_init_smooth_counts (rec_init : list Z) :
  Forall (fun x => x = 0 \/ x = 1) rec_init ->
  rec_init_smooth rec_init = days_in_run rec_init.
Proof.
  intros H. unfold rec_init_smooth, days_in_run.
  change (cum_sum_over (window_id rec_init) rec_init)
    with (cum_sum_over_after [] (window_id rec_init) rec_init).
  unfold window_id, block_starts.
  apply ramp_from; try assumption; [now left| |reflexivity|reflexivity].
  intros p [].
Qed.

Lemma rec_init_smooth_counts_witness :
  rec_init_smooth [0; 1; 1; 1; 0; 0; 1; 1; 0; 1]
  = [0; 1; 2; 3; 0; 0; 1; 2; 0; 1].
Proof.
  refine (eq_trans (rec_init_smooth_counts [0; 1; 1; 1; 0; 0; 1; 1; 0; 1] _) _).
  - repeat (apply Forall_cons; [lia|]). apply Forall_nil.
  - reflexivity.
Defined.

Lemma flag_window_binary (dates : list Date) (flags : list Z) (r : RecessionRow) :
  Forall (fun x => x = 0 \/ x = 1) flags ->
  Forall (fun x => x = 0 \/ x = 1) (flag_window dates flags r).
Proof.
  intros H. unfold flag_window.
  destruct (initStart r) as [s|]; [|exact H].
  destruct (initEnd r) as [e|]; [|exact H].
  apply Forall_forall. intros x Hx. apply in_map_iff in Hx.
  destruct Hx as ([d f] & <- & Hin). cbn [fst snd].
  destruct (_ && _); [now right|].
  apply in_combine_r in Hin. rewrite Forall_forall in H. now apply H.
Qed.

Lemma rec_init_binary (today : Date) (sorted : list Row) :
  Forall (fun x => x = 0 \/ x = 1) (rec_init today sorted).
Proof.
  unfold rec_init.
  generalize (df_recession today sorted) as rs.
  assert (H0 : Forall (fun x => x = 0 \/ x = 1)
                      (repeat 0 (List.length sorted)))
    by (apply Forall_forall; intros x Hx; apply repeat_spec in Hx; now left).
  revert H0. generalize (repeat 0 (List.length sorted)) as flags.
  intros flags H0 rs. revert flags H0.
  induction rs as [|r rs IH]; intros flags H0; [exact H0|].
  simpl. apply IH. now apply flag_window_binary.
Qed.

(** On the flags the labeler computes, the counter of lines 120-131 counts
    the days since the current initiation window began: one more than the
    day before on a flagged day, zero on any other day. *)
Theorem labeler_counter (today : Date) (sorted : list Row) :
  rec_init_smooth (rec_init today sorted)
  = days_in_run (rec_init today sorted).
Proof. apply rec_init_smooth_counts, rec_init_binary. Qed.

(** ** The episodes that are kept *)

Lemma dates_where_diff_incl (k : Z) (dates : list Date) (d : list (option Z))
    (x : Date) :
  In x (dates_where_diff k dates d) -> In x dates.
Proof.
  unfold dates_where_diff. intros H. apply in_map_iff in H.
  destruct H as ([a b] & <- & Hin). apply filter_In in Hin.
  destruct Hin as [Hin _]. now apply in_combine_l in Hin.
Qed.

Lemma min_date_le (l : list Date) (m x : Date) :
  min_date l = Some m -> In x l -> m <= x.
Proof.
  destruct l as [|a l]; [discriminate|]. simpl. intros H Hin.
  injection H as <-. now apply (fold_min_spec l a).
Qed.

Lemma filter_all {A} (f : A -> bool) (l : list A) :
  (forall x, In x l -> f x = true) -> filter f l = l.
Proof.
  induction l as [|a l IH]; intros H; simpl; [reflexivity|].
  rewrite (H a (or_introl eq_refl)). f_equal. apply IH.
  intros x Hx. apply H. now right.
Qed.

Lemma zip4_starts (f g : Date -> option Date) (starts : list Date) :
  forall ends,
    map start (zip4 (map f starts) (map g starts) starts ends)
    = firstn (List.length ends) starts.
Proof.
  induction starts as [|s tl IH]; intros [|e ends]; simpl; try reflexivity.
  now rewrite IH.
Qed.

Lemma dt_end_dates_length (today : Date) (sorted : list Row) :
  dt_start_dates sorted <> [] ->
  (1 <= List.length (dt_end_dates today sorted))%nat.
Proof.
  intros Hs. unfold dt_end_dates.
  set (ends := match dates_where_diff (-1) _ _, dt_start_dates sorted with
               | e :: tl, s :: _ => _
               | _, _ => _
               end).
  destruct (Nat.ltb (List.length ends) (List.length (dt_start_dates sorted)))
    eqn:E.
  - rewrite length_app. simpl. lia.
  - apply Nat.ltb_ge in E.
    destruct (dt_start_dates sorted); [congruence|simpl in E; lia].
Qed.

Lemma episodes_start_dates (today : Date) (sorted : list Row) :
  let starts := dt_start_dates sorted in
  let ends := dt_end_dates today sorted in
  let n := Nat.min (List.length starts) (List.length ends) in
  map start (df_recession today sorted) = firstn n starts.
Proof.
  intros starts ends n.
  unfold df_recession. fold starts. fold ends.
  rewrite !length_map.
  replace (Nat.min (Nat.min (List.length starts) (List.length starts))
                   (Nat.min (List.length starts) (List.length ends)))
    with n by (unfold n; lia).
  destruct (Nat.eqb n 0) eqn:E0.
  { apply Nat.eqb_eq in E0. now rewrite E0. }
  rewrite !firstn_map.
  set (rows := zip4 _ _ _ _).
  assert (Hrows : map start rows = firstn n starts).
  { unfold rows. rewrite zip4_starts, length_firstn, firstn_firstn.
    f_equal. unfold n. lia. }
  destruct (min_date (map fst sorted)) as [m|] eqn:Em; [|exact Hrows].
  rewrite filter_all; [exact Hrows|].
  intros r Hr. apply Z.leb_le.
  apply (min_date_le _ _ _ Em).
  apply (dates_where_diff_incl 1 _ (diff (map snd sorted))).
  fold (dt_start_dates sorted). fold starts.
  assert (Hin : In (start r) (map start rows)) by now apply in_map.
  rewrite Hrows in Hin. revert Hin. clear.
  generalize n. induction starts as [|a l IH]; intros k H.
  - destruct k; contradiction.
  - destruct k; [contradiction|]. simpl in H.
    destruct H as [H|H]; [now left|right; eauto].
Qed.

(** The episodes kept are the first [n] start dates of the grid, [n] being
    the smaller of the numbers of start and of end dates (the end dates
    after the adjustments of lines 76-86); the test of line 105 against the
    earliest date of the grid removes none, and when there is a start date
    at least one episode is kept. *)
Theorem episodes_kept (today : Date) (sorted : list Row) :
  let starts := dt_start_dates sorted in
  let ends := dt_end_dates today sorted in
  let n := Nat.min (List.length starts) (List.length ends) in
  map start (df_recession today sorted) = firstn n starts /\
  List.length (df_recession today sorted) = n /\
  (starts <> [] -> (1 <= n)%nat).
Proof.
  intros starts ends n.
  pose proof (episodes_start_dates today sorted) as Hkeep.
  cbv zeta in Hkeep. fold starts ends n in Hkeep.
  split; [exact Hkeep|].
  split.
  - rewrite <- (length_map start), Hkeep, length_firstn. unfold n. lia.
  - intros Hs. pose proof (dt_end_dates_length today sorted Hs).
    fold ends in H.
    assert (H1 : (1 <= List.length starts)%nat).
    { clear -Hs. destruct starts; [congruence|simpl; lia]. }
    unfold n. lia.
Qed.

Lemma episodes_kept_witness :
  let sorted := sort_by_date Stated.regime_grid in
  let starts := dt_start_dates sorted in
  let ends := dt_end_dates 20000 sorted in
  let n := Nat.min (List.length starts) (List.length ends) in
  starts = [19400] /\ ends = [20000] /\
  map start (df_recession 20000 sorted) = firstn n starts /\
  List.length (df_recession 20000 sorted) = n /\
  (starts <> [] -> (1 <= n)%nat).
Proof.
  split; [vm_compute; reflexivity|].
  split; [vm_compute; reflexivity|].
  apply (episodes_kept 20000 (sort_by_date Stated.regime_grid)).
Defined.

(** ** A complete indicator *)

Lemma insert_row_sorted (r : Row) (l : list Row) :
  StronglySorted (fun a b => fst a <= fst b) l ->
  StronglySorted (fun a b => fst a <= fst b) (insert_row r l).
Proof.
  induction 1 as [|x l Hs IH Hx]; simpl; [repeat constructor|].
  unfold Row, Date in *.
  destruct (Z.leb (fst r) (fst x)) eqn:E.
  - apply Z.leb_le in E. constructor; [now constructor|].
    constructor; [exact E|].
    rewrite Forall_forall in Hx |- *. intros y Hy. specialize (Hx y Hy). lia.
  - apply Z.leb_gt in E. constructor; [exact IH|].
    rewrite Forall_forall in Hx |- *. intros y Hy.
    assert (Hin : y = r \/ In y l).
    { clear -Hy. induction l as [|a l IH]; simpl in Hy.
      - destruct Hy as [Hy|[]]; now left.
      - unfold Row, Date in *. destruct (Z.leb (fst r) (fst a)).
        + destruct Hy as [Hy|Hy]; [now left|now right].
        + destruct Hy as [Hy|Hy]; [right; now left|].
          destruct (IH Hy) as [H|H]; [now left|right; now right]. }
    destruct Hin as [->|Hin]; [lia|now apply Hx].
Qed.

Lemma sort_by_date_sorted (l : list Row) :
  StronglySorted (fun a b => fst a <= fst b) (sort_by_date l).
Proof.
  unfold sort_by_date. induction l as [|r l IH]; simpl; [constructor|].
  now apply insert_row_sorted.
Qed.

Lemma insert_row_Forall (P : Row -> Prop) (r : Row) (l : list Row) :
  P r -> Forall P l -> Forall P (insert_row r l).
Proof.
  intros Hr H. induction H as [|x l Hx Hl IH]; simpl; [now repeat constructor|].
  unfold Row, Date in *.
  destruct (Z.leb (fst r) (fst x)); repeat constructor; assumption.
Qed.

Lemma sort_by_date_Forall (P : Row -> Prop) (l : list Row) :
  Forall P l -> Forall P (sort_by_date l).
Proof.
  unfold sort_by_date. induction 1 as [|r l Hr Hl IH]; simpl; [constructor|].
  now apply insert_row_Forall.
Qed.

(** Start and end dates alternate: after a 1 there are at least as many
    ends as starts, after a 0 at most one start more than ends. *)
Lemma transitions_alternate (rows : list Row) :
  Forall (fun r => snd r = Some 0 \/ snd r = Some 1) rows ->
  forall p, p = 0 \/ p = 1 ->
    let S := List.length (dates_where_diff 1 (map fst rows)
                            (diff_from (Some p) (map snd rows))) in
    let E := List.length (dates_where_diff (-1) (map fst rows)
                            (diff_from (Some p) (map snd rows))) in
    (p = 1 -> (S <= E <= S + 1)%nat) /\ (p = 0 -> (E <= S <= E + 1)%nat).
Proof.
  induction 1 as [|[d u] rows Hu Hr IH]; intros p Hp.
  - simpl. lia.
  - cbn [snd] in Hu. cbv zeta.
    pose proof (IH 0 (or_introl eq_refl)) as IH0.
    pose proof (IH 1 (or_intror eq_refl)) as IH1.
    cbv zeta in IH0, IH1. clear IH.
    unfold dates_where_diff in *.
    destruct Hu as [->| ->]; destruct Hp as [->| ->]; simpl; simpl in IH0, IH1;
      lia.
Qed.

(** After a 0, on a grid in date order, the first end date is not before
    the first start date. *)
Lemma first_start_first (rows : list Row) :
  Forall (fun r => snd r = Some 0 \/ snd r = Some 1) rows ->
  StronglySorted (fun a b => fst a <= fst b) rows ->
  forall e ends,
    dates_where_diff (-1) (map fst rows) (diff_from (Some 0) (map snd rows))
    = e :: ends ->
    exists s starts,
      dates_where_diff 1 (map fst rows) (diff_from (Some 0) (map snd rows))
      = s :: starts /\ s <= e.
Proof.
  induction 1 as [|[d u] rows Hu Hr IH]; intros Hs e ends He.
  - discriminate.
  - inversion Hs as [|? ? Hs' Hd]; subst. cbn [snd] in Hu.
    destruct Hu as [->| ->].
    + unfold dates_where_diff in *. simpl in He |- *. now apply (IH Hs' e ends).
    + assert (He' : dates_where_diff (-1) (map fst rows)
                      (diff_from (Some 1) (map snd rows)) = e :: ends)
        by exact He.
      exists d, (dates_where_diff 1 (map fst rows)
                   (diff_from (Some 1) (map snd rows))).
      split; [reflexivity|].
      assert (Hin : In e (dates_where_diff (-1) (map fst rows)
                            (diff_from (Some 1) (map snd rows))))
        by (rewrite He'; now left).
      apply dates_where_diff_incl in Hin. apply in_map_iff in Hin.
      destruct Hin as (r & <- & Hrin).
      rewrite Forall_forall in Hd. exact (Hd r Hrin).
Qed.

(** On such a grid the adjusted list of end dates is never shorter than
    the list of start dates. *)
Lemma starts_le_ends (today : Date) (sorted : list Row) :
  Forall (fun r => snd r = Some 0 \/ snd r = Some 1) sorted ->
  StronglySorted (fun a b => fst a <= fst b) sorted ->
  (List.length (dt_start_dates sorted)
   <= List.length (dt_end_dates today sorted))%nat.
Proof.
  intros Hf Hs.
  destruct sorted as [|[d0 u0] rows]; [simpl; lia|].
  inversion Hf as [|? ? Hu Hr]; subst. inversion Hs as [|? ? Hs' _]; subst.
  cbn [snd] in Hu.
  set (S := dates_where_diff 1 (map fst rows) (diff_from u0 (map snd rows))).
  set (E := dates_where_diff (-1) (map fst rows) (diff_from u0 (map snd rows))).
  set (adj := match E, S with
              | e :: tl, s :: _ => if Z.ltb e s then tl else E
              | _, _ => E
              end).
  change (List.length S
          <= List.length (if Nat.ltb (List.length adj) (List.length S)
                          then adj ++ [today] else adj))%nat.
  assert (Hadj : (List.length S <= List.length adj + 1)%nat).
  { destruct Hu as [->| ->].
    - destruct (transitions_alternate rows Hr 0 (or_introl eq_refl)) as [_ H0].
      specialize (H0 eq_refl). fold S E in H0.
      unfold adj. destruct E as [|e tl] eqn:EE; [simpl in *; lia|].
      destruct (first_start_first rows Hr Hs' e tl EE) as (s & st & HS & Hle).
      fold S in HS. rewrite HS in *.
      assert (Hlt : Z.ltb e s = false) by (apply Z.ltb_ge; lia).
      rewrite Hlt. simpl in *. lia.
    - destruct (transitions_alternate rows Hr 1 (or_intror eq_refl)) as [H1 _].
      specialize (H1 eq_refl). fold S E in H1.
      unfold adj. destruct E as [|e tl]; [simpl in *; lia|].
      destruct S as [|s st]; [simpl in *; lia|].
      destruct (Z.ltb e s); simpl in *; lia. }
  destruct (Nat.ltb (List.length adj) (List.length S)) eqn:El.
  - rewrite length_app. simpl. lia.
  - apply Nat.ltb_ge in El. lia.
Qed.

(** When the indicator is 0 or 1 on every day, every start date of the
    grid gets its episode: none is lost for want of an end date, the last
    one ending on the current date when the indicator is still 1. *)
Theorem every_start_kept (today : Date) (df_data : list Row) :
  Forall (fun r => snd r = Some 0 \/ snd r = Some 1) df_data ->
  let sorted := sort_by_date df_data in
  map start (df_recession today sorted) = dt_start_dates sorted.
Proof.
  intros Hb sorted.
  rewrite (episodes_start_dates today sorted).
  pose proof (starts_le_ends today sorted
                (sort_by_date_Forall _ _ Hb) (sort_by_date_sorted df_data))
    as Hlen.
  rewrite Nat.min_l by exact Hlen. apply firstn_all.
Qed.

Lemma every_start_kept_witness :
  map start (df_recession 20000 (sort_by_date Stated.regime_grid))
  = dt_start_dates (sort_by_date Stated.regime_grid).
Proof.
  apply (every_start_kept 20000 Stated.regime_grid).
  unfold Stated.regime_grid. apply Forall_forall. intros r Hr.
  apply in_map_iff in Hr. destruct Hr as (i & <- & _). cbn [snd].
  destruct (Nat.leb 400 i); [now right|now left].
Defined.

End RecessionExtras.

(* ================================================================== *)
(** * Domain features and the symbols table update *)
(* ================================================================== *)

Module DomainFeaturesFacts.
Import Polars DomainFeatures EvaluatorExtras SymbolFeaturesFacts.
Local Open Scope list_scope.

Lemma not_in_columns (c : string) (df : Evaluator.DataFrame) :
  Evaluator.in_columns c df = false ->
  ~ In c (map fst (Evaluator.data df)).
Proof.
  intros H Hin. rewrite (in_columns_of_data _ _ Hin) in H. discriminate.
Qed.

Lemma feature_step_keeps (series_start_date_str series_end_date_str : string)
    (st : LoopState) (item : string * FeatureDef) :
  let st' := feature_step series_start_date_str series_end_date_str st item in
  Evaluator.date (processed_df st') = Evaluator.date (processed_df st) /\
  (forall c v, Evaluator.get_column c (Evaluator.data (processed_df st)) = Some v ->
               Evaluator.get_column c (Evaluator.data (processed_df st')) = Some v) /\
  (exists added,
      map fst (Evaluator.data (processed_df st'))
      = map fst (Evaluator.data (processed_df st)) ++ added) /\
  created_count st' + skipped_count st' = created_count st + skipped_count st + 1 /\
  Z.of_nat (List.length (new_metadata st'))
  = Z.of_nat (List.length (new_metadata st))
    + (created_count st' - created_count st).
Proof.
  assert (Hskip :
            Evaluator.date (processed_df (skip st))
            = Evaluator.date (processed_df st) /\
            (forall c v,
                Evaluator.get_column c (Evaluator.data (processed_df st)) = Some v ->
                Evaluator.get_column c (Evaluator.data (processed_df (skip st)))
                = Some v) /\
            (exists added,
                map fst (Evaluator.data (processed_df (skip st)))
                = map fst (Evaluator.data (processed_df st)) ++ added) /\
            created_count (skip st) + skipped_count (skip st)
            = created_count st + skipped_count st + 1 /\
            Z.of_nat (List.length (new_metadata (skip st)))
            = Z.of_nat (List.length (new_metadata st))
              + (created_count (skip st) - created_count st)).
  { unfold skip. cbn [processed_df new_metadata created_count skipped_count].
    split; [reflexivity|]. split; [auto|].
    split; [exists []; now rewrite app_nil_r|]. split; lia. }
  destruct item as [nm d]. unfold feature_step.
  destruct (Evaluator.in_columns nm (processed_df st)) eqn:En; [exact Hskip|].
  destruct (filter _ (components d)); [|exact Hskip].
  destruct (expr_lambda d (processed_df st)) as [c| |];
    [|exact Hskip|exact Hskip].
  cbn [processed_df new_metadata created_count skipped_count].
  split; [reflexivity|]. split.
  - intros c0 v Hv. unfold Evaluator.with_columns. cbn [Evaluator.data].
    rewrite get_set_column_other; [exact Hv|].
    intros ->. apply (not_in_columns _ _ En).
    apply get_column_In in Hv. now apply (in_map fst) in Hv.
  - split.
    + unfold Evaluator.with_columns. cbn [Evaluator.data].
      rewrite set_column_names. now eexists.
    + rewrite length_app. simpl. split; lia.
Qed.

(** Creating the domain features never changes what is in the grid: the
    date column and every column that was there keep their values, new
    columns come after them, every definition is counted once as created or
    skipped, and there is one metadata record for each one created. *)
Theorem domain_features_keep_grid
    (domain_features : list (string * FeatureDef))
    (df_data : Evaluator.DataFrame)
    (series_start_date_str series_end_date_str : string) :
  let st := fold_left (feature_step series_start_date_str series_end_date_str)
                      domain_features (mkState df_data [] 0 0) in
  create_domain_features domain_features df_data
    series_start_date_str series_end_date_str
  = (processed_df st, new_metadata st) /\
  Evaluator.date (processed_df st) = Evaluator.date df_data /\
  (forall c v, Evaluator.get_column c (Evaluator.data df_data) = Some v ->
               Evaluator.get_column c (Evaluator.data (processed_df st)) = Some v) /\
  (exists added,
      map fst (Evaluator.data (processed_df st))
      = map fst (Evaluator.data df_data) ++ added) /\
  created_count st + skipped_count st = Z.of_nat (List.length domain_features) /\
  Z.of_nat (List.length (new_metadata st)) = created_count st.
Proof.
  cbv zeta. split; [reflexivity|].
  assert (G : forall cat st0,
             let st := fold_left
                         (feature_step series_start_date_str series_end_date_str)
                         cat st0 in
             Evaluator.date (processed_df st) = Evaluator.date (processed_df st0) /\
             (forall c v,
                 Evaluator.get_column c (Evaluator.data (processed_df st0)) = Some v ->
                 Evaluator.get_column c (Evaluator.data (processed_df st)) = Some v) /\
             (exists added,
                 map fst (Evaluator.data (processed_df st))
                 = map fst (Evaluator.data (processed_df st0)) ++ added) /\
             created_count st + skipped_count st
             = created_count st0 + skipped_count st0 + Z.of_nat (List.length cat) /\
             Z.of_nat (List.length (new_metadata st))
             = Z.of_nat (List.length (new_metadata st0))
               + (created_count st - created_count st0)).
  { induction cat as [|item cat IH]; intros st0.
    - simpl. split; [reflexivity|]. split; [auto|].
      split; [exists []; now rewrite app_nil_r|]. split; lia.
    - cbn [fold_left].
      destruct (feature_step_keeps series_start_date_str series_end_date_str
                  st0 item) as (D1 & K1 & (a1 & A1) & C1 & M1).
      destruct (IH (feature_step series_start_date_str series_end_date_str
                      st0 item)) as (D2 & K2 & (a2 & A2) & C2 & M2).
      split; [congruence|]. split; [auto|].
      split; [exists (a1 ++ a2); now rewrite A2, A1, app_assoc|].
      cbn [List.length]. split; lia. }
  destruct (G domain_features (mkState df_data [] 0 0))
    as (D & K & A & C & M).
  cbn [processed_df new_metadata created_count skipped_count List.length] in *.
  split; [exact D|]. split; [exact K|]. split; [exact A|]. split; lia.
Qed.

Lemma domain_features_keep_grid_witness :
  let domain_features :=
    [("GDP_copy"%string,
      mkFeature ["GDP"%string]
        (fun df => match Evaluator.get_column "GDP" (Evaluator.data df) with
                   | Some c => Column c
                   | None => Raised
                   end)
        "copy of GDP"%string "Billions"%string None);
     ("Orphan"%string,
      mkFeature ["NOT_THERE"%string] (fun _ => InvalidType)
        ""%string ""%string None)] in
  let st := fold_left (feature_step "1950-01-01" "2020-01-01")
                      domain_features (mkState Stated.grid_with_zeros [] 0 0) in
  create_domain_features domain_features Stated.grid_with_zeros
    "1950-01-01" "2020-01-01"
  = (processed_df st, new_metadata st) /\
  Evaluator.date (processed_df st) = Evaluator.date Stated.grid_with_zeros /\
  (forall c v,
      Evaluator.get_column c (Evaluator.data Stated.grid_with_zeros) = Some v ->
      Evaluator.get_column c (Evaluator.data (processed_df st)) = Some v) /\
  (exists added,
      map fst (Evaluator.data (processed_df st))
      = map fst (Evaluator.data Stated.grid_with_zeros) ++ added) /\
  created_count st + skipped_count st = Z.of_nat (List.length domain_features) /\
  Z.of_nat (List.length (new_metadata st)) = created_count st.
Proof.
  intros domain_features.
  exact (domain_features_keep_grid domain_features Stated.grid_with_zeros
           "1950-01-01" "2020-01-01").
Defined.

(** ** The symbols table update *)

(** The update only appends to the symbols table, and only rows made from
    the new features, each with the feature's [label_y] as its unit; when
    the existing symbols could be read, no appended row has a symbol the
    table already held.  When the function reports success, every new
    feature has a row under its symbol. *)
Theorem update_symbols_table_rows (db : DbCalls)
    (table : list Evaluator.SymbolEntry)
    (new_metadata : list Features.FeatureMeta) :
  let r := _update_symbols_table db table new_metadata in
  (exists added,
      fst r = table ++ added /\
      forall e, In e added ->
                exists m, In m new_metadata /\ e = symbols_row m /\
                          Evaluator.entry_unit e = Features.label_y m /\
                          (select_ok db = true ->
                           ~ In (Evaluator.symbol e)
                                (map Evaluator.symbol table))) /\
  (snd r = true ->
   forall m, In m new_metadata ->
             In (Features.symbol m) (map Evaluator.symbol (fst r))).
Proof.
  cbv zeta. unfold _update_symbols_table.
  destruct new_metadata as [|m0 ms] eqn:E.
  { split; [|intros _ m []].
    exists []. split; [now rewrite app_nil_r|intros e []]. }
  rewrite <- E. clear E m0 ms.
  set (existing_symbols :=
         if select_ok db then map Evaluator.symbol table else []).
  set (new_symbols_df :=
         filter (fun e => negb (existsb (String.eqb (Evaluator.symbol e))
                                        existing_symbols))
                (map symbols_row new_metadata)).
  assert (Hadded : forall e, In e new_symbols_df ->
            exists m, In m new_metadata /\ e = symbols_row m /\
                      Evaluator.entry_unit e = Features.label_y m /\
                      (select_ok db = true ->
                       ~ In (Evaluator.symbol e) (map Evaluator.symbol table))).
  { intros e He. apply filter_In in He. destruct He as [He Hn].
    apply in_map_iff in He. destruct He as (m & <- & Hm).
    exists m. split; [exact Hm|]. split; [reflexivity|]. split; [reflexivity|].
    intros Hs Hin. apply negb_true_iff in Hn.
    unfold existing_symbols in Hn. rewrite Hs in Hn.
    assert (Hex : existsb (String.eqb (Evaluator.symbol (symbols_row m)))
                          (map Evaluator.symbol table) = true)
      by (apply existsb_exists; eexists; split;
          [exact Hin|apply String.eqb_refl]).
    congruence. }
  assert (Hrow : forall m, In m new_metadata ->
            In (Features.symbol m)
               (map Evaluator.symbol (table ++ new_symbols_df))).
  { intros m Hm. rewrite map_app. apply in_or_app.
    destruct (existsb (String.eqb (Features.symbol m)) existing_symbols) eqn:Ex.
    - left. apply existsb_exists in Ex. destruct Ex as (x & Hin & Hs).
      apply String.eqb_eq in Hs. subst x. unfold existing_symbols in Hin.
      destruct (select_ok db); [exact Hin|destruct Hin].
    - right. apply in_map_iff. exists (symbols_row m). split; [reflexivity|].
      apply filter_In. split; [now apply in_map|].
      cbn [symbols_row Evaluator.symbol]. now rewrite Ex. }
  destruct (connect_ok db); cbn [negb].
  2:{ split; [|discriminate].
      exists []. split; [now rewrite app_nil_r|intros e []]. }
  destruct new_symbols_df as [|e0 es] eqn:En.
  { split.
    - exists []. split; [now rewrite app_nil_r|intros e []].
    - intros _ m Hm. specialize (Hrow m Hm).
      now rewrite app_nil_r in Hrow. }
  destruct (insert_ok db); cbn [negb fst snd].
  2:{ split; [|discriminate].
      exists []. split; [now rewrite app_nil_r|intros e []]. }
  split; [now exists (e0 :: es)|].
  intros _. exact Hrow.
Qed.

Lemma update_symbols_table_rows_witness :
  let db := mkDb true true true true in
  let table := [Evaluator.mkEntry "GDP" "FRED" "Gross Domestic Product"
                                  "Billions"] in
  let new_metadata :=
    [Features.mkMeta "GDP" "Calc" "" "Billions" "" "";
     Features.mkMeta "GDP_Log" "Calc" "Log of GDP" "Log" "" ""] in
  let r := _update_symbols_table db table new_metadata in
  (exists added,
      fst r = table ++ added /\
      forall e, In e added ->
                exists m, In m new_metadata /\ e = symbols_row m /\
                          Evaluator.entry_unit e = Features.label_y m /\
                          (select_ok db = true ->
                           ~ In (Evaluator.symbol e)
                                (map Evaluator.symbol table))) /\
  (snd r = true ->
   forall m, In m new_metadata ->
             In (Features.symbol m) (map Evaluator.symbol (fst r))).
Proof.
  intros db table new_metadata.
  exact (update_symbols_table_rows db table new_metadata).
Defined.

End DomainFeaturesFacts.
